(** * Burn streaks, Fuel Point awards and daily insights

    A shallow embedding of the PL/pgSQL routines of the wellness tracker:
    the burn-streak calculators and their maintenance routines, the
    Morning Basics and custom-challenge daily completion procedures, the
    daily insight snapshot and the running count of challenge actions; and
    of the selection handler of the custom challenge's daily form.

    Conventions of the embedding.
    - A table is the list of its rows; a row is a record of the columns the
      routines read or write.
    - [uuid] values are numbers, a [date] is a day number and a
      [timestamptz] a number of seconds, both counted from 1970-01-01 (UTC).
    - A column the routines guard with COALESCE is an [option Z], [None]
      being NULL; the other columns are taken to be NOT NULL.  A column an
      INSERT leaves out takes its default, NULL or 0.
    - [CURRENT_DATE], [NOW()] and [auth.uid()] are arguments of the routine
      that reads them; [gen_random_uuid()] is a counter kept with the
      tables.
    - A routine is a function from the database state to an outcome: a
      result with the new state, or a raised error.  Where a property is
      about failures, the routine takes a fault plan that tells which of
      its write statements fail; INTEGER overflow raises by itself.
    - A counter that a loop over the rows of a table increments by one stays
      below the number of those rows; it is kept as a number without the
      overflow check. *)

From Stdlib Require Import ZArith NArith List Bool String Lia.
From Stdlib Require Import Permutation Sorted QArith.
From Equations Require Import Equations.
Import ListNotations.

Open Scope string_scope.
Open Scope list_scope.
Open Scope Z_scope.

(** ** SQL values *)

Definition uuid := N.
Definition date := Z.
Definition timestamptz := Z.

(** [DATE(ts)]: the calendar day of a timestamp. *)
Definition DATE (ts : timestamptz) : date := ts / 86400.

(** Day number of a proleptic Gregorian calendar date. *)
Definition make_date (y m d : Z) : date :=
  let y' := if m <=? 2 then y - 1 else y in
  let era := y' / 400 in
  let yoe := y' - era * 400 in
  let mp := if m <=? 2 then m + 9 else m - 3 in
  let doy := (153 * mp + 2) / 5 + d - 1 in
  let doe := yoe * 365 + yoe / 4 - yoe / 100 + doy in
  era * 146097 + doe - 719468.

Definition COALESCE (x : option Z) (d : Z) : Z :=
  match x with Some v => v | None => d end.

Definition GREATEST (a b : Z) : Z := Z.max a b.

(** [x > y] in a WHERE clause or an IF: NULL is not true. *)
Definition sql_gt (x : option Z) (y : Z) : bool :=
  match x with Some v => y <? v | None => false end.

(** ** ORDER BY and DISTINCT *)

Section OrderBy.
Context {A : Type}.
Variable leb : A -> A -> bool.

Fixpoint insert_sorted (x : A) (l : list A) : list A :=
  match l with
  | [] => [x]
  | y :: l' => if leb x y then x :: l else y :: insert_sorted x l'
  end.

(** [ORDER BY] with the order [leb]; rows that compare equal keep their
    relative position. *)
Definition order_by (l : list A) : list A := fold_right insert_sorted [] l.

Variable eqb : A -> A -> bool.

(** [SELECT DISTINCT] over an ordered result: adjacent repetitions are
    dropped. *)
Fixpoint distinct_adjacent (l : list A) : list A :=
  match l with
  | [] => []
  | x :: l' =>
      match l' with
      | [] => [x]
      | y :: _ => if eqb x y then distinct_adjacent l'
                  else x :: distinct_adjacent l'
      end
  end.

(** [SELECT DISTINCT ON (key)] over a result ordered by the key first: of
    each run of rows with one key the first row is kept. *)
Context {K : Type}.
Variable key : A -> K.
Variable key_eqb : K -> K -> bool.

Fixpoint distinct_on_from (prev : option K) (l : list A) : list A :=
  match l with
  | [] => []
  | x :: l' =>
      match prev with
      | Some k =>
          if key_eqb k (key x) then distinct_on_from prev l'
          else x :: distinct_on_from (Some (key x)) l'
      | None => x :: distinct_on_from (Some (key x)) l'
      end
  end.

Definition distinct_on (l : list A) : list A := distinct_on_from None l.
End OrderBy.

(** The order of an ORDER BY, as a relation. *)
Definition ordered {A} (leb : A -> A -> bool) (a b : A) : Prop :=
  leb a b = true.

(** Every key of [l] is at least the key seen last. *)
Definition above {A} (key : A -> N) (prev : option N) (l : list A) : Prop :=
  match prev with
  | Some k => forall x, In x l -> (k <= key x)%N
  | None => True
  end.

(** ** PL/pgSQL control flow: exceptions and sub-transactions *)

Inductive sqlerr :=
| integer_out_of_range
| numeric_field_overflow
| division_by_zero
| invalid_uuid_text
| cannot_extract_elements
| statement_failed (table : string).

Section Plpgsql.
Context {S : Type}.

(** A statement either completes with a value and a new database state or
    raises; what it wrote before raising is undone by whoever catches
    the error, so a raised outcome carries no state. *)
Inductive outcome (A : Type) :=
| Done (a : A) (s : S)
| Raised (e : sqlerr).
Arguments Done {A} a s.
Arguments Raised {A} e.

Definition plpgsql (A : Type) := S -> outcome A.

Definition ret {A} (a : A) : plpgsql A := fun s => Done a s.
Definition raise {A} (e : sqlerr) : plpgsql A := fun _ => Raised e.
Definition bind {A B} (c : plpgsql A) (k : A -> plpgsql B) : plpgsql B :=
  fun s => match c s with
           | Done a s' => k a s'
           | Raised e => Raised e
           end.
Definition gets {A} (f : S -> A) : plpgsql A := fun s => Done (f s) s.
Definition modify (f : S -> S) : plpgsql unit := fun s => Done tt (f s).

(** [BEGIN body EXCEPTION WHEN OTHERS THEN handler END]: the handler runs
    in the state the block was entered in. *)
Definition block {A} (body : plpgsql A) (handler : sqlerr -> plpgsql A)
  : plpgsql A :=
  fun s => match body s with
           | Done a s' => Done a s'
           | Raised e => handler e s
           end.

(** A write statement under a fault plan: the statement fails when the
    plan says so. *)
Definition write_stmt (fails : bool) (table : string) (c : plpgsql unit)
  : plpgsql unit :=
  if fails then raise (statement_failed table) else c.
End Plpgsql.

Arguments outcome : clear implicits.
Arguments plpgsql : clear implicits.
Arguments Done {S A} a s.
Arguments Raised {S A} e.

Declare Scope plpgsql_scope.
Delimit Scope plpgsql_scope with plpgsql.
Notation "x <- c ;; k" := (bind c (fun x => k))
  (at level 61, c at next level, right associativity) : plpgsql_scope.
Notation "c ;; k" := (bind c (fun _ => k))
  (at level 61, right associativity) : plpgsql_scope.

(** The plan under which no statement fails. *)
Definition no_faults {A} : A -> bool := fun _ => false.

(** The state a computation ends in; the starting state when it raises. *)
Definition state_after {S A} (c : plpgsql S A) (s : S) : S :=
  match c s with
  | Done _ s' => s'
  | Raised _ => s
  end.

(** INTEGER arithmetic: a result outside the 32-bit range raises. *)
Definition int4_min : Z := - 2 ^ 31.
Definition int4_max : Z := 2 ^ 31 - 1.
Definition int4 {S} (z : Z) : plpgsql S Z :=
  if (int4_min <=? z) && (z <=? int4_max) then ret z
  else raise integer_out_of_range.

(** [UPDATE t SET ... WHERE p]: [f] computes the new row and raises when an
    INTEGER expression of it overflows. *)
Fixpoint update_rows {R} (p : R -> bool) (f : R -> plpgsql unit R)
    (rows : list R) : plpgsql unit (list R) :=
  match rows with
  | [] => ret []
  | r :: rest =>
      (r' <- (if p r then f r else ret r) ;;
       rest' <- update_rows p f rest ;;
       ret (r' :: rest'))%plpgsql
  end.

(** ** Burn streaks *)

Module Streak.

Record user := {
  u_id : uuid;
  u_email : string;
  burn_streak : option Z;
  longest_burn_streak : option Z
}.

Record completed_boost := {
  cb_id : uuid;
  cb_user_id : uuid;
  cb_boost_id : string;
  completed_date : date
}.

Definition has_boost (completed_boosts : list completed_boost)
    (p_user_id : uuid) (d : date) : bool :=
  existsb (fun cb => (cb_user_id cb =? p_user_id)%N && (completed_date cb =? d))
          completed_boosts.

(** *** [calculate_burn_streak] (migration 20250705181753) *)

Definition v_max_days_to_check : Z := 100.

(** The local variables of the loop; [inspected] lists the dates the EXISTS
    query was run for, most recent query first. *)
Record streak_locals := {
  v_streak : Z;
  v_check_date : date;
  v_days_checked : Z;
  inspected : list date
}.

Definition streak_init (CURRENT_DATE : date) : streak_locals :=
  {| v_streak := 0; v_check_date := CURRENT_DATE; v_days_checked := 0;
     inspected := [] |}.

(** The loop is left at a day without a boost. *)
Definition streak_break (st : streak_locals) : streak_locals :=
  {| v_streak := v_streak st; v_check_date := v_check_date st;
     v_days_checked := v_days_checked st;
     inspected := v_check_date st :: inspected st |}.

(** A day with a boost is counted and the day before it comes next. *)
Definition streak_advance (st : streak_locals) : streak_locals :=
  {| v_streak := v_streak st + 1; v_check_date := v_check_date st - 1;
     v_days_checked := v_days_checked st + 1;
     inspected := v_check_date st :: inspected st |}.

(** Days the safety limit still allows: the loop's termination measure. *)
Definition days_left (st : streak_locals) : nat :=
  Z.to_nat (v_max_days_to_check - v_days_checked st).
Arguments days_left : simpl never.

Equations? streak_loop (completed_boosts : list completed_boost)
    (p_user_id : uuid) (st : streak_locals) : streak_locals
    by wf (days_left st) lt :=
  streak_loop completed_boosts p_user_id st
    with has_boost completed_boosts p_user_id (v_check_date st) => {
    | false := streak_break st;
    | true with Z_ge_dec (v_days_checked st + 1) v_max_days_to_check => {
      | left _ := streak_advance st;
      | right _ := streak_loop completed_boosts p_user_id (streak_advance st) } }.
Proof.
  unfold days_left, v_max_days_to_check, streak_advance in *.
  cbn [v_days_checked]. lia.
Qed.

Definition calculate_burn_streak (completed_boosts : list completed_boost)
    (CURRENT_DATE : date) (p_user_id : uuid) : Z :=
  v_streak (streak_loop completed_boosts p_user_id (streak_init CURRENT_DATE)).

(** *** The tables the streak routines use *)

Record fp_earning := {
  fe_user_id : uuid;
  fe_item_type : string;
  earned_at : timestamptz
}.

Record daily_fp_row := {
  df_user_id : uuid;
  df_date : date;
  df_fp_earned : Z
}.

(** A row of [manual_burn_streak_fixes]. *)
Record streak_fix := {
  sf_user_id : uuid;
  previous_streak : option Z;
  new_streak : option Z;
  previous_longest : option Z;
  new_longest : option Z;
  reason : string
}.

(** A row of [burn_streak_debug_logs], keyed by [dl_user_id]. *)
Record debug_log := {
  dl_user_id : uuid;
  calculated_streak : Z;
  dl_source : string
}.

Record db := {
  users : list user;
  completed_boosts : list completed_boost;
  fp_earnings : list fp_earning;
  daily_fp : list daily_fp_row;
  manual_burn_streak_fixes : list streak_fix;
  burn_streak_debug_logs : list debug_log
}.

Definition set_users (f : list user -> list user) (s : db) : db :=
  {| users := f (users s); completed_boosts := completed_boosts s;
     fp_earnings := fp_earnings s; daily_fp := daily_fp s;
     manual_burn_streak_fixes := manual_burn_streak_fixes s;
     burn_streak_debug_logs := burn_streak_debug_logs s |}.

Definition set_completed_boosts
    (f : list completed_boost -> list completed_boost) (s : db) : db :=
  {| users := users s; completed_boosts := f (completed_boosts s);
     fp_earnings := fp_earnings s; daily_fp := daily_fp s;
     manual_burn_streak_fixes := manual_burn_streak_fixes s;
     burn_streak_debug_logs := burn_streak_debug_logs s |}.

Definition set_fixes (f : list streak_fix -> list streak_fix) (s : db) : db :=
  {| users := users s; completed_boosts := completed_boosts s;
     fp_earnings := fp_earnings s; daily_fp := daily_fp s;
     manual_burn_streak_fixes := f (manual_burn_streak_fixes s);
     burn_streak_debug_logs := burn_streak_debug_logs s |}.

Definition set_debug_logs (f : list debug_log -> list debug_log) (s : db) : db :=
  {| users := users s; completed_boosts := completed_boosts s;
     fp_earnings := fp_earnings s; daily_fp := daily_fp s;
     manual_burn_streak_fixes := manual_burn_streak_fixes s;
     burn_streak_debug_logs := f (burn_streak_debug_logs s) |}.

(** [SELECT ... INTO ... FROM users WHERE id = p]: the first matching row,
    NULLs when there is none. *)
Definition select_user (p_user_id : uuid) (s : db) : option user :=
  find (fun u => (u_id u =? p_user_id)%N) (users s).

Definition user_column (col : user -> option Z) (p_user_id : uuid) (s : db)
  : option Z :=
  match select_user p_user_id s with Some u => col u | None => None end.

(** [UPDATE users SET ... WHERE id = p]. *)
Definition update_users_where_id (p_user_id : uuid) (f : user -> user)
  : list user -> list user :=
  map (fun u => if (u_id u =? p_user_id)%N then f u else u).

Definition with_burn_streak (v : option Z) (u : user) : user :=
  {| u_id := u_id u; u_email := u_email u; burn_streak := v;
     longest_burn_streak := longest_burn_streak u |}.

Definition with_streaks (v l : option Z) (u : user) : user :=
  {| u_id := u_id u; u_email := u_email u; burn_streak := v;
     longest_burn_streak := l |}.

(** *** [recalculate_burn_streak] (migration 20250705181753) *)

Inductive recalc_stmt := update_users_stmt | insert_fix_stmt.

Inductive recalc_result :=
| recalc_success (user_id : uuid) (previous_streak : option Z)
    (new_streak : Z) (previous_longest : option Z) (new_longest : Z)
| recalc_failure (error : sqlerr) (user_id : uuid).

Definition recalc_ok (r : recalc_result) : bool :=
  match r with recalc_success _ _ _ _ _ => true | recalc_failure _ _ => false end.

Definition recalc_user (r : recalc_result) : uuid :=
  match r with recalc_success u _ _ _ _ => u | recalc_failure _ u => u end.

Definition recalculate_burn_streak (faults : recalc_stmt -> bool)
    (CURRENT_DATE : date) (p_user_id : uuid) : plpgsql db recalc_result :=
  block
    (v_old_streak <- gets (user_column burn_streak p_user_id) ;;
     v_longest_streak <- gets (user_column longest_burn_streak p_user_id) ;;
     v_new_streak <- gets (fun s =>
       calculate_burn_streak (completed_boosts s) CURRENT_DATE p_user_id) ;;
     write_stmt (faults update_users_stmt) "users"
       (modify (set_users (update_users_where_id p_user_id (fun u =>
          with_streaks (Some v_new_streak)
            (Some (GREATEST (COALESCE (longest_burn_streak u) 0) v_new_streak))
            u)))) ;;
     write_stmt (faults insert_fix_stmt) "manual_burn_streak_fixes"
       (modify (set_fixes (fun l => l ++
          [{| sf_user_id := p_user_id;
              previous_streak := v_old_streak;
              new_streak := Some v_new_streak;
              previous_longest := v_longest_streak;
              new_longest :=
                Some (GREATEST (COALESCE v_longest_streak 0) v_new_streak);
              reason :=
                "Automatic recalculation via recalculate_burn_streak function"
           |}]))) ;;
     ret (recalc_success p_user_id v_old_streak v_new_streak v_longest_streak
            (GREATEST (COALESCE v_longest_streak 0) v_new_streak)))%plpgsql
    (fun e => ret (recalc_failure e p_user_id)).

(** *** [recalculate_all_burn_streaks] *)

Record recalc_summary := {
  total_users : Z;
  success_count : Z;
  error_count : Z;
  results : list recalc_result
}.

(** The loop variables: the two counters and the results array. *)
Record recalc_all_locals := {
  v_success_count : Z;
  v_error_count : Z;
  v_results : list recalc_result
}.

Definition recalc_all_body (faults : uuid -> recalc_stmt -> bool)
    (CURRENT_DATE : date) (v_user : uuid) (acc : recalc_all_locals)
  : plpgsql db recalc_all_locals :=
  (v_result <- recalculate_burn_streak (faults v_user) CURRENT_DATE v_user ;;
   ret (if recalc_ok v_result
        then {| v_success_count := v_success_count acc + 1;
                v_error_count := v_error_count acc;
                v_results := v_results acc ++ [v_result] |}
        else {| v_success_count := v_success_count acc;
                v_error_count := v_error_count acc + 1;
                v_results := v_results acc ++ [v_result] |}))%plpgsql.

(** [FOR v IN query LOOP body END LOOP] over the rows the query returned. *)
Fixpoint for_loop {S A B} (body : A -> B -> plpgsql S B) (rows : list A)
    (acc : B) : plpgsql S B :=
  match rows with
  | [] => ret acc
  | r :: rows' => (acc' <- body r acc ;; for_loop body rows' acc')%plpgsql
  end.

Inductive recalc_all_result :=
| recalc_all_success (summary : recalc_summary)
| recalc_all_failure (error : sqlerr).

Definition recalculate_all_burn_streaks (faults : uuid -> recalc_stmt -> bool)
    (CURRENT_DATE : date) : plpgsql db recalc_all_result :=
  block
    (ids <- gets (fun s => map u_id (users s)) ;;
     acc <- for_loop (recalc_all_body faults CURRENT_DATE) ids
              {| v_success_count := 0; v_error_count := 0; v_results := [] |} ;;
     ret (recalc_all_success
            {| total_users := v_success_count acc + v_error_count acc;
               success_count := v_success_count acc;
               error_count := v_error_count acc;
               results := v_results acc |}))%plpgsql
    (fun e => ret (recalc_all_failure e)).

Definition fix_all_user_burn_streaks := recalculate_all_burn_streaks.

(** The AFTER INSERT trigger on [completed_boosts]
    ([update_burn_streak_on_boost_completion]): the row is stored, then the
    user's streak is recalculated. *)
Definition insert_completed_boost (faults : recalc_stmt -> bool)
    (CURRENT_DATE : date) (NEW : completed_boost) : plpgsql db unit :=
  (modify (set_completed_boosts (fun l => l ++ [NEW])) ;;
   _ <- recalculate_burn_streak faults CURRENT_DATE (cb_user_id NEW) ;;
   ret tt)%plpgsql.

(** *** [reset_missed_burn_streaks]

    No failure is injected into this routine, so its EXCEPTION handler is
    never entered. *)

Record reset_summary := {
  reset_count : Z;
  date_checked : date;
  reset_results : list (uuid * option Z)
}.

Definition reset_body (v_user : user) (acc : Z * list (uuid * option Z))
  : plpgsql db (Z * list (uuid * option Z)) :=
  (modify (set_users (update_users_where_id (u_id v_user)
             (with_burn_streak (Some 0)))) ;;
   modify (set_fixes (fun l => l ++
     [{| sf_user_id := u_id v_user;
         previous_streak := burn_streak v_user;
         new_streak := Some 0;
         previous_longest := None;
         new_longest := None;
         reason := "Automatic reset due to missed day" |}])) ;;
   ret (fst acc + 1, snd acc ++ [(u_id v_user, burn_streak v_user)]))%plpgsql.

Definition reset_missed_burn_streaks (CURRENT_DATE : date)
  : plpgsql db reset_summary :=
  let v_yesterday := CURRENT_DATE - 1 in
  (targets <- gets (fun s =>
     filter (fun u => sql_gt (burn_streak u) 0 &&
                      negb (has_boost (completed_boosts s) (u_id u) v_yesterday))
            (users s)) ;;
   acc <- for_loop reset_body targets (0, []) ;;
   ret {| reset_count := fst acc; date_checked := v_yesterday;
          reset_results := snd acc |})%plpgsql.

(** *** [fix_user_burn_streak_20250624] (a one-off fix) *)

Definition fix_user_burn_streak_20250624 (p_user_id : uuid)
  : plpgsql db (option Z * Z) :=
  let v_new_streak := 22 in
  (v_old_streak <- gets (user_column burn_streak p_user_id) ;;
   modify (set_users (update_users_where_id p_user_id (fun u =>
     with_streaks (Some v_new_streak)
       (Some (GREATEST (COALESCE (longest_burn_streak u) 0) v_new_streak)) u))) ;;
   ret (v_old_streak, v_new_streak))%plpgsql.

(** *** [update_burn_streak] (discarded migration 20250609120414)

    The trigger that counts the first boost of a day. *)

Definition update_burn_streak (NEW : completed_boost) : plpgsql db unit :=
  (v_first_boost_today <- gets (fun s =>
     negb (existsb (fun cb => (cb_user_id cb =? cb_user_id NEW)%N &&
                              (completed_date cb =? completed_date NEW) &&
                              negb (cb_id cb =? cb_id NEW)%N)
                   (completed_boosts s))) ;;
   if v_first_boost_today : bool then
     v_current_streak <- gets (fun s =>
       COALESCE (user_column burn_streak (cb_user_id NEW) s) 0) ;;
     v_next <- int4 (v_current_streak + 1) ;;
     modify (set_users (update_users_where_id (cb_user_id NEW)
               (with_burn_streak (Some v_next)))) ;;
     modify (set_debug_logs (fun l =>
       let row := {| dl_user_id := cb_user_id NEW;
                     calculated_streak := v_next;
                     dl_source := "trigger_function" |} in
       if existsb (fun r => (dl_user_id r =? cb_user_id NEW)%N) l
       then map (fun r => if (dl_user_id r =? cb_user_id NEW)%N then row else r) l
       else l ++ [row]))
   else ret tt)%plpgsql.

(** The row is stored and the trigger runs. *)
Definition insert_completed_boost_20250609 (NEW : completed_boost)
  : plpgsql db unit :=
  (modify (set_completed_boosts (fun l => l ++ [NEW])) ;;
   update_burn_streak NEW)%plpgsql.

(** *** [fix_user_burn_streak] (discarded migration 20250614234610) *)

(** The loop [FOR i IN REVERSE array_length(v_dates, 1)..1], over the dates
    from the most recent one down. *)
Fixpoint fix_streak_loop (v_today v_yesterday : date) (dates_desc : list date)
    (v_last_date : option date) (v_current_streak : Z) : Z :=
  match dates_desc with
  | [] => v_current_streak
  | v_current_date :: rest =>
      match v_last_date with
      | None =>
          if (v_current_date =? v_today) || (v_current_date =? v_yesterday)
          then fix_streak_loop v_today v_yesterday rest (Some v_current_date) 1
          else 0
      | Some last =>
          if v_current_date + 1 <? last then v_current_streak
          else fix_streak_loop v_today v_yesterday rest (Some v_current_date)
                 (if negb (v_current_date =? last) then v_current_streak + 1
                  else v_current_streak)
      end
  end.

(** [array_agg(date ORDER BY date)] over the user's days with points. *)
Definition fp_dates (s : db) (p_user_id : uuid) : list date :=
  order_by Z.leb
    (map df_date
       (filter (fun r => (df_user_id r =? p_user_id)%N && (0 <? df_fp_earned r))
               (daily_fp s))).

Definition fix_user_burn_streak (CURRENT_DATE : date) (p_user_id : uuid)
  : plpgsql db (option Z * Z) :=
  let v_today := CURRENT_DATE in
  let v_yesterday := CURRENT_DATE - 1 in
  (v_old_streak <- gets (user_column burn_streak p_user_id) ;;
   v_dates <- gets (fun s => fp_dates s p_user_id) ;;
   match v_dates with
   | [] =>
       modify (set_users (update_users_where_id p_user_id
                 (with_burn_streak (Some 0)))) ;;
       ret (v_old_streak, 0)
   | _ :: _ =>
       let v_current_streak :=
         fix_streak_loop v_today v_yesterday (rev v_dates) None 0 in
       modify (set_users (update_users_where_id p_user_id
                 (with_burn_streak (Some v_current_streak)))) ;;
       ret (v_old_streak, v_current_streak)
   end)%plpgsql.

(** *** [calculate_burn_streak_from_fp_earnings]
    (discarded migration 20250609120414) *)

Definition is_boost_earning (p_user_id : uuid) (e : fp_earning) : bool :=
  (fe_user_id e =? p_user_id)%N && String.eqb (fe_item_type e) "boost".

(** [SELECT DISTINCT DATE(earned_at) ... ORDER BY date DESC]. *)
Definition boost_earning_dates (s : db) (p_user_id : uuid) : list date :=
  distinct_adjacent Z.eqb
    (order_by Z.geb
       (map (fun e => DATE (earned_at e))
            (filter (is_boost_earning p_user_id) (fp_earnings s)))).

(** The FOR loop over the dates; it returns [v_current_streak] and
    [v_last_date] as the loop leaves them. *)
Fixpoint earnings_loop (dates : list date) (v_last_date : option date)
    (v_current_streak : Z) : Z * option date :=
  match dates with
  | [] => (v_current_streak, v_last_date)
  | d :: rest =>
      match v_last_date with
      | None => earnings_loop rest (Some d) 1
      | Some last =>
          if d =? last - 1 then earnings_loop rest (Some d) (v_current_streak + 1)
          else (v_current_streak, v_last_date)
      end
  end.

Definition streak_from_fp_earnings (s : db) (CURRENT_DATE : date)
    (p_user_id : uuid) : Z :=
  let v_today := CURRENT_DATE in
  let v_yesterday := CURRENT_DATE - 1 in
  let '(v_current_streak, v_last_date) :=
    earnings_loop (boost_earning_dates s p_user_id) None 0 in
  match v_last_date with
  | Some last =>
      if last <? v_yesterday then
        if existsb (fun e => is_boost_earning p_user_id e &&
                             (DATE (earned_at e) =? v_today)) (fp_earnings s)
        then 1 else 0
      else v_current_streak
  | None => v_current_streak
  end.

Definition calculate_burn_streak_from_fp_earnings (CURRENT_DATE : date)
    (p_user_id : uuid) : plpgsql db Z :=
  (v_current_streak <- gets (fun s =>
     streak_from_fp_earnings s CURRENT_DATE p_user_id) ;;
   modify (set_debug_logs (fun l =>
     let row := {| dl_user_id := p_user_id;
                   calculated_streak := v_current_streak;
                   dl_source := "fp_earnings" |} in
     if existsb (fun r => (dl_user_id r =? p_user_id)%N) l
     then map (fun r => if (dl_user_id r =? p_user_id)%N then row else r) l
     else l ++ [row])) ;;
   ret v_current_streak)%plpgsql.

(** *** [fix_specific_user_burn_streak] (migration 20250705181753) *)

Inductive fix_specific_result :=
| fix_specific_success (user_email : string) (user_id : uuid)
    (result : recalc_result)
| fix_specific_not_found (p_email : string)
| fix_specific_failure (error : sqlerr) (email : string).

Definition has_email (p_email : string) (u : user) : bool :=
  String.eqb (u_email u) p_email.

Definition fix_specific_user_burn_streak (faults : recalc_stmt -> bool)
    (CURRENT_DATE : date) (p_email : string)
  : plpgsql db fix_specific_result :=
  block
    (v_user <- gets (fun s => find (has_email p_email) (users s)) ;;
     match v_user with
     | None => ret (fix_specific_not_found p_email)
     | Some u =>
         let v_user_id := u_id u in
         v_result <- recalculate_burn_streak faults CURRENT_DATE v_user_id ;;
         ret (fix_specific_success p_email v_user_id v_result)
     end)%plpgsql
    (fun e => ret (fix_specific_failure e p_email)).

(** *** [recalculate_burn_streaks] (discarded migration 20250614234610) *)

(** The loop [FOR i IN REVERSE array_length(v_dates, 1)..1] of the batch
    routine: the first date is counted whatever it is. *)
Fixpoint recalc_streak_loop (dates_desc : list date)
    (v_last_date : option date) (v_current_streak : Z) : Z :=
  match dates_desc with
  | [] => v_current_streak
  | v_current_date :: rest =>
      match v_last_date with
      | None => recalc_streak_loop rest (Some v_current_date) 1
      | Some last =>
          if v_current_date + 1 <? last then v_current_streak
          else recalc_streak_loop rest (Some v_current_date)
                 (if negb (v_current_date =? last) then v_current_streak + 1
                  else v_current_streak)
      end
  end.

(** [WHERE id = p AND burn_streak != v]: a NULL streak is not different. *)
Definition differs (p_user_id : uuid) (v : Z) (u : user) : bool :=
  (u_id u =? p_user_id)%N &&
  match burn_streak u with Some b => negb (b =? v) | None => false end.

Definition recalc_streaks_body (v_user : uuid) (v_updated_count : Z)
  : plpgsql db Z :=
  (v_dates <- gets (fun s => fp_dates s v_user) ;;
   let v_current_streak := recalc_streak_loop (rev v_dates) None 0 in
   found <- gets (fun s => existsb (differs v_user v_current_streak) (users s)) ;;
   modify (set_users (map (fun u =>
     if differs v_user v_current_streak u
     then with_burn_streak (Some v_current_streak) u else u))) ;;
   ret (if found : bool then v_updated_count + 1 else v_updated_count))%plpgsql.

(** [SELECT DISTINCT user_id FROM daily_fp WHERE fp_earned > 0]. *)
Definition users_with_points (s : db) : list uuid :=
  nodup N.eq_dec
    (map df_user_id (filter (fun r => 0 <? df_fp_earned r) (daily_fp s))).

(** It returns [users_updated]. *)
Definition recalculate_burn_streaks : plpgsql db Z :=
  (ids <- gets users_with_points ;;
   for_loop recalc_streaks_body ids 0)%plpgsql.

(** *** [fix_user_burn_streak_from_fp_earnings]
    (discarded migration 20250609120414) *)

Inductive fix_from_earnings_result :=
| streak_updated (old_streak : option Z) (new_streak : Z)
    (dates_with_boosts : option (list date))
| streak_not_updated (streak : option Z)
    (dates_with_boosts : option (list date)).

(** [jsonb_agg] over the dates: NULL when there is none. *)
Definition dates_with_boosts_of (s : db) (p_user_id : uuid)
  : option (list date) :=
  match boost_earning_dates s p_user_id with
  | [] => None
  | l => Some l
  end.

Definition fix_user_burn_streak_from_fp_earnings (CURRENT_DATE : date)
    (p_user_id : uuid) : plpgsql db fix_from_earnings_result :=
  (v_current_streak <- gets (user_column burn_streak p_user_id) ;;
   v_dates_with_boosts <- gets (fun s => dates_with_boosts_of s p_user_id) ;;
   v_correct_streak <-
     calculate_burn_streak_from_fp_earnings CURRENT_DATE p_user_id ;;
   if negb (v_correct_streak =? COALESCE v_current_streak 0) then
     modify (set_users (update_users_where_id p_user_id
               (with_burn_streak (Some v_correct_streak)))) ;;
     ret (streak_updated v_current_streak v_correct_streak v_dates_with_boosts)
   else
     ret (streak_not_updated v_current_streak v_dates_with_boosts))%plpgsql.

(** *** [fix_all_burn_streaks_from_fp_earnings]
    (discarded migration 20250609120414) *)

(** [SELECT DISTINCT user_id FROM fp_earnings WHERE item_type = 'boost']. *)
Definition users_with_boost_earnings (s : db) : list uuid :=
  nodup N.eq_dec
    (map fe_user_id
       (filter (fun e => String.eqb (fe_item_type e) "boost") (fp_earnings s))).

(** [WHERE id = p AND COALESCE(burn_streak, 0) != v]. *)
Definition off_by (p_user_id : uuid) (v : Z) (u : user) : bool :=
  (u_id u =? p_user_id)%N && negb (COALESCE (burn_streak u) 0 =? v).

Definition fix_all_earners_body (CURRENT_DATE : date) (v_user : uuid)
    (v_updated_count : Z) : plpgsql db Z :=
  (v_correct_streak <-
     calculate_burn_streak_from_fp_earnings CURRENT_DATE v_user ;;
   found <- gets (fun s => existsb (off_by v_user v_correct_streak) (users s)) ;;
   modify (set_users (map (fun u =>
     if off_by v_user v_correct_streak u
     then with_burn_streak (Some v_correct_streak) u else u))) ;;
   ret (if found : bool then v_updated_count + 1 else v_updated_count))%plpgsql.

(** [burn_streak > 0] and no boost entry in the ledger. *)
Definition streak_without_earnings (s : db) (u : user) : bool :=
  sql_gt (burn_streak u) 0 &&
  negb (existsb (is_boost_earning (u_id u)) (fp_earnings s)).

Definition fix_all_others_body (v_user : uuid) (v_updated_count : Z)
  : plpgsql db Z :=
  (modify (set_users (update_users_where_id v_user
             (with_burn_streak (Some 0)))) ;;
   ret (v_updated_count + 1))%plpgsql.

(** It returns [users_updated]. *)
Definition fix_all_burn_streaks_from_fp_earnings (CURRENT_DATE : date)
  : plpgsql db Z :=
  (ids <- gets users_with_boost_earnings ;;
   n <- for_loop (fix_all_earners_body CURRENT_DATE) ids 0 ;;
   others <- gets (fun s =>
     map u_id (filter (streak_without_earnings s) (users s))) ;;
   for_loop fix_all_others_body others n)%plpgsql.

(** *** [check_and_reset_burn_streak]
    (discarded migration 20250609120414)

    The trigger function of [daily_burn_streak_reset_trigger], which runs
    after every INSERT statement on [daily_fp]. *)

Definition earned_on (s : db) (p_user_id : uuid) (d : date) : bool :=
  existsb (fun e => (fe_user_id e =? p_user_id)%N &&
                    (DATE (earned_at e) =? d))
          (fp_earnings s).

(** A positive streak, an entry in the ledger yesterday and none today. *)
Definition idle (s : db) (CURRENT_DATE : date) (u : user) : bool :=
  let v_yesterday := CURRENT_DATE - 1 in
  sql_gt (burn_streak u) 0 &&
  negb (earned_on s (u_id u) CURRENT_DATE) &&
  earned_on s (u_id u) v_yesterday.

Definition reset_target_dec (a b : uuid * option Z) : {a = b} + {a <> b}.
Proof.
  decide equality; [decide equality; apply Z.eq_dec | apply N.eq_dec].
Defined.

Definition check_and_reset_body (v_user_record : uuid * option Z) (_ : unit)
  : plpgsql db unit :=
  (modify (set_users (update_users_where_id (fst v_user_record)
             (with_burn_streak (Some 0)))) ;;
   modify (set_debug_logs (fun l =>
     let row := {| dl_user_id := fst v_user_record;
                   calculated_streak := 0;
                   dl_source := "reset_trigger" |} in
     if existsb (fun r => (dl_user_id r =? fst v_user_record)%N) l
     then map (fun r => if (dl_user_id r =? fst v_user_record)%N
                        then row else r) l
     else l ++ [row])))%plpgsql.

Definition check_and_reset_burn_streak (CURRENT_DATE : date)
  : plpgsql db unit :=
  (targets <- gets (fun s =>
     nodup reset_target_dec
       (map (fun u => (u_id u, burn_streak u))
            (filter (idle s CURRENT_DATE) (users s)))) ;;
   for_loop check_and_reset_body targets tt)%plpgsql.

(** An INSERT statement on [daily_fp]: the rows are stored and the trigger
    runs once. *)
Definition insert_daily_fp_20250609 (CURRENT_DATE : date)
    (rows : list daily_fp_row) : plpgsql db unit :=
  (modify (fun s =>
     {| users := users s; completed_boosts := completed_boosts s;
        fp_earnings := fp_earnings s; daily_fp := daily_fp s ++ rows;
        manual_burn_streak_fixes := manual_burn_streak_fixes s;
        burn_streak_debug_logs := burn_streak_debug_logs s |}) ;;
   check_and_reset_burn_streak CURRENT_DATE)%plpgsql.

(** *** Vocabulary of the streak properties, and test data *)

(** [k] consecutive days ending on [d] carry a completed boost of the user,
    and the day before them carries none. *)
Definition run_ending (boosts : list completed_boost) (uid : uuid)
    (d : date) (k : Z) : Prop :=
  0 <= k /\
  (forall i, 0 <= i < k -> has_boost boosts uid (d - i) = true) /\
  has_boost boosts uid (d - k) = false.

(** The days [d], [d - 1], ..., [d - n + 1]. *)
Fixpoint days_back (d : date) (n : nat) : list date :=
  match n with
  | O => []
  | S n' => d :: days_back (d - 1) n'
  end.

(** Test data: one completed boost of [uid] on each of the days [ds]. *)
Definition boosts_on (uid : uuid) (ds : list date) : list completed_boost :=
  map (fun d => {| cb_id := 0%N; cb_user_id := uid; cb_boost_id := "boost";
                   completed_date := d |}) ds.

(** Whether some statement of a recalculation fails under the plan. *)
Definition recalc_fails (faults : recalc_stmt -> bool) : bool :=
  faults update_users_stmt || faults insert_fix_stmt.

(** What a recalculation that goes through writes into a user's row. *)
Definition recalc_row (new_streak : Z) (u : user) : user :=
  with_streaks (Some new_streak)
    (Some (GREATEST (COALESCE (longest_burn_streak u) 0) new_streak)) u.

(** *** The batch recalculation, row by row *)

(** The row of a user after the batch: untouched when the user's
    recalculation failed, recalculated otherwise. *)
Definition recalc_all_row (faults : uuid -> recalc_stmt -> bool)
    (today : date) (boosts : list completed_boost) (u : user) : user :=
  if recalc_fails (faults (u_id u)) then u
  else recalc_row (calculate_burn_streak boosts today (u_id u)) u.

Definition processed (faults : uuid -> recalc_stmt -> bool)
    (today : date) (boosts : list completed_boost) (ids : list uuid)
    (u : user) : user :=
  if existsb (N.eqb (u_id u)) ids then recalc_all_row faults today boosts u
  else u.

Definition succeeding (faults : uuid -> recalc_stmt -> bool)
    (ids : list uuid) : list uuid :=
  filter (fun id => negb (recalc_fails (faults id))) ids.

Definition failing (faults : uuid -> recalc_stmt -> bool)
    (ids : list uuid) : list uuid :=
  filter (fun id => recalc_fails (faults id)) ids.

(** A row is consistent when its current streak is not negative and not
    above its longest streak, NULL counting as 0 as in the routines'
    own COALESCE. *)
Definition consistent (u : user) : Prop :=
  0 <= COALESCE (burn_streak u) 0 <= COALESCE (longest_burn_streak u) 0.

Definition streak_invariant (s : db) : Prop :=
  forall u, In u (users s) -> consistent u.

(** The streak-updating operations of migration 20250705181753 and the
    one-off fix of 2025-06-24. *)
Inductive streak_op :=
| op_recalculate (faults : recalc_stmt -> bool) (p_user_id : uuid)
| op_recalculate_all (faults : uuid -> recalc_stmt -> bool)
| op_boost_completed (faults : recalc_stmt -> bool) (NEW : completed_boost)
| op_reset_missed
| op_fix_20250624 (p_user_id : uuid).

Definition run_op (today : date) (op : streak_op) : plpgsql db unit :=
  match op with
  | op_recalculate faults uid =>
      (_ <- recalculate_burn_streak faults today uid ;; ret tt)%plpgsql
  | op_recalculate_all faults =>
      (_ <- recalculate_all_burn_streaks faults today ;; ret tt)%plpgsql
  | op_boost_completed faults NEW => insert_completed_boost faults today NEW
  | op_reset_missed =>
      (_ <- reset_missed_burn_streaks today ;; ret tt)%plpgsql
  | op_fix_20250624 uid =>
      (_ <- fix_user_burn_streak_20250624 uid ;; ret tt)%plpgsql
  end.

(** The states reached from [s0] by these operations, each run on some
    day. *)
Inductive reachable (s0 : db) : db -> Prop :=
| reach_start : reachable s0 s0
| reach_step s op today s' :
    reachable s0 s -> run_op today op s = Done tt s' -> reachable s0 s'.

(** The June scenario on a database with one user who has no stored
    streaks yet. *)
Definition june_db : db :=
  {| users := [{| u_id := 7%N; u_email := "june@example.org";
                  burn_streak := None; longest_burn_streak := None |}];
     completed_boosts :=
       boosts_on 7%N [make_date 2025 6 1; make_date 2025 6 2; make_date 2025 6 3];
     fp_earnings := []; daily_fp := [];
     manual_burn_streak_fixes := []; burn_streak_debug_logs := [] |}.

(** A user on a three-day streak that is also their longest, on the
    morning of 2025-06-04. *)
Definition three_day_db : db :=
  {| users := [{| u_id := 7%N; u_email := "three@example.org";
                  burn_streak := Some 3; longest_burn_streak := Some 3 |}];
     completed_boosts :=
       boosts_on 7%N [make_date 2025 6 1; make_date 2025 6 2; make_date 2025 6 3];
     fp_earnings := [];
     daily_fp :=
       [{| df_user_id := 7%N; df_date := make_date 2025 6 1; df_fp_earned := 5 |};
        {| df_user_id := 7%N; df_date := make_date 2025 6 2; df_fp_earned := 5 |};
        {| df_user_id := 7%N; df_date := make_date 2025 6 3; df_fp_earned := 5 |};
        {| df_user_id := 7%N; df_date := make_date 2025 6 4; df_fp_earned := 5 |}];
     manual_burn_streak_fixes := []; burn_streak_debug_logs := [] |}.

(** The boost the user completes on 2025-06-04. *)
Definition fourth_day_boost : completed_boost :=
  {| cb_id := 1%N; cb_user_id := 7%N; cb_boost_id := "boost";
     completed_date := make_date 2025 6 4 |}.

(** The days counted from [d] backwards while each of them has a boost,
    [n] days at most. *)
Fixpoint count_back (has : date -> bool) (d : date) (n : nat) : Z :=
  match n with
  | O => 0
  | S n' => if has d then 1 + count_back has (d - 1) n' else 0
  end.

(** The user rows of [us'] are those of [us], in the same order, none with
    a lower longest streak. *)
Definition longest_kept (us us' : list user) : Prop :=
  Forall2 (fun u u' => u_id u' = u_id u /\ u_email u' = u_email u /\
                       COALESCE (longest_burn_streak u) 0
                       <= COALESCE (longest_burn_streak u') 0) us us'.


(** [k] consecutive days ending on [d] satisfy [has], and the day before
    them does not. *)
Definition run (has : date -> bool) (d : date) (k : Z) : Prop :=
  0 <= k /\
  (forall i, 0 <= i < k -> has (d - i) = true) /\
  has (d - k) = false.

(** The user has a [daily_fp] row with points for the day. *)
Definition has_points (s : db) (uid : uuid) (d : date) : bool :=
  existsb (fun r => (df_user_id r =? uid)%N && (0 <? df_fp_earned r) &&
                    (df_date r =? d))
          (daily_fp s).

(** The streak [recalculate_burn_streaks] computes for a user. *)
Definition latest_streak (s : db) (uid : uuid) : Z :=
  recalc_streak_loop (rev (fp_dates s uid)) None 0.

(** What the pass of [recalculate_burn_streaks] for the user [id] does to
    a row. *)
Definition pass (s : db) (id : uuid) (u : user) : user :=
  if differs id (latest_streak s id) u
  then with_burn_streak (Some (latest_streak s id)) u else u.

(** What the passes for the users [ids] leave of a row: a row of one of
    these users gets the user's streak, unless its streak is NULL. *)
Definition passes (s : db) (ids : list uuid) (u : user) : user :=
  if existsb (N.eqb (u_id u)) ids then
    match burn_streak u with
    | Some _ => with_burn_streak (Some (latest_streak s (u_id u))) u
    | None => u
    end
  else u.

(** The row [recalculate_burn_streaks] leaves for a user row. *)
Definition recalc_streaks_row (s : db) (u : user) : user :=
  passes s (users_with_points s) u.

(** The users of [ids] with a row whose streak is not the one computed. *)
Definition changed (s : db) (us : list user) (ids : list uuid) : list uuid :=
  filter (fun id => existsb (differs id (latest_streak s id)) us) ids.

(** The user has a boost entry in the ledger for the day. *)
Definition has_boost_earning (s : db) (uid : uuid) (d : date) : bool :=
  existsb (fun e => is_boost_earning uid e && (DATE (earned_at e) =? d))
          (fp_earnings s).

(** The June scenario in the ledger: a boost entry on each of 2025-06-01,
    2025-06-02 and 2025-06-03, and a stored streak of 3. *)
Definition june_earnings_db : db :=
  let day d := {| fe_user_id := 7%N; fe_item_type := "boost";
                  earned_at := make_date 2025 6 d * 86400 + 3600 |} in
  {| users := [{| u_id := 7%N; u_email := "june@example.org";
                  burn_streak := Some 3; longest_burn_streak := Some 3 |}];
     completed_boosts := [];
     fp_earnings := [day 1; day 2; day 3];
     daily_fp := []; manual_burn_streak_fixes := [];
     burn_streak_debug_logs := [] |}.

(** The row [fix_all_burn_streaks_from_fp_earnings] leaves for a user row
    once the users [ids] are processed. *)
Definition fix_all_earners_row (s : db) (today : date) (ids : list uuid)
    (u : user) : user :=
  if existsb (N.eqb (u_id u)) ids &&
     negb (COALESCE (burn_streak u) 0
           =? streak_from_fp_earnings s today (u_id u))
  then with_burn_streak (Some (streak_from_fp_earnings s today (u_id u))) u
  else u.

(** The user has a boost entry in the ledger. *)
Definition earns_boosts (s : db) (uid : uuid) : bool :=
  existsb (is_boost_earning uid) (fp_earnings s).

(** Two users on 2025-06-04: Ann earned points yesterday and nothing yet
    today, Bob earned points today. *)
Definition midday_db : db :=
  {| users := [{| u_id := 7%N; u_email := "ann@example.org";
                  burn_streak := Some 5; longest_burn_streak := Some 9 |};
               {| u_id := 8%N; u_email := "bob@example.org";
                  burn_streak := Some 2; longest_burn_streak := Some 2 |}];
     completed_boosts := [];
     fp_earnings :=
       [{| fe_user_id := 7%N; fe_item_type := "boost";
           earned_at := make_date 2025 6 3 * 86400 + 3600 |};
        {| fe_user_id := 8%N; fe_item_type := "boost";
           earned_at := make_date 2025 6 3 * 86400 + 7200 |};
        {| fe_user_id := 8%N; fe_item_type := "challenge";
           earned_at := make_date 2025 6 4 * 86400 + 60 |}];
     daily_fp := []; manual_burn_streak_fixes := [];
     burn_streak_debug_logs := [] |}.

End Streak.

(** ** Morning Basics daily completion (part_000) *)

Module MorningBasics.

Record user := {
  u_id : uuid;
  u_name : string;
  fuel_points : Z;
  updated_at : timestamptz
}.

Record completed_action := {
  ca_id : uuid;
  ca_user_id : uuid;
  action_id : string;
  completed_date : date;
  ca_fp_earned : Z
}.

Record challenge := {
  ch_id : uuid;
  ch_user_id : uuid;
  challenge_id : string;
  status : string;
  verification_count : Z;
  verifications_required : Z;
  started_at : timestamptz;
  completed_at : option timestamptz;
  (** [progress] is a percentage; the source computes it in double
      precision, the model keeps the exact quotient. *)
  progress : Q
}.

Record completed_challenge := {
  cc_id : uuid;
  cc_user_id : uuid;
  cc_challenge_id : string;
  cc_completed_at : timestamptz;
  cc_fp_earned : Z;
  days_to_complete : Z;
  final_progress : Z;
  cc_status : string;
  cc_verification_count : Z;
  cc_started_at : timestamptz
}.

Record fp_earning := {
  fe_id : uuid;
  fe_user_id : uuid;
  item_id : string;
  item_name : string;
  item_type : string;
  health_category : string;
  fp_amount : Z;
  fe_user_name : string
}.

Record daily_fp_row := {
  df_user_id : uuid;
  df_date : date;
  fp_earned : Z;
  boosts_completed : Z;
  df_user_name : string
}.

(** [uuid_seed] stands for [gen_random_uuid()]: each call returns the seed
    and moves it on. *)
Record db := {
  users : list user;
  completed_actions : list completed_action;
  challenges : list challenge;
  completed_challenges : list completed_challenge;
  fp_earnings : list fp_earning;
  daily_fp : list daily_fp_row;
  uuid_seed : uuid
}.

Definition gen_random_uuid : plpgsql db uuid :=
  fun s => Done (uuid_seed s)
    {| users := users s; completed_actions := completed_actions s;
       challenges := challenges s;
       completed_challenges := completed_challenges s;
       fp_earnings := fp_earnings s; daily_fp := daily_fp s;
       uuid_seed := N.succ (uuid_seed s) |}.

Definition set_users (f : list user -> list user) (s : db) : db :=
  {| users := f (users s); completed_actions := completed_actions s;
     challenges := challenges s;
     completed_challenges := completed_challenges s;
     fp_earnings := fp_earnings s; daily_fp := daily_fp s;
     uuid_seed := uuid_seed s |}.

Definition set_completed_actions
    (f : list completed_action -> list completed_action) (s : db) : db :=
  {| users := users s; completed_actions := f (completed_actions s);
     challenges := challenges s;
     completed_challenges := completed_challenges s;
     fp_earnings := fp_earnings s; daily_fp := daily_fp s;
     uuid_seed := uuid_seed s |}.

Definition set_challenges (f : list challenge -> list challenge) (s : db) : db :=
  {| users := users s; completed_actions := completed_actions s;
     challenges := f (challenges s);
     completed_challenges := completed_challenges s;
     fp_earnings := fp_earnings s; daily_fp := daily_fp s;
     uuid_seed := uuid_seed s |}.

Definition set_completed_challenges
    (f : list completed_challenge -> list completed_challenge) (s : db) : db :=
  {| users := users s; completed_actions := completed_actions s;
     challenges := challenges s;
     completed_challenges := f (completed_challenges s);
     fp_earnings := fp_earnings s; daily_fp := daily_fp s;
     uuid_seed := uuid_seed s |}.

Definition set_fp_earnings (f : list fp_earning -> list fp_earning) (s : db) : db :=
  {| users := users s; completed_actions := completed_actions s;
     challenges := challenges s;
     completed_challenges := completed_challenges s;
     fp_earnings := f (fp_earnings s); daily_fp := daily_fp s;
     uuid_seed := uuid_seed s |}.

Definition set_daily_fp (f : list daily_fp_row -> list daily_fp_row) (s : db) : db :=
  {| users := users s; completed_actions := completed_actions s;
     challenges := challenges s;
     completed_challenges := completed_challenges s;
     fp_earnings := fp_earnings s; daily_fp := f (daily_fp s);
     uuid_seed := uuid_seed s |}.

(** The write statements of the routine, for fault plans. *)
Inductive stmt :=
| insert_challenge
| update_challenge
| insert_bonus_earning
| insert_completed_challenge
| insert_completed_action
| insert_daily_earning
| upsert_daily_fp
| update_user.

Inductive error :=
| user_not_authenticated
| already_completed_today
| sql_error (e : sqlerr).

Inductive result :=
| success (fp_earned : Z) (verification_count : Z) (challenge_completed : bool)
| failure (e : error).

Definition fp_to_award : Z := 5.
Definition bonus_fp : Z := 50.

(** [UPDATE] on one table of the database. *)
Definition update_table {T} (get : db -> list T)
    (set : (list T -> list T) -> db -> db)
    (p : T -> bool) (f : T -> plpgsql unit T) : plpgsql db unit :=
  fun s => match update_rows p f (get s) tt with
           | Done rows' _ => Done tt (set (fun _ => rows') s)
           | Raised e => Raised e
           end.

Definition is_todays_action (uid : uuid) (today : date) (a : completed_action)
  : bool :=
  (ca_user_id a =? uid)%N && String.eqb (action_id a) "morning_basics_daily"
  && (completed_date a =? today).

Definition is_mb0 (uid : uuid) (c : challenge) : bool :=
  (ch_user_id c =? uid)%N && String.eqb (challenge_id c) "mb0".

(** The percentage [(n / 21) * 100]. *)
Definition percent_of_21 (n : Z) : Q := Qred (Qmake (n * 100) 21).

(** The "get or create challenge record" part: it returns
    [current_verification_count] and [challenge_completed]. *)
Definition advance_challenge (faults : stmt -> bool) (NOW : timestamptz)
    (current_user_id : uuid) (user_name : string)
    (has_completed_challenge : bool) : plpgsql db (Z * bool) :=
  (existing <- gets (fun s => find (is_mb0 current_user_id) (challenges s)) ;;
   match existing with
   | None =>
       write_stmt (faults insert_challenge) "challenges"
         (id <- gen_random_uuid ;;
          modify (set_challenges (fun l => l ++
            [{| ch_id := id; ch_user_id := current_user_id;
                challenge_id := "mb0"; status := "active";
                verification_count := 1; verifications_required := 21;
                started_at := NOW; completed_at := None;
                progress := 0 |}]))) ;;
       ret (1, false)
   | Some c =>
       let challenge_record_id := ch_id c in
       let challenge_start_date := started_at c in
       current_verification_count <- int4 (verification_count c + 1) ;;
       if 21 <=? current_verification_count then
         write_stmt (faults update_challenge) "challenges"
           (modify (set_challenges (map (fun r =>
              if (ch_id r =? challenge_record_id)%N then
                {| ch_id := ch_id r; ch_user_id := ch_user_id r;
                   challenge_id := challenge_id r; status := "completed";
                   verification_count := current_verification_count;
                   verifications_required := verifications_required r;
                   started_at := started_at r; completed_at := Some NOW;
                   progress := 100 |}
              else r)))) ;;
         (if has_completed_challenge then ret tt
          else
            write_stmt (faults insert_bonus_earning) "fp_earnings"
              (id <- gen_random_uuid ;;
               modify (set_fp_earnings (fun l => l ++
                 [{| fe_id := id; fe_user_id := current_user_id;
                     item_id := "mb0";
                     item_name := "Morning Basics Challenge Completion";
                     item_type := "challenge"; health_category := "general";
                     fp_amount := bonus_fp; fe_user_name := user_name |}]))) ;;
            block
              (write_stmt (faults insert_completed_challenge)
                 "completed_challenges"
                 (id <- gen_random_uuid ;;
                  modify (set_completed_challenges (fun l => l ++
                    [{| cc_id := id; cc_user_id := current_user_id;
                        cc_challenge_id := "mb0"; cc_completed_at := NOW;
                        cc_fp_earned := bonus_fp; days_to_complete := 21;
                        final_progress := 100; cc_status := "completed";
                        cc_verification_count := 21;
                        cc_started_at := challenge_start_date |}]))))
              (fun _ => ret tt)) ;;
         ret (current_verification_count, true)
       else
         write_stmt (faults update_challenge) "challenges"
           (modify (set_challenges (map (fun r =>
              if (ch_id r =? challenge_record_id)%N then
                {| ch_id := ch_id r; ch_user_id := ch_user_id r;
                   challenge_id := challenge_id r; status := status r;
                   verification_count := current_verification_count;
                   verifications_required := verifications_required r;
                   started_at := started_at r; completed_at := completed_at r;
                   progress := percent_of_21 current_verification_count |}
              else r)))) ;;
         ret (current_verification_count, false)
   end)%plpgsql.

Definition record_completed_action (faults : stmt -> bool)
    (current_user_id : uuid) (today_date : date) : plpgsql db unit :=
  write_stmt (faults insert_completed_action) "completed_actions"
    (id <- gen_random_uuid ;;
     modify (set_completed_actions (fun l => l ++
       [{| ca_id := id; ca_user_id := current_user_id;
           action_id := "morning_basics_daily";
           completed_date := today_date;
           ca_fp_earned := fp_to_award |}])))%plpgsql.

Definition record_fp_earning (faults : stmt -> bool)
    (current_user_id : uuid) (user_name : string) : plpgsql db unit :=
  block
    (write_stmt (faults insert_daily_earning) "fp_earnings"
       (id <- gen_random_uuid ;;
        modify (set_fp_earnings (fun l => l ++
          [{| fe_id := id; fe_user_id := current_user_id;
              item_id := "morning_basics_daily";
              item_name := "Morning Basics Daily";
              item_type := "challenge"; health_category := "general";
              fp_amount := fp_to_award; fe_user_name := user_name |}]))))%plpgsql
    (fun _ => ret tt).

(** The amount the daily and lifetime totals are raised by. *)
Definition total_award (challenge_completed : bool) : Z :=
  fp_to_award + (if challenge_completed then bonus_fp else 0).

Definition is_daily_fp (uid : uuid) (d : date) (r : daily_fp_row) : bool :=
  (df_user_id r =? uid)%N && (df_date r =? d).

Definition update_daily_fp (faults : stmt -> bool) (current_user_id : uuid)
    (user_name : string) (today_date : date) (challenge_completed : bool)
  : plpgsql db unit :=
  block
    (write_stmt (faults upsert_daily_fp) "daily_fp"
       (conflict <- gets (fun s =>
          existsb (is_daily_fp current_user_id today_date) (daily_fp s)) ;;
        if conflict : bool then
          update_table daily_fp set_daily_fp
            (is_daily_fp current_user_id today_date)
            (fun r =>
               earned <- int4 (fp_earned r + fp_to_award) ;;
               earned <- int4 (earned +
                 (if challenge_completed then bonus_fp else 0)) ;;
               boosts <- int4 (boosts_completed r + 1) ;;
               ret {| df_user_id := df_user_id r; df_date := df_date r;
                      fp_earned := earned; boosts_completed := boosts;
                      df_user_name := df_user_name r |})
        else
          modify (set_daily_fp (fun l => l ++
            [{| df_user_id := current_user_id; df_date := today_date;
                fp_earned := total_award challenge_completed;
                boosts_completed := 1; df_user_name := user_name |}]))))%plpgsql
    (fun _ => ret tt).

Definition update_fuel_points (faults : stmt -> bool) (NOW : timestamptz)
    (current_user_id : uuid) (challenge_completed : bool) : plpgsql db unit :=
  block
    (write_stmt (faults update_user) "users"
       (update_table users set_users
          (fun u => (u_id u =? current_user_id)%N)
          (fun u =>
             points <- int4 (fuel_points u + fp_to_award) ;;
             points <- int4 (points +
               (if challenge_completed then bonus_fp else 0)) ;;
             ret {| u_id := u_id u; u_name := u_name u;
                    fuel_points := points; updated_at := NOW |})))%plpgsql
    (fun _ => ret tt).

(** [handle_morning_basics_completion()].  The [debug_info] blob the routine
    returns next to its result is left out: no table stores it. *)
Definition handle_morning_basics_completion (faults : stmt -> bool)
    (auth_uid : option uuid) (CURRENT_DATE : date) (NOW : timestamptz)
  : plpgsql db result :=
  block
    (match auth_uid with
     | None => ret (failure user_not_authenticated)
     | Some current_user_id =>
         let today_date := CURRENT_DATE in
         existing_completion <- gets (fun s =>
           find (is_todays_action current_user_id today_date)
                (completed_actions s)) ;;
         match existing_completion with
         | Some _ => ret (failure already_completed_today)
         | None =>
             user_name <- gets (fun s =>
               match find (fun u => (u_id u =? current_user_id)%N) (users s)
               with Some u => u_name u | None => "" end) ;;
             has_completed_challenge <- gets (fun s =>
               existsb (fun c => (cc_user_id c =? current_user_id)%N &&
                                 String.eqb (cc_challenge_id c) "mb0")
                       (completed_challenges s)) ;;
             progress <- advance_challenge faults NOW current_user_id
                           user_name has_completed_challenge ;;
             let current_verification_count := fst progress in
             let challenge_completed := snd progress in
             record_completed_action faults current_user_id today_date ;;
             record_fp_earning faults current_user_id user_name ;;
             update_daily_fp faults current_user_id user_name today_date
               challenge_completed ;;
             update_fuel_points faults NOW current_user_id
               challenge_completed ;;
             ret (success (total_award challenge_completed)
                    current_verification_count challenge_completed)
         end
     end)%plpgsql
    (fun e => ret (failure (sql_error e))).

(** *** [has_completed_morning_basics] and [get_morning_basics_details] *)

Definition is_mb0_completion (uid : uuid) (c : completed_challenge) : bool :=
  (cc_user_id c =? uid)%N && String.eqb (cc_challenge_id c) "mb0".

Definition has_completed_morning_basics (p_user_id : uuid) (s : db) : bool :=
  existsb (is_mb0_completion p_user_id) (completed_challenges s) ||
  existsb (fun c => is_mb0 p_user_id c && String.eqb (status c) "completed")
          (challenges s).

Record details := {
  days_completed : Z;
  can_complete_today : bool;
  is_completed : bool
}.

(** [v_completed_challenge IS NOT NULL] holds when a row was found and none
    of its columns is NULL; [all_columns_set] tells so of a row, for the
    columns of the table the model leaves out as well. *)
Definition get_morning_basics_details
    (all_columns_set : completed_challenge -> bool) (CURRENT_DATE : date)
    (p_user_id : uuid) (s : db) : details :=
  let v_challenge_record := find (is_mb0 p_user_id) (challenges s) in
  let v_can_complete_today :=
    existsb (is_todays_action p_user_id CURRENT_DATE) (completed_actions s) in
  match v_challenge_record with
  | None =>
      {| days_completed := 0; can_complete_today := true;
         is_completed := false |}
  | Some c =>
      let v_completed_challenge :=
        find (is_mb0_completion p_user_id) (completed_challenges s) in
      {| days_completed := verification_count c;
         can_complete_today := negb v_can_complete_today;
         is_completed :=
           String.eqb (status c) "completed" ||
           match v_completed_challenge with
           | Some r => all_columns_set r
           | None => false
           end |}
  end.

(** *** [has_completed_any_challenge] (part_002) *)

Definition has_completed_any_challenge (p_user_id : uuid) (s : db) : bool :=
  if existsb (fun c => (cc_user_id c =? p_user_id)%N) (completed_challenges s)
  then true
  else if existsb (fun c => (ch_user_id c =? p_user_id)%N &&
                            String.eqb (status c) "completed")
                  (challenges s)
  then true
  else existsb (fun c => (ch_user_id c =? p_user_id)%N &&
                         String.eqb (challenge_id c) "mb0" &&
                         (21 <=? verification_count c))
               (challenges s).

(** *** [fix_morning_basics_challenges]

    No failure is injected into this routine: it has no EXCEPTION handler,
    a failing statement ends it with nothing written. *)

Record fix_summary := {
  fixed_count : Z;
  completed_count : Z;
  already_completed_count : Z
}.

(** [SELECT DISTINCT user_id FROM challenges WHERE challenge_id = 'mb0']. *)
Definition mb0_users (s : db) : list uuid :=
  nodup N.eq_dec
    (map ch_user_id
       (filter (fun c => String.eqb (challenge_id c) "mb0") (challenges s))).

(** "Check if challenge is completed". *)
Definition is_finished (c : challenge) : bool :=
  (21 <=? verification_count c) && String.eqb (status c) "completed".

Definition fix_body (NOW : timestamptz) (v_user : uuid) (acc : fix_summary)
  : plpgsql db fix_summary :=
  (v_challenge_record <- gets (fun s => find (is_mb0 v_user) (challenges s)) ;;
   match v_challenge_record with
   | Some c =>
       if is_finished c then
         recorded <- gets (fun s =>
           existsb (is_mb0_completion v_user) (completed_challenges s)) ;;
         if recorded : bool then
           ret {| fixed_count := fixed_count acc;
                  completed_count := completed_count acc;
                  already_completed_count := already_completed_count acc + 1 |}
         else
           user_name <- gets (fun s =>
             match find (fun u => (u_id u =? v_user)%N) (users s)
             with Some u => u_name u | None => "" end) ;;
           v_fp_earning_id <- gen_random_uuid ;;
           modify (set_fp_earnings (fun l => l ++
             [{| fe_id := v_fp_earning_id; fe_user_id := v_user;
                 item_id := "mb0";
                 item_name := "Morning Basics Challenge Completion";
                 item_type := "challenge"; health_category := "general";
                 fp_amount := 50; fe_user_name := user_name |}])) ;;
           id <- gen_random_uuid ;;
           modify (set_completed_challenges (fun l => l ++
             [{| cc_id := id; cc_user_id := v_user;
                 cc_challenge_id := "mb0";
                 cc_completed_at :=
                   match completed_at c with Some t => t | None => NOW end;
                 cc_fp_earned := 50; days_to_complete := 21;
                 final_progress := 100; cc_status := "completed";
                 cc_verification_count := 21;
                 cc_started_at := started_at c |}])) ;;
           ret {| fixed_count := fixed_count acc + 1;
                  completed_count := completed_count acc + 1;
                  already_completed_count := already_completed_count acc |}
       else ret acc
   | None => ret acc
   end)%plpgsql.

Definition fix_morning_basics_challenges (NOW : timestamptz)
  : plpgsql db fix_summary :=
  (ids <- gets mb0_users ;;
   Streak.for_loop (fix_body NOW) ids
     {| fixed_count := 0; completed_count := 0;
        already_completed_count := 0 |})%plpgsql.

(** *** Vocabulary of the properties *)

(** The users [fix_morning_basics_challenges] records a completion for:
    their challenge is finished and [completed_challenges] has no row of
    theirs for it. *)
Definition to_fix (s : db) (uid : uuid) : bool :=
  match find (is_mb0 uid) (challenges s) with
  | Some c => is_finished c &&
              negb (existsb (is_mb0_completion uid) (completed_challenges s))
  | None => false
  end.

(** The users the routine counts as already completed. *)
Definition already_recorded (s : db) (uid : uuid) : bool :=
  match find (is_mb0 uid) (challenges s) with
  | Some c => is_finished c &&
              existsb (is_mb0_completion uid) (completed_challenges s)
  | None => false
  end.

(** The bonus entries of the ledger: user and amount. *)
Definition bonus_ledger (s : db) : list (uuid * Z) :=
  map (fun e => (fe_user_id e, fp_amount e))
      (filter (fun e => String.eqb (item_id e) "mb0") (fp_earnings s)).

End MorningBasics.

(** ** Custom challenge daily completion (migration 20250705135508) *)

Module CustomChallenge.

Record user := {
  u_id : uuid;
  u_name : string;
  fuel_points : Z;
  days_since_fp : Z
}.

Record custom_challenge := {
  cc_id : uuid;
  cc_user_id : uuid;
  cc_name : string;
  status : string;
  daily_minimum : Z;
  fp_daily_reward : Z;
  fp_completion_reward : Z;
  target_completions : Z;
  total_completions : Z;
  last_completion_date : option date;
  (** A NUMERIC percentage; the model keeps the exact quotient. *)
  progress : Q;
  completed_at : option timestamptz
}.

Record daily_completion := {
  dc_id : uuid;
  custom_challenge_id : uuid;
  dc_user_id : uuid;
  completion_date : date;
  actions_completed : Z;
  minimum_met : bool
}.

Record challenge_action := {
  act_id : uuid;
  act_custom_challenge_id : uuid
}.

Record action_completion := {
  daily_completion_id : uuid;
  ac_action_id : uuid;
  completed : bool
}.

Record fp_earning := {
  fe_user_id : uuid;
  item_id : uuid;
  item_name : string;
  item_type : string;
  fp_amount : Z;
  title : string
}.

Record daily_fp_row := {
  df_id : uuid;
  df_user_id : uuid;
  df_date : date;
  fp_earned : Z;
  challenges_completed : Z;
  df_updated_at : timestamptz
}.

Record debug_log := {
  operation : string;
  table_name : string;
  record_id : uuid;
  details : sqlerr;
  log_success : bool
}.

Record db := {
  users : list user;
  custom_challenges : list custom_challenge;
  daily_completions : list daily_completion;
  challenge_actions : list challenge_action;
  action_completions : list action_completion;
  fp_earnings : list fp_earning;
  daily_fp : list daily_fp_row;
  debug_logs : list debug_log;
  uuid_seed : uuid
}.

Definition gen_random_uuid : plpgsql db uuid :=
  fun s => Done (uuid_seed s)
    {| users := users s; custom_challenges := custom_challenges s;
       daily_completions := daily_completions s;
       challenge_actions := challenge_actions s;
       action_completions := action_completions s;
       fp_earnings := fp_earnings s; daily_fp := daily_fp s;
       debug_logs := debug_logs s; uuid_seed := N.succ (uuid_seed s) |}.

Definition set_users (f : list user -> list user) (s : db) : db :=
  {| users := f (users s); custom_challenges := custom_challenges s;
     daily_completions := daily_completions s;
     challenge_actions := challenge_actions s;
     action_completions := action_completions s;
     fp_earnings := fp_earnings s; daily_fp := daily_fp s;
     debug_logs := debug_logs s; uuid_seed := uuid_seed s |}.

Definition set_custom_challenges
    (f : list custom_challenge -> list custom_challenge) (s : db) : db :=
  {| users := users s; custom_challenges := f (custom_challenges s);
     daily_completions := daily_completions s;
     challenge_actions := challenge_actions s;
     action_completions := action_completions s;
     fp_earnings := fp_earnings s; daily_fp := daily_fp s;
     debug_logs := debug_logs s; uuid_seed := uuid_seed s |}.

Definition set_daily_completions
    (f : list daily_completion -> list daily_completion) (s : db) : db :=
  {| users := users s; custom_challenges := custom_challenges s;
     daily_completions := f (daily_completions s);
     challenge_actions := challenge_actions s;
     action_completions := action_completions s;
     fp_earnings := fp_earnings s; daily_fp := daily_fp s;
     debug_logs := debug_logs s; uuid_seed := uuid_seed s |}.

Definition set_action_completions
    (f : list action_completion -> list action_completion) (s : db) : db :=
  {| users := users s; custom_challenges := custom_challenges s;
     daily_completions := daily_completions s;
     challenge_actions := challenge_actions s;
     action_completions := f (action_completions s);
     fp_earnings := fp_earnings s; daily_fp := daily_fp s;
     debug_logs := debug_logs s; uuid_seed := uuid_seed s |}.

Definition set_fp_earnings (f : list fp_earning -> list fp_earning) (s : db) : db :=
  {| users := users s; custom_challenges := custom_challenges s;
     daily_completions := daily_completions s;
     challenge_actions := challenge_actions s;
     action_completions := action_completions s;
     fp_earnings := f (fp_earnings s); daily_fp := daily_fp s;
     debug_logs := debug_logs s; uuid_seed := uuid_seed s |}.

Definition set_daily_fp (f : list daily_fp_row -> list daily_fp_row) (s : db) : db :=
  {| users := users s; custom_challenges := custom_challenges s;
     daily_completions := daily_completions s;
     challenge_actions := challenge_actions s;
     action_completions := action_completions s;
     fp_earnings := fp_earnings s; daily_fp := f (daily_fp s);
     debug_logs := debug_logs s; uuid_seed := uuid_seed s |}.

Definition set_debug_logs (f : list debug_log -> list debug_log) (s : db) : db :=
  {| users := users s; custom_challenges := custom_challenges s;
     daily_completions := daily_completions s;
     challenge_actions := challenge_actions s;
     action_completions := action_completions s;
     fp_earnings := fp_earnings s; daily_fp := daily_fp s;
     debug_logs := f (debug_logs s); uuid_seed := uuid_seed s |}.

(** [p_completed_actions], a TEXT: what the cast to JSONB and
    [jsonb_array_elements] make of it.  An element either has no
    ["action_id"] key, or a value that is not the text of a UUID, or an
    action id. *)
Inductive action_item :=
| no_action_id
| malformed_action_id
| action (id : uuid).

Inductive completed_actions_text :=
| not_json
| json_not_an_array
| json_array (items : list action_item).

Inductive stmt :=
| insert_daily_completion
| insert_action_completion
| update_daily_completion
| insert_daily_earning
| update_daily_fp
| insert_daily_fp
| update_challenge_progress
| update_challenge_status
| insert_bonus_earning
| update_daily_fp_bonus
| update_user
| insert_debug_log.

Inductive error :=
| invalid_json
| challenge_not_found
| challenge_not_active
| already_completed_today
| sql_error (e : sqlerr).

Record completion := {
  r_daily_completion_id : uuid;
  r_minimum_met : bool;
  r_actions_completed : Z;
  r_fp_earned : Z;
  r_is_completed : bool;
  r_total_completions : Z;
  r_progress : Q
}.

Inductive result :=
| success (c : completion)
| failure (e : error).

(** [UPDATE] on one table of the database. *)
Definition update_table {T} (get : db -> list T)
    (set : (list T -> list T) -> db -> db)
    (p : T -> bool) (f : T -> plpgsql unit T) : plpgsql db unit :=
  fun s => match update_rows p f (get s) tt with
           | Done rows' _ => Done tt (set (fun _ => rows') s)
           | Raised e => Raised e
           end.

(** The loop over [jsonb_array_elements(v_parsed_actions)]; it returns
    [v_actions_completed]. *)
Fixpoint process_actions (faults : stmt -> bool) (p_challenge_id : uuid)
    (v_daily_completion_id : uuid) (items : list action_item)
    (v_actions_completed : Z) : plpgsql db Z :=
  match items with
  | [] => ret v_actions_completed
  | item :: rest =>
      (v_action_id <-
         match item with
         | no_action_id => ret None
         | malformed_action_id => raise invalid_uuid_text
         | action id => ret (Some id)
         end ;;
       found <- gets (fun s =>
         match v_action_id with
         | Some id =>
             existsb (fun a => (act_id a =? id)%N &&
                               (act_custom_challenge_id a =? p_challenge_id)%N)
                     (challenge_actions s)
         | None => false
         end) ;;
       count <-
         match v_action_id, found with
         | Some id, true =>
             write_stmt (faults insert_action_completion)
               "custom_challenge_action_completions"
               (modify (set_action_completions (fun l => l ++
                  [{| daily_completion_id := v_daily_completion_id;
                      ac_action_id := id; completed := true |}]))) ;;
             int4 (v_actions_completed + 1)
         | _, _ => ret v_actions_completed
         end ;;
       process_actions faults p_challenge_id v_daily_completion_id rest count)%plpgsql
  end.

(** [LEAST(((total + 1) / target) * 100, 100)] in NUMERIC arithmetic;
    dividing by a zero target raises. *)
Definition progress_percent {S} (total_plus_1 target : Z) : plpgsql S Q :=
  if target =? 0 then raise division_by_zero
  else
    let q := Qmult (Qdiv (inject_Z total_plus_1) (inject_Z target))
                   (inject_Z 100) in
    ret (Qred (if Qle_bool q (inject_Z 100) then q else inject_Z 100)).

(** The statements of the branch [IF v_minimum_met THEN ... END IF], in
    the order of the source. *)

(** "Record FP earning". *)
Definition record_daily_earning (faults : stmt -> bool)
    (p_user_id p_challenge_id : uuid) (v_challenge : custom_challenge)
    (v_fp_earned : Z) : plpgsql db unit :=
  write_stmt (faults insert_daily_earning) "fp_earnings"
    (modify (set_fp_earnings (fun l => l ++
       [{| fe_user_id := p_user_id; item_id := p_challenge_id;
           item_name := cc_name v_challenge; item_type := "challenge";
           fp_amount := v_fp_earned;
           title := "Custom Challenge Daily Completion" |}]))).

(** "Update or insert into daily_fp table". *)
Definition record_daily_fp (faults : stmt -> bool) (NOW : timestamptz)
    (v_today : date) (p_user_id : uuid) (v_fp_earned : Z) : plpgsql db unit :=
  (v_daily_fp_id <- gets (fun s =>
     find (fun r => (df_user_id r =? p_user_id)%N && (df_date r =? v_today))
          (daily_fp s)) ;;
   match v_daily_fp_id with
   | Some row =>
       write_stmt (faults update_daily_fp) "daily_fp"
         (update_table daily_fp set_daily_fp
            (fun r => (df_id r =? df_id row)%N)
            (fun r =>
               earned <- int4 (fp_earned r + v_fp_earned) ;;
               done <- int4 (challenges_completed r + 1) ;;
               ret {| df_id := df_id r; df_user_id := df_user_id r;
                      df_date := df_date r; fp_earned := earned;
                      challenges_completed := done;
                      df_updated_at := NOW |}))
   | None =>
       write_stmt (faults insert_daily_fp) "daily_fp"
         (id <- gen_random_uuid ;;
          modify (set_daily_fp (fun l => l ++
            [{| df_id := id; df_user_id := p_user_id; df_date := v_today;
                fp_earned := v_fp_earned; challenges_completed := 1;
                df_updated_at := NOW |}])))
   end)%plpgsql.

(** "Update challenge progress"; it returns [v_total_completions] and
    [v_progress]. *)
Definition update_progress (faults : stmt -> bool) (v_today : date)
    (p_challenge_id : uuid) : plpgsql db (Z * Q) :=
  (write_stmt (faults update_challenge_progress) "custom_challenges"
     (update_table custom_challenges set_custom_challenges
        (fun c => (cc_id c =? p_challenge_id)%N)
        (fun c =>
           total <- int4 (total_completions c + 1) ;;
           percent <- progress_percent total (target_completions c) ;;
           ret {| cc_id := cc_id c; cc_user_id := cc_user_id c;
                  cc_name := cc_name c; status := status c;
                  daily_minimum := daily_minimum c;
                  fp_daily_reward := fp_daily_reward c;
                  fp_completion_reward := fp_completion_reward c;
                  target_completions := target_completions c;
                  total_completions := total;
                  last_completion_date := Some v_today;
                  progress := percent;
                  completed_at := completed_at c |})) ;;
   updated <- gets (fun s =>
     find (fun c => (cc_id c =? p_challenge_id)%N) (custom_challenges s)) ;;
   ret (match updated with Some c => total_completions c | None => 0 end,
        match updated with Some c => progress c | None => 0%Q end))%plpgsql.

(** The branch "challenge is now completed"; it returns the raised
    [v_fp_earned]. *)
Definition complete_challenge (faults : stmt -> bool) (NOW : timestamptz)
    (v_today : date) (p_user_id p_challenge_id : uuid)
    (v_challenge : custom_challenge) (v_fp_earned : Z) : plpgsql db Z :=
  (write_stmt (faults update_challenge_status) "custom_challenges"
     (modify (set_custom_challenges (map (fun c =>
        if (cc_id c =? p_challenge_id)%N then
          {| cc_id := cc_id c; cc_user_id := cc_user_id c;
             cc_name := cc_name c; status := "completed";
             daily_minimum := daily_minimum c;
             fp_daily_reward := fp_daily_reward c;
             fp_completion_reward := fp_completion_reward c;
             target_completions := target_completions c;
             total_completions := total_completions c;
             last_completion_date := last_completion_date c;
             progress := progress c;
             completed_at := Some NOW |}
        else c)))) ;;
   write_stmt (faults insert_bonus_earning) "fp_earnings"
     (modify (set_fp_earnings (fun l => l ++
        [{| fe_user_id := p_user_id; item_id := p_challenge_id;
            item_name := cc_name v_challenge; item_type := "challenge";
            fp_amount := fp_completion_reward v_challenge;
            title := "Custom Challenge Completion Bonus" |}]))) ;;
   write_stmt (faults update_daily_fp_bonus) "daily_fp"
     (update_table daily_fp set_daily_fp
        (fun r => (df_user_id r =? p_user_id)%N && (df_date r =? v_today))
        (fun r =>
           earned <- int4 (fp_earned r + fp_completion_reward v_challenge) ;;
           ret {| df_id := df_id r; df_user_id := df_user_id r;
                  df_date := df_date r; fp_earned := earned;
                  challenges_completed := challenges_completed r;
                  df_updated_at := NOW |})) ;;
   int4 (v_fp_earned + fp_completion_reward v_challenge))%plpgsql.

(** "Update user's fuel_points and reset days_since_fp". *)
Definition credit_user (faults : stmt -> bool) (p_user_id : uuid)
    (v_fp_earned : Z) : plpgsql db unit :=
  write_stmt (faults update_user) "users"
    (update_table users set_users
       (fun u => (u_id u =? p_user_id)%N)
       (fun u =>
          points <- int4 (fuel_points u + v_fp_earned) ;;
          ret {| u_id := u_id u; u_name := u_name u;
                 fuel_points := points; days_since_fp := 0 |}))%plpgsql.

(** The whole branch; it returns [v_fp_earned], [v_is_completed],
    [v_total_completions] and [v_progress]. *)
Definition award_daily (faults : stmt -> bool) (NOW : timestamptz)
    (v_today : date) (p_user_id p_challenge_id : uuid)
    (v_challenge : custom_challenge) : plpgsql db (Z * bool * Z * Q) :=
  (let v_fp_earned := fp_daily_reward v_challenge in
   record_daily_earning faults p_user_id p_challenge_id v_challenge
     v_fp_earned ;;
   record_daily_fp faults NOW v_today p_user_id v_fp_earned ;;
   updated <- update_progress faults v_today p_challenge_id ;;
   let v_total_completions := fst updated in
   let v_progress := snd updated in
   if target_completions v_challenge <=? v_total_completions then
     v_fp_earned <- complete_challenge faults NOW v_today p_user_id
                      p_challenge_id v_challenge v_fp_earned ;;
     credit_user faults p_user_id v_fp_earned ;;
     ret (v_fp_earned, true, v_total_completions, v_progress)
   else
     credit_user faults p_user_id v_fp_earned ;;
     ret (v_fp_earned, false, v_total_completions, v_progress))%plpgsql.

Definition log_failure (faults : stmt -> bool) (p_challenge_id : uuid)
    (e : sqlerr) : plpgsql db unit :=
  write_stmt (faults insert_debug_log) "debug_logs"
    (modify (set_debug_logs (fun l => l ++
       [{| operation := "complete_custom_challenge_daily";
           table_name := "custom_challenges";
           record_id := p_challenge_id;
           details := e; log_success := false |}]))).

(** [v_challenge.status != 'active']. *)
Definition is_active (c : custom_challenge) : bool :=
  String.eqb (status c) "active".

(** "Check if challenge exists and belongs to user". *)
Definition owned_challenge (p_challenge_id p_user_id : uuid) (s : db)
  : option custom_challenge :=
  find (fun c => (cc_id c =? p_challenge_id)%N && (cc_user_id c =? p_user_id)%N)
       (custom_challenges s).

(** "Check if already completed today". *)
Definition done_today (p_challenge_id : uuid) (v_today : date) (s : db) : bool :=
  existsb (fun d => (custom_challenge_id d =? p_challenge_id)%N &&
                    (completion_date d =? v_today))
          (daily_completions s).

(** The statements that follow the checks, from "Create daily completion
    record" to the final RETURN. *)
Definition complete_day (faults : stmt -> bool) (NOW : timestamptz)
    (v_today : date) (p_user_id p_challenge_id : uuid)
    (p_completed_actions : completed_actions_text)
    (v_challenge : custom_challenge) : plpgsql db result :=
  (v_daily_completion_id <- gen_random_uuid ;;
   write_stmt (faults insert_daily_completion)
     "custom_challenge_daily_completions"
     (modify (set_daily_completions (fun l => l ++
        [{| dc_id := v_daily_completion_id;
            custom_challenge_id := p_challenge_id;
            dc_user_id := p_user_id;
            completion_date := v_today;
            actions_completed := 0;
            minimum_met := false |}]))) ;;
   v_actions_completed <-
     match p_completed_actions with
     | json_array items =>
         process_actions faults p_challenge_id v_daily_completion_id items 0
     | _ => raise cannot_extract_elements
     end ;;
   let v_minimum_met := daily_minimum v_challenge <=? v_actions_completed in
   write_stmt (faults update_daily_completion)
     "custom_challenge_daily_completions"
     (modify (set_daily_completions (map (fun d =>
        if (dc_id d =? v_daily_completion_id)%N then
          {| dc_id := dc_id d;
             custom_challenge_id := custom_challenge_id d;
             dc_user_id := dc_user_id d;
             completion_date := completion_date d;
             actions_completed := v_actions_completed;
             minimum_met := v_minimum_met |}
        else d)))) ;;
   awarded <-
     (if v_minimum_met
      then award_daily faults NOW v_today p_user_id p_challenge_id v_challenge
      else ret (0, false, 0, 0%Q)) ;;
   ret (success
          {| r_daily_completion_id := v_daily_completion_id;
             r_minimum_met := v_minimum_met;
             r_actions_completed := v_actions_completed;
             r_fp_earned := fst (fst (fst awarded));
             r_is_completed := snd (fst (fst awarded));
             r_total_completions := snd (fst awarded);
             r_progress := snd awarded |}))%plpgsql.

Definition complete_custom_challenge_daily (faults : stmt -> bool)
    (CURRENT_DATE : date) (NOW : timestamptz)
    (p_user_id p_challenge_id : uuid)
    (p_completed_actions : completed_actions_text) : plpgsql db result :=
  let v_today := CURRENT_DATE in
  block
    (match p_completed_actions with
     | not_json => ret (failure invalid_json)
     | _ =>
       found <- gets (owned_challenge p_challenge_id p_user_id) ;;
       match found with
       | None => ret (failure challenge_not_found)
       | Some v_challenge =>
         if negb (is_active v_challenge)
         then ret (failure challenge_not_active)
         else
           completed_today <- gets (done_today p_challenge_id v_today) ;;
           if completed_today : bool
           then ret (failure already_completed_today)
           else complete_day faults NOW v_today p_user_id p_challenge_id
                  p_completed_actions v_challenge
       end
     end)%plpgsql
    (fun e =>
       (log_failure faults p_challenge_id e ;;
        ret (failure (sql_error e)))%plpgsql).

(** *** Vocabulary of the properties *)

(** The columns of a challenge the checks of the routine look at. *)
Definition challenge_key (c : custom_challenge) : uuid * uuid * string :=
  (cc_id c, cc_user_id c, status c).

(** The same columns once the challenge [cid] is marked completed, when
    [completed] says so. *)
Definition mark_key (completed : bool) (cid : uuid)
    (k : uuid * uuid * string) : uuid * uuid * string :=
  (fst (fst k), snd (fst k),
   if completed && (fst (fst k) =? cid)%N then "completed" else snd k).

(** The statements after the daily completion row is stored keep that row
    and every challenge's id and owner; they keep the status too, but for
    marking [cid] completed. *)
Definition kept (completed : bool) (cid : uuid) (s s' : db) : Prop :=
  map challenge_key (custom_challenges s') =
    map (fun c => mark_key completed cid (challenge_key c))
        (custom_challenges s) /\
  daily_completions s' = daily_completions s.

(** The answer to a submission for a day that is already completed. *)
Definition second_answer (actions : completed_actions_text) (active : bool)
  : error :=
  match actions with
  | not_json => invalid_json
  | _ => if active then already_completed_today else challenge_not_active
  end.

Definition failure_log (cid : uuid) (e : sqlerr) : debug_log :=
  {| operation := "complete_custom_challenge_daily";
     table_name := "custom_challenges"; record_id := cid;
     details := e; log_success := false |}.

(** The item names an action of the challenge. *)
Definition names_action (s : db) (p_challenge_id : uuid) (item : action_item)
  : bool :=
  match item with
  | action id =>
      existsb (fun a => (act_id a =? id)%N &&
                        (act_custom_challenge_id a =? p_challenge_id)%N)
              (challenge_actions s)
  | _ => false
  end.

(** The number of items that name an action of the challenge, an action
    named twice being counted twice. *)
Definition counted (s : db) (p_challenge_id : uuid) (items : list action_item)
  : Z :=
  Z.of_nat (List.length (filter (names_action s p_challenge_id) items)).

(** The sum of the ledger. *)
Definition earned_total (s : db) : Z :=
  fold_right Z.add 0 (map fp_amount (fp_earnings s)).

(** A user row credited with [fp]. *)
Definition credited (p_user_id : uuid) (fp : Z) (u : user) : user :=
  if (u_id u =? p_user_id)%N
  then {| u_id := u_id u; u_name := u_name u;
          fuel_points := fuel_points u + fp; days_since_fp := 0 |}
  else u.

(** Every challenge with its target set to [target]. *)
Definition with_target (target : Z) : db -> db :=
  set_custom_challenges (map (fun c =>
    {| cc_id := cc_id c; cc_user_id := cc_user_id c; cc_name := cc_name c;
       status := status c; daily_minimum := daily_minimum c;
       fp_daily_reward := fp_daily_reward c;
       fp_completion_reward := fp_completion_reward c;
       target_completions := target;
       total_completions := total_completions c;
       last_completion_date := last_completion_date c;
       progress := progress c; completed_at := completed_at c |})).

End CustomChallenge.

(** ** The daily insight snapshot (discarded migration 20250609120414) *)

Module Insights.

(** *** Aggregates and NUMERIC variables *)

Definition non_null {A} (l : list (option A)) : list A :=
  flat_map (fun o => match o with Some a => [a] | None => [] end) l.

Definition Qsum (l : list Q) : Q := fold_right Qplus 0%Q l.

(** [SUM] over nullable NUMERIC values: NULL when no value is left. *)
Definition sql_sum (l : list (option Q)) : option Q :=
  match non_null l with
  | [] => None
  | vs => Some (Qred (Qsum vs))
  end.

(** [AVG]; the quotient is kept exact. *)
Definition sql_avg (l : list (option Q)) : option Q :=
  match non_null l with
  | [] => None
  | vs => Some (Qred (Qdiv (Qsum vs) (inject_Z (Z.of_nat (List.length vs)))))
  end.

Definition sql_sum_int (l : list Z) : option Z :=
  match l with
  | [] => None
  | _ => Some (fold_right Z.add 0 l)
  end.

Definition sql_max_int (l : list Z) : option Z :=
  match l with
  | [] => None
  | x :: l' => Some (fold_right Z.max x l')
  end.

(** Rounding to the nearest integer, halves away from zero. *)
Definition round_half_away (q : Q) : Z :=
  let n := Qnum q in
  let d := Z.pos (Qden q) in
  Z.sgn n * ((2 * Z.abs n + d) / (2 * d)).

(** Assignment to a variable of type [numeric(precision, scale)]: the value
    is rounded to [scale] decimals and must fit [precision] digits. *)
Definition to_numeric {S} (precision scale : Z) (v : option Q)
  : plpgsql S (option Q) :=
  match v with
  | None => ret None
  | Some q =>
      let units := round_half_away (Qmult q (inject_Z (10 ^ scale))) in
      if Z.abs units <? 10 ^ precision
      then ret (Some (Qred (Qmake units (Z.to_pos (10 ^ scale)))))
      else raise numeric_field_overflow
  end.

(** Assignment of a BIGINT aggregate to an INTEGER variable. *)
Definition to_integer {S} (v : option Z) : plpgsql S (option Z) :=
  match v with
  | None => ret None
  | Some z => (z' <- int4 z ;; ret (Some z'))%plpgsql
  end.

Definition count_into {S A} (rows : list A) : plpgsql S Z :=
  int4 (Z.of_nat (List.length rows)).

(** *** The tables the snapshot reads *)

Record user := {
  u_created_at : timestamptz;
  health_score : option Q;
  healthspan_years : option Q;
  lifetime_fp : Z;
  level : Z
}.

Record daily_fp_row := {
  df_user_id : uuid;
  df_date : date;
  fp_earned : Z
}.

Record health_assessment := {
  ha_user_id : uuid;
  ha_created_at : timestamptz;
  mindset_score : option Q;
  sleep_score : option Q;
  exercise_score : option Q;
  nutrition_score : option Q;
  biohacking_score : option Q
}.

Record active_contest := {
  ac_status : string;
  ac_created_at : timestamptz;
  ac_updated_at : timestamptz;
  ac_challenge_id : string;
  ac_user_id : uuid
}.

Record chat_message := {
  cm_created_at : timestamptz;
  is_verification : bool;
  chat_id : string;
  cm_user_id : uuid
}.

Record user_device := {
  dev_status : string;
  provider : option string
}.

Record completed_action := {
  ca_completed_date : date;
  action_id : string
}.

Record sources := {
  users : list user;
  daily_fp : list daily_fp_row;
  health_assessments : list health_assessment;
  completed_boosts : list date;          (* completed_date *)
  completed_challenges : list timestamptz;  (* completed_at *)
  completed_quests : list timestamptz;      (* completed_at *)
  active_contests : list active_contest;
  chat_messages : list chat_message;
  user_devices : list user_device;
  completed_actions : list completed_action;
  contest_registrations : list timestamptz; (* registered_at *)
  challenges : list timestamptz;            (* started_at *)
  cosmo_chat_messages : list timestamptz    (* created_at *)
}.

(** *** The snapshot *)

Record category_averages_t := {
  mindset : option Q;
  sleep : option Q;
  exercise : option Q;
  nutrition : option Q;
  biohacking : option Q
}.

Record device_stats := {
  total_connected : Z;
  by_provider : list (string * Z)
}.

Record metrics := {
  total_users : Z;
  active_users : Z;
  new_users : Z;
  average_health_score : option Q;
  average_healthspan_years : option Q;
  total_healthspan_years : option Q;
  category_averages : category_averages_t;
  total_fp_earned : Z;
  average_fp_per_user : option Q;
  total_boosts_completed : Z;
  total_challenges_completed : Z;
  total_quests_completed : Z;
  total_contests_active : Z;
  total_chat_messages : Z;
  total_verification_posts : Z;
  device_connection_stats : device_stats;
  total_lifetime_fp : option Z;
  average_level : option Q;
  highest_level : option Z;
  total_lifetime_boosts : Z;
  total_lifetime_challenges : Z;
  total_lifetime_quests : Z;
  total_lifetime_chat_messages : Z;
  total_lifetime_verification_posts : Z;
  challenge_actions : Z;
  contest_registrations_count : Z;
  challenge_registrations : Z;
  cosmo_chats : Z;
  contest_verifications : Z;
  health_assessments_count : Z
}.

(** A row of [all_user_insights].  Its [id] is the table's primary key: the
    row the existence check finds is the row the UPDATE rewrites. *)
Record insight := {
  in_date : date;
  in_metrics : metrics
}.

Record db := {
  src : sources;
  all_user_insights : list insight
}.

(** [ORDER BY user_id, created_at DESC]. *)
Definition assessment_leb (a b : health_assessment) : bool :=
  (ha_user_id a <? ha_user_id b)%N ||
  ((ha_user_id a =? ha_user_id b)%N && (ha_created_at b <=? ha_created_at a)).

(** The CTE [latest_assessments]. *)
Definition latest_assessments (p_date : date) (rows : list health_assessment)
  : list health_assessment :=
  distinct_on ha_user_id N.eqb
    (order_by assessment_leb
       (filter (fun a => DATE (ha_created_at a) <=? p_date) rows)).

Definition category_averages_of (rows : list health_assessment)
  : category_averages_t :=
  {| mindset := sql_avg (map mindset_score rows);
     sleep := sql_avg (map sleep_score rows);
     exercise := sql_avg (map exercise_score rows);
     nutrition := sql_avg (map nutrition_score rows);
     biohacking := sql_avg (map biohacking_score rows) |}.

(** JSONB keeps the keys of an object ordered by length, then bytewise. *)
Definition jsonb_key_leb (a b : string * Z) : bool :=
  let la := String.length (fst a) in
  let lb := String.length (fst b) in
  (la <? lb)%nat || ((la =? lb)%nat && String.leb (fst a) (fst b)).

Definition option_string_eqb (a b : option string) : bool :=
  match a, b with
  | Some x, Some y => String.eqb x y
  | None, None => true
  | _, _ => false
  end.

(** The distinct values of a column, in order of first appearance. *)
Fixpoint distinct_providers (seen l : list (option string))
  : list (option string) :=
  match l with
  | [] => []
  | p :: l' =>
      if existsb (option_string_eqb p) seen then distinct_providers seen l'
      else p :: distinct_providers (p :: seen) l'
  end.

(** The groups of [GROUP BY provider] with their [COUNT]. *)
Definition group_providers (l : list (option string))
  : list (option string * Z) :=
  map (fun p => (p, Z.of_nat (List.length (filter (option_string_eqb p) l))))
      (distinct_providers [] l).

Definition device_connection_stats_of (devices : list user_device)
  : device_stats :=
  let provider_stats :=
    group_providers
      (map provider
         (filter (fun d => String.eqb (dev_status d) "active") devices)) in
  {| total_connected := Z.of_nat (List.length provider_stats);
     by_provider :=
       order_by jsonb_key_leb
         (flat_map (fun g => match fst g with
                             | Some p => [(p, snd g)]
                             | None => []
                             end) provider_stats) |}.

Definition on_date (p_date : date) (ts : timestamptz) : bool :=
  DATE ts =? p_date.

(** The computations of [calculate_daily_user_insights] up to the upsert. *)
Definition compute_metrics (p_date : date) (t : sources)
  : plpgsql unit metrics :=
  (v_total_users <- count_into (users t) ;;
   v_active_users <- count_into
     (nodup N.eq_dec
        (map df_user_id
           (filter (fun r => (df_date r =? p_date) && (0 <? fp_earned r))
                   (daily_fp t)))) ;;
   v_new_users <- count_into
     (filter (fun u => on_date p_date (u_created_at u)) (users t)) ;;
   v_average_health_score <-
     to_numeric 4 2 (sql_avg (map health_score (users t))) ;;
   v_average_healthspan_years <-
     to_numeric 4 2 (sql_avg (map healthspan_years (users t))) ;;
   v_total_healthspan_years <-
     to_numeric 8 2 (sql_sum (map healthspan_years (users t))) ;;
   let v_category_averages :=
     category_averages_of (latest_assessments p_date (health_assessments t)) in
   v_total_fp_earned <- int4
     (COALESCE
        (sql_sum_int (map fp_earned
           (filter (fun r => df_date r =? p_date) (daily_fp t)))) 0) ;;
   v_average_fp_per_user <- to_numeric 8 2
     (Some (if 0 <? v_active_users
            then Qdiv (inject_Z v_total_fp_earned) (inject_Z v_active_users)
            else 0%Q)) ;;
   v_total_boosts_completed <- count_into
     (filter (Z.eqb p_date) (completed_boosts t)) ;;
   v_total_challenges_completed <- count_into
     (filter (on_date p_date) (completed_challenges t)) ;;
   v_total_quests_completed <- count_into
     (filter (on_date p_date) (completed_quests t)) ;;
   v_total_contests_active <- count_into
     (filter (fun c => String.eqb (ac_status c) "active" &&
                       (on_date p_date (ac_created_at c) ||
                        on_date p_date (ac_updated_at c)))
             (active_contests t)) ;;
   v_total_chat_messages <- count_into
     (filter (fun m => on_date p_date (cm_created_at m)) (chat_messages t)) ;;
   v_total_verification_posts <- count_into
     (filter (fun m => on_date p_date (cm_created_at m) && is_verification m)
             (chat_messages t)) ;;
   let v_device_connection_stats :=
     device_connection_stats_of (user_devices t) in
   v_total_lifetime_fp <- to_integer (sql_sum_int (map lifetime_fp (users t))) ;;
   v_average_level <- to_numeric 4 2
     (sql_avg (map (fun u => Some (inject_Z (level u))) (users t))) ;;
   v_highest_level <- to_integer (sql_max_int (map level (users t))) ;;
   v_total_lifetime_boosts <- count_into (completed_boosts t) ;;
   v_total_lifetime_challenges <- count_into (completed_challenges t) ;;
   v_total_lifetime_quests <- count_into (completed_quests t) ;;
   v_total_lifetime_chat_messages <- count_into (chat_messages t) ;;
   v_total_lifetime_verification_posts <- count_into
     (filter is_verification (chat_messages t)) ;;
   v_morning_basics_actions <- count_into
     (filter (fun a => (ca_completed_date a =? p_date) &&
                       String.eqb (action_id a) "morning_basics_daily")
             (completed_actions t)) ;;
   v_other_challenge_actions <- count_into
     (filter (fun a => (ca_completed_date a =? p_date) &&
                       negb (String.eqb (action_id a) "morning_basics_daily"))
             (completed_actions t)) ;;
   v_challenge_actions <- int4
     (v_morning_basics_actions + v_other_challenge_actions) ;;
   v_contest_registrations <- count_into
     (filter (on_date p_date) (contest_registrations t)) ;;
   v_challenge_registrations <- count_into
     (filter (on_date p_date) (challenges t)) ;;
   v_cosmo_chats <- count_into
     (filter (on_date p_date) (cosmo_chat_messages t)) ;;
   v_contest_verifications <- count_into
     (flat_map (fun m =>
        filter (fun c => String.eqb (chat_id m) ("c_" ++ ac_challenge_id c) &&
                         (cm_user_id m =? ac_user_id c)%N)
               (active_contests t))
        (filter (fun m => on_date p_date (cm_created_at m) && is_verification m)
                (chat_messages t))) ;;
   v_health_assessments <- count_into
     (filter (fun a => on_date p_date (ha_created_at a)) (health_assessments t)) ;;
   ret {| total_users := v_total_users;
          active_users := v_active_users;
          new_users := v_new_users;
          average_health_score := v_average_health_score;
          average_healthspan_years := v_average_healthspan_years;
          total_healthspan_years := v_total_healthspan_years;
          category_averages := v_category_averages;
          total_fp_earned := v_total_fp_earned;
          average_fp_per_user := v_average_fp_per_user;
          total_boosts_completed := v_total_boosts_completed;
          total_challenges_completed := v_total_challenges_completed;
          total_quests_completed := v_total_quests_completed;
          total_contests_active := v_total_contests_active;
          total_chat_messages := v_total_chat_messages;
          total_verification_posts := v_total_verification_posts;
          device_connection_stats := v_device_connection_stats;
          total_lifetime_fp := v_total_lifetime_fp;
          average_level := v_average_level;
          highest_level := v_highest_level;
          total_lifetime_boosts := v_total_lifetime_boosts;
          total_lifetime_challenges := v_total_lifetime_challenges;
          total_lifetime_quests := v_total_lifetime_quests;
          total_lifetime_chat_messages := v_total_lifetime_chat_messages;
          total_lifetime_verification_posts :=
            v_total_lifetime_verification_posts;
          challenge_actions := v_challenge_actions;
          contest_registrations_count := v_contest_registrations;
          challenge_registrations := v_challenge_registrations;
          cosmo_chats := v_cosmo_chats;
          contest_verifications := v_contest_verifications;
          health_assessments_count := v_health_assessments |})%plpgsql.

(** [UPDATE all_user_insights SET ... WHERE id = v_existing_record_id], the
    id being that of the first row with the date. *)
Fixpoint update_existing (p_date : date) (m : metrics) (rows : list insight)
  : list insight :=
  match rows with
  | [] => []
  | r :: rows' =>
      if in_date r =? p_date
      then {| in_date := in_date r; in_metrics := m |} :: rows'
      else r :: update_existing p_date m rows'
  end.

Definition calculate_daily_user_insights (p_date : date) : plpgsql db bool :=
  fun s =>
    match compute_metrics p_date (src s) tt with
    | Raised e => Raised e
    | Done m _ =>
        let v_existing_record_id :=
          find (fun r => in_date r =? p_date) (all_user_insights s) in
        match v_existing_record_id with
        | None =>
            Done true
              {| src := src s;
                 all_user_insights :=
                   all_user_insights s ++
                   [{| in_date := p_date; in_metrics := m |}] |}
        | Some _ =>
            Done true
              {| src := src s;
                 all_user_insights :=
                   update_existing p_date m (all_user_insights s) |}
        end
    end.

(** *** Vocabulary of the properties, and test data *)

(** A record qualifies for the snapshot of [p_date] when the date of its
    timestamp is not after [p_date]. *)
Definition qualifies (p_date : date) (a : health_assessment) : bool :=
  DATE (ha_created_at a) <=? p_date.

Definition rows_for (d : date) (s : db) : list insight :=
  filter (fun r => in_date r =? d) (all_user_insights s).

(** Test data: two assessments of user 1 on 1970-01-06 (day 5), a later
    one on day 7, and one of user 2 on day 4. *)
Definition assessment (uid : uuid) (ts : timestamptz) (score : Z)
  : health_assessment :=
  {| ha_user_id := uid; ha_created_at := ts;
     mindset_score := Some (inject_Z score);
     sleep_score := Some (inject_Z score);
     exercise_score := Some (inject_Z score);
     nutrition_score := Some (inject_Z score);
     biohacking_score := None |}.

Definition sample_assessments : list health_assessment :=
  [assessment 1%N (5 * 86400 + 36000) 6;
   assessment 2%N (4 * 86400) 3;
   assessment 1%N (7 * 86400) 9;
   assessment 1%N (5 * 86400 + 43200) 8].

(** A small database: two users, points earned on day 5, and no snapshot
    yet. *)
Definition sample_sources : sources :=
  {| users :=
       [{| u_created_at := 5 * 86400 + 60;
           health_score := Some (Qmake 15 2);
           healthspan_years := Some (Qmake 5 4);
           lifetime_fp := 120; level := 2 |};
        {| u_created_at := 86400;
           health_score := Some (inject_Z 8);
           healthspan_years := None;
           lifetime_fp := 40; level := 1 |}];
     daily_fp :=
       [{| df_user_id := 1%N; df_date := 5; fp_earned := 25 |};
        {| df_user_id := 2%N; df_date := 5; fp_earned := 10 |};
        {| df_user_id := 2%N; df_date := 4; fp_earned := 5 |}];
     health_assessments := sample_assessments;
     completed_boosts := [5; 5; 4];
     completed_challenges := [5 * 86400];
     completed_quests := [];
     active_contests :=
       [{| ac_status := "active"; ac_created_at := 5 * 86400;
           ac_updated_at := 5 * 86400; ac_challenge_id := "tc1";
           ac_user_id := 1%N |}];
     chat_messages :=
       [{| cm_created_at := 5 * 86400 + 10; is_verification := true;
           chat_id := "c_tc1"; cm_user_id := 1%N |};
        {| cm_created_at := 5 * 86400 + 20; is_verification := false;
           chat_id := "c_tc1"; cm_user_id := 2%N |}];
     user_devices :=
       [{| dev_status := "active"; provider := Some "oura" |};
        {| dev_status := "active"; provider := Some "fitbit" |};
        {| dev_status := "active"; provider := Some "oura" |};
        {| dev_status := "revoked"; provider := Some "garmin" |}];
     completed_actions :=
       [{| ca_completed_date := 5; action_id := "morning_basics_daily" |}];
     contest_registrations := [];
     challenges := [5 * 86400 + 5];
     cosmo_chat_messages := [4 * 86400] |}.

Definition sample_db : db :=
  {| src := sample_sources; all_user_insights := [] |}.

Definition sample_db_day5 : db :=
  state_after (calculate_daily_user_insights 5) sample_db.

(** The metrics stored for a date, those of the first row when the table
    has several. *)
Definition stored (d : date) (s : db) : option metrics :=
  option_map in_metrics (find (fun r => in_date r =? d) (all_user_insights s)).

(** The rows of the other dates. *)
Definition other_rows (d : date) (s : db) : list insight :=
  filter (fun r => negb (in_date r =? d)) (all_user_insights s).

(** A database whose users are all at level 100 or above. *)
Definition high_level_db : db :=
  {| src :=
       {| users :=
            [{| u_created_at := 0; health_score := None;
                healthspan_years := None; lifetime_fp := 0; level := 100 |};
             {| u_created_at := 0; health_score := None;
                healthspan_years := None; lifetime_fp := 0; level := 120 |}];
          daily_fp := []; health_assessments := []; completed_boosts := [];
          completed_challenges := []; completed_quests := [];
          active_contests := []; chat_messages := []; user_devices := [];
          completed_actions := []; contest_registrations := [];
          challenges := []; cosmo_chat_messages := [] |};
     all_user_insights := [] |}.

End Insights.

(** ** The running count of challenge actions
    (discarded migration 20250606155344) *)

Module ChallengeActions.

(** The columns of [all_user_insights] the two routines read and write.
    The INSERT of the trigger names only these two. *)
Record insight := {
  in_date : date;
  challenge_actions : option Z
}.

Record db := {
  chat_messages : list Insights.chat_message;
  all_user_insights : list insight
}.

Definition set_chat_messages
    (f : list Insights.chat_message -> list Insights.chat_message) (s : db)
  : db :=
  {| chat_messages := f (chat_messages s);
     all_user_insights := all_user_insights s |}.

Definition set_all_user_insights (f : list insight -> list insight) (s : db)
  : db :=
  {| chat_messages := chat_messages s;
     all_user_insights := f (all_user_insights s) |}.

(** [UPDATE all_user_insights SET ... WHERE p]. *)
Definition update_insights (p : insight -> bool)
    (f : insight -> plpgsql unit insight) : plpgsql db unit :=
  fun s => match update_rows p f (all_user_insights s) tt with
           | Done rows' _ => Done tt (set_all_user_insights (fun _ => rows') s)
           | Raised e => Raised e
           end.

(** *** [update_challenge_action_count], the trigger function *)

Definition update_challenge_action_count (CURRENT_DATE : date)
    (NEW : Insights.chat_message) : plpgsql db Insights.chat_message :=
  let today_date := CURRENT_DATE in
  ((if Insights.is_verification NEW then
      (found <- gets (fun s =>
         existsb (fun r => in_date r =? today_date) (all_user_insights s)) ;;
       if negb found then
         modify (set_all_user_insights (fun l =>
           l ++ [{| in_date := today_date; challenge_actions := Some 1 |}]))
       else
         update_insights (fun r => in_date r =? today_date)
           (fun r =>
              v <- int4 (COALESCE (challenge_actions r) 0 + 1) ;;
              ret {| in_date := in_date r; challenge_actions := Some v |}))
    else ret tt) ;;
   ret NEW)%plpgsql.

(** [INSERT INTO chat_messages] of the row [NEW], with the trigger
    [track_challenge_actions_trigger] that runs after it. *)
Definition insert_chat_message (CURRENT_DATE : date)
    (NEW : Insights.chat_message) : plpgsql db unit :=
  (modify (set_chat_messages (fun l => l ++ [NEW])) ;;
   _ <- update_challenge_action_count CURRENT_DATE NEW ;;
   ret tt)%plpgsql.

(** *** [recalculate_challenge_actions] *)

Definition is_verification_of (day : date) (m : Insights.chat_message)
  : bool :=
  Insights.is_verification m && (DATE (Insights.cm_created_at m) =? day).

Definition recalculate_body (day : date) (_ : unit) : plpgsql db unit :=
  (rows <- gets (fun s => filter (is_verification_of day) (chat_messages s)) ;;
   verification_count <- Insights.count_into rows ;;
   update_insights (fun r => in_date r =? day)
     (fun r => ret {| in_date := in_date r;
                      challenge_actions := Some verification_count |}))%plpgsql.

Definition recalculate_challenge_actions : plpgsql db unit :=
  (days <- gets (fun s => order_by Z.leb (map in_date (all_user_insights s))) ;;
   Streak.for_loop recalculate_body days tt)%plpgsql.

(** *** Vocabulary of the properties, and test data *)

(** The number of verification messages created on a day. *)
Definition verified_on (s : db) (day : date) : Z :=
  Z.of_nat (List.length (filter (is_verification_of day) (chat_messages s))).

(** A row with its count set to the number of verification messages of its
    day. *)
Definition recounted (s : db) (r : insight) : insight :=
  {| in_date := in_date r;
     challenge_actions := Some (verified_on s (in_date r)) |}.

(** Every row holds the number of verification messages of its day. *)
Definition counts_agree (s : db) : Prop :=
  forall r, In r (all_user_insights s) ->
            challenge_actions r = Some (verified_on s (in_date r)).

Definition has_row (day : date) (s : db) : bool :=
  existsb (fun r => in_date r =? day) (all_user_insights s).

Definition post (ts : timestamptz) (verification : bool)
  : Insights.chat_message :=
  {| Insights.cm_created_at := ts; Insights.is_verification := verification;
     Insights.chat_id := "c_tc1"; Insights.cm_user_id := 1%N |}.

(** Test data: three verification messages on day 5 and one on day 4; the
    row of day 5 holds a stale count and the row of day 4 none. *)
Definition posts_db : db :=
  {| chat_messages :=
       [post (5 * 86400 + 10) true; post (4 * 86400) true;
        post (5 * 86400 + 20) false; post (5 * 86400 + 30) true;
        post (5 * 86400 + 40) true];
     all_user_insights :=
       [{| in_date := 5; challenge_actions := Some 1 |};
        {| in_date := 4; challenge_actions := None |};
        {| in_date := 3; challenge_actions := Some 7 |}] |}.

Definition recounted_db : db :=
  set_all_user_insights (map (recounted posts_db)) posts_db.

End ChallengeActions.

(** ** The daily form of a custom challenge (part_003) *)

Module DailyForm.

(** [selectedActions.includes(actionId)]. *)
Definition includes (l : list string) (x : string) : bool :=
  existsb (String.eqb x) l.

Definition handleToggleAction (selectedActions : list string)
    (actionId : string) : list string :=
  if includes selectedActions actionId
  then filter (fun id => negb (String.eqb id actionId)) selectedActions
  else selectedActions ++ [actionId].

(** The selection after a series of clicks on the actions of the form, each
    handled with the selection the one before left; the form opens with
    nothing selected. *)
Definition after_clicks (clicks : list string) : list string :=
  fold_left handleToggleAction clicks [].

End DailyForm.

(** ** Scenarios of the completion routines *)

(** A user on day 20 of Morning Basics, with 100 Fuel Points. *)
Definition day20_db : MorningBasics.db :=
  {| MorningBasics.users :=
       [{| MorningBasics.u_id := 7%N; MorningBasics.u_name := "Ann";
           MorningBasics.fuel_points := 100;
           MorningBasics.updated_at := 0 |}];
     MorningBasics.completed_actions := [];
     MorningBasics.challenges :=
       [{| MorningBasics.ch_id := 1%N; MorningBasics.ch_user_id := 7%N;
           MorningBasics.challenge_id := "mb0";
           MorningBasics.status := "active";
           MorningBasics.verification_count := 20;
           MorningBasics.verifications_required := 21;
           MorningBasics.started_at := 0;
           MorningBasics.completed_at := None;
           MorningBasics.progress := MorningBasics.percent_of_21 20 |}];
     MorningBasics.completed_challenges := [];
     MorningBasics.fp_earnings := [];
     MorningBasics.daily_fp := [];
     MorningBasics.uuid_seed := 100%N |}.

(** Day 21, 2025-06-03: the user completes the challenge. *)
Definition day21_db : MorningBasics.db :=
  state_after
    (MorningBasics.handle_morning_basics_completion no_faults (Some 7%N)
       (make_date 2025 6 3) 1000)
    day20_db.

(** Day 22, 2025-06-04: the user submits the daily completion again. *)
Definition day22_db : MorningBasics.db :=
  state_after
    (MorningBasics.handle_morning_basics_completion no_faults (Some 7%N)
       (make_date 2025 6 4) 2000)
    day21_db.

Definition ledger_total (s : MorningBasics.db) : Z :=
  fold_right Z.add 0 (map MorningBasics.fp_amount (MorningBasics.fp_earnings s)).

Definition bonus_entries (s : MorningBasics.db) : nat :=
  List.length
    (filter (fun e => String.eqb (MorningBasics.item_id e) "mb0")
            (MorningBasics.fp_earnings s)).

Definition points_of (s : MorningBasics.db) : list Z :=
  map MorningBasics.fuel_points (MorningBasics.users s).

Definition daily_totals (s : MorningBasics.db) : list (date * Z) :=
  map (fun r => (MorningBasics.df_date r, MorningBasics.fp_earned r))
      (MorningBasics.daily_fp s).

(** The plan in which only the daily ledger insert fails. *)
Definition ledger_insert_fails (st : MorningBasics.stmt) : bool :=
  match st with
  | MorningBasics.insert_daily_earning => true
  | _ => false
  end.

(** A user with a two-day custom challenge and two actions to choose
    from. *)
Definition custom_db : CustomChallenge.db :=
  {| CustomChallenge.users :=
       [{| CustomChallenge.u_id := 7%N; CustomChallenge.u_name := "Ann";
           CustomChallenge.fuel_points := 10;
           CustomChallenge.days_since_fp := 3 |}];
     CustomChallenge.custom_challenges :=
       [{| CustomChallenge.cc_id := 3%N; CustomChallenge.cc_user_id := 7%N;
           CustomChallenge.cc_name := "Stretch";
           CustomChallenge.status := "active";
           CustomChallenge.daily_minimum := 1;
           CustomChallenge.fp_daily_reward := 10;
           CustomChallenge.fp_completion_reward := 100;
           CustomChallenge.target_completions := 2;
           CustomChallenge.total_completions := 0;
           CustomChallenge.last_completion_date := None;
           CustomChallenge.progress := 0;
           CustomChallenge.completed_at := None |}];
     CustomChallenge.daily_completions := [];
     CustomChallenge.challenge_actions :=
       [{| CustomChallenge.act_id := 11%N;
           CustomChallenge.act_custom_challenge_id := 3%N |};
        {| CustomChallenge.act_id := 12%N;
           CustomChallenge.act_custom_challenge_id := 3%N |}];
     CustomChallenge.action_completions := [];
     CustomChallenge.fp_earnings := [];
     CustomChallenge.daily_fp := [];
     CustomChallenge.debug_logs := [];
     CustomChallenge.uuid_seed := 100%N |}.

Definition one_action : CustomChallenge.completed_actions_text :=
  CustomChallenge.json_array [CustomChallenge.action 11%N].

Definition custom_day1_db : CustomChallenge.db :=
  state_after
    (CustomChallenge.complete_custom_challenge_daily no_faults
       (make_date 2025 6 3) 1000 7%N 3%N one_action)
    custom_db.

(** The same user with a challenge whose target is 0. *)
Definition zero_target_db : CustomChallenge.db :=
  CustomChallenge.with_target 0 custom_db.

(** Two actions of the challenge, one of them named twice, and an action
    that is not of the challenge. *)
Definition three_actions : CustomChallenge.completed_actions_text :=
  CustomChallenge.json_array
    [CustomChallenge.action 11%N; CustomChallenge.action 99%N;
     CustomChallenge.action 11%N; CustomChallenge.no_action_id].

(** A challenge that asks for three actions a day. *)
Definition strict_db : CustomChallenge.db :=
  CustomChallenge.set_custom_challenges (map (fun c =>
    {| CustomChallenge.cc_id := CustomChallenge.cc_id c;
       CustomChallenge.cc_user_id := CustomChallenge.cc_user_id c;
       CustomChallenge.cc_name := CustomChallenge.cc_name c;
       CustomChallenge.status := CustomChallenge.status c;
       CustomChallenge.daily_minimum := 3;
       CustomChallenge.fp_daily_reward := CustomChallenge.fp_daily_reward c;
       CustomChallenge.fp_completion_reward :=
         CustomChallenge.fp_completion_reward c;
       CustomChallenge.target_completions :=
         CustomChallenge.target_completions c;
       CustomChallenge.total_completions :=
         CustomChallenge.total_completions c;
       CustomChallenge.last_completion_date :=
         CustomChallenge.last_completion_date c;
       CustomChallenge.progress := CustomChallenge.progress c;
       CustomChallenge.completed_at := CustomChallenge.completed_at c |}))
    custom_db.

(** The plan in which only the update of the user's points fails. *)
Definition user_update_fails (st : CustomChallenge.stmt) : bool :=
  match st with
  | CustomChallenge.update_user => true
  | _ => false
  end.

(** * Properties of the streak routines *)

Example epoch_day : make_date 1970 1 1 = 0.
Proof. reflexivity. Qed.

Example june_2025 :
  make_date 2025 6 2 = make_date 2025 6 1 + 1 /\
  make_date 2025 6 3 = make_date 2025 6 2 + 1 /\
  make_date 2025 3 1 = make_date 2025 2 28 + 1 /\
  make_date 2024 3 1 = make_date 2024 2 29 + 1.
Proof. repeat split; reflexivity. Qed.

Section StreakFacts.
Import Streak.

Lemma run_ending_zero boosts uid d k :
  run_ending boosts uid d k -> has_boost boosts uid d = false -> k = 0.
Proof.
  intros (Hk & Hrun & _) Hno.
  destruct (Z.eq_dec k 0) as [|Hne]; [assumption|].
  specialize (Hrun 0 ltac:(lia)). rewrite Z.sub_0_r in Hrun. congruence.
Qed.

Lemma run_ending_pos boosts uid d k :
  run_ending boosts uid d k -> has_boost boosts uid d = true ->
  1 <= k /\ run_ending boosts uid (d - 1) (k - 1).
Proof.
  intros (Hk & Hrun & Hend) Hyes.
  assert (k <> 0) by (intros ->; rewrite Z.sub_0_r in Hend; congruence).
  split; [lia|]. repeat split; try lia.
  - intros i Hi. replace (d - 1 - i) with (d - (i + 1)) by lia.
    apply Hrun. lia.
  - replace (d - 1 - (k - 1)) with (d - k) by lia. assumption.
Qed.

Lemma streak_loop_spec boosts uid st :
  forall k, 0 <= v_days_checked st < v_max_days_to_check ->
    run_ending boosts uid (v_check_date st) k ->
    let r := streak_loop boosts uid st in
    v_streak r = v_streak st + Z.min k (v_max_days_to_check - v_days_checked st) /\
    List.length (inspected r) =
      (List.length (inspected st) +
       Z.to_nat (Z.min (k + 1) (v_max_days_to_check - v_days_checked st)))%nat.
Proof.
  funelim (streak_loop boosts uid st); intros k Hdc Hrun; cbn zeta;
    unfold v_max_days_to_check in *.
  - pose proof (run_ending_zero _ _ _ _ Hrun Heq) as ->.
    unfold streak_break; cbn [v_streak inspected List.length]. split; lia.
  - destruct (run_ending_pos _ _ _ _ Hrun Heq0) as [Hk _].
    unfold streak_advance; cbn [v_streak inspected List.length]. split; lia.
  - destruct (run_ending_pos _ _ _ _ Hrun Heq0) as [Hk Hrun'].
    match goal with
    | IH : forall k, _ -> _ -> _ |- _ =>
        destruct (IH (k - 1)) as [IHs IHi];
        [ unfold streak_advance; cbn [v_days_checked]; lia
        | exact Hrun' | ]
    end.
    cbn zeta in IHs, IHi. rewrite IHs, IHi.
    unfold streak_advance; cbn [v_streak v_days_checked inspected List.length].
    split; lia.
Qed.

Lemma streak_loop_bounds boosts uid st :
  0 <= v_days_checked st < v_max_days_to_check ->
  let r := streak_loop boosts uid st in
  v_streak st <= v_streak r <=
    v_streak st + (v_max_days_to_check - v_days_checked st) /\
  exists n,
    (1 <= n <= Z.to_nat (v_max_days_to_check - v_days_checked st))%nat /\
    inspected r = rev (days_back (v_check_date st) n) ++ inspected st.
Proof.
  funelim (streak_loop boosts uid st); intros Hdc; cbn zeta;
    unfold v_max_days_to_check in *.
  - unfold streak_break; cbn [v_streak inspected]. split; [lia|].
    exists 1%nat. split; [lia|reflexivity].
  - unfold streak_advance; cbn [v_streak inspected]. split; [lia|].
    exists 1%nat. split; [lia|reflexivity].
  - match goal with
    | IH : _ -> _ |- _ =>
        destruct IH as [IHs (m & Hm & IHi)];
        [ unfold streak_advance; cbn [v_days_checked]; lia | ]
    end.
    revert IHs IHi Hm.
    unfold streak_advance; cbn [v_streak v_days_checked v_check_date inspected].
    intros IHs IHi Hm. split; [lia|].
    exists (S m). split; [lia|].
    rewrite IHi. cbn [days_back rev]. now rewrite <- app_assoc.
Qed.

Lemma streak_loop_full boosts uid st :
  0 <= v_days_checked st < v_max_days_to_check ->
  (forall i, 0 <= i < v_max_days_to_check - v_days_checked st ->
             has_boost boosts uid (v_check_date st - i) = true) ->
  v_streak (streak_loop boosts uid st) =
    v_streak st + (v_max_days_to_check - v_days_checked st).
Proof.
  funelim (streak_loop boosts uid st); intros Hdc Hall;
    unfold v_max_days_to_check in *.
  - specialize (Hall 0 ltac:(lia)). rewrite Z.sub_0_r in Hall. congruence.
  - unfold streak_advance; cbn [v_streak]. lia.
  - match goal with
    | IH : _ -> _ -> _ |- _ => rewrite IH
    end; unfold streak_advance; cbn [v_streak v_days_checked v_check_date];
      try lia.
    intros i Hi. replace (v_check_date st - 1 - i)
      with (v_check_date st - (i + 1)) by lia.
    apply Hall. lia.
Qed.

Lemma calculate_burn_streak_run boosts today uid k :
  run_ending boosts uid today k ->
  calculate_burn_streak boosts today uid = Z.min k v_max_days_to_check.
Proof.
  intros Hrun. unfold calculate_burn_streak.
  destruct (streak_loop_spec boosts uid (streak_init today) k) as [Hs _].
  - unfold v_max_days_to_check; simpl; lia.
  - exact Hrun.
  - cbn zeta in Hs. rewrite Hs.
    unfold streak_init, v_max_days_to_check; cbn [v_streak v_days_checked]. lia.
Qed.

Lemma has_boost_true boosts uid d :
  has_boost boosts uid d = true <->
  exists cb, In cb boosts /\ cb_user_id cb = uid /\ completed_date cb = d.
Proof.
  unfold has_boost. rewrite existsb_exists. split.
  - intros (cb & Hin & Hb). apply andb_true_iff in Hb as [Hu Hd].
    exists cb. repeat split; [assumption | now apply N.eqb_eq | now apply Z.eqb_eq].
  - intros (cb & Hin & Hu & Hd). exists cb. split; [assumption|].
    apply andb_true_iff. split; [now apply N.eqb_eq | now apply Z.eqb_eq].
Qed.

Lemma has_boost_boosts_on uid ds d :
  has_boost (boosts_on uid ds) uid d = true <-> In d ds.
Proof.
  rewrite has_boost_true. unfold boosts_on. split.
  - intros (cb & Hin & _ & Hd). apply in_map_iff in Hin as (d' & <- & Hin').
    simpl in Hd. now subst.
  - intros Hin. eexists. split; [apply in_map_iff; eauto|]. now simpl.
Qed.

Lemma in_days_back d n x :
  In x (days_back d n) <-> d - Z.of_nat n < x <= d.
Proof.
  revert d; induction n as [|n IH]; intros d; cbn [days_back In].
  - lia.
  - rewrite IH. lia.
Qed.

Lemma run_ending_days_back uid d n :
  run_ending (boosts_on uid (days_back d n)) uid d (Z.of_nat n).
Proof.
  repeat split; try lia.
  - intros i Hi. apply has_boost_boosts_on, in_days_back. lia.
  - destruct (has_boost _ _ _) eqn:E; [|reflexivity].
    apply has_boost_boosts_on, in_days_back in E. lia.
Qed.

(** C10: [calculate_burn_streak] is a total function (its loop recurses on
    the days the safety limit leaves, [days_left]); it runs its EXISTS query
    for at most 100 days, which are today and the days right before it; its
    result lies between 0 and 100; and a user whose run of qualifying days
    is longer than 100 days gets 100. *)
Theorem C10_calculate_burn_streak_capped boosts today uid :
  let r := streak_loop boosts uid (streak_init today) in
  calculate_burn_streak boosts today uid = v_streak r /\
  (exists n, (1 <= n <= 100)%nat /\ inspected r = rev (days_back today n)) /\
  0 <= calculate_burn_streak boosts today uid <= 100 /\
  ((forall i, 0 <= i <= 100 -> has_boost boosts uid (today - i) = true) ->
   calculate_burn_streak boosts today uid = 100).
Proof.
  cbn zeta. unfold calculate_burn_streak.
  destruct (streak_loop_bounds boosts uid (streak_init today))
    as [Hs (n & Hn & Hi)].
  { unfold v_max_days_to_check; simpl; lia. }
  revert Hs Hn Hi.
  unfold streak_init, v_max_days_to_check;
    cbn [v_streak v_days_checked v_check_date inspected].
  intros Hs Hn Hi. repeat split; try lia.
  - exists n. split; [lia|]. now rewrite Hi, app_nil_r.
  - intros Hall.
    rewrite streak_loop_full;
      unfold v_max_days_to_check; cbn [v_streak v_days_checked v_check_date];
      try lia.
    intros i Hi'. apply Hall. lia.
Qed.

Lemma C10_witness :
  calculate_burn_streak (boosts_on 7%N (days_back 20000 101)) 20000 7%N = 100.
Proof.
  apply (C10_calculate_burn_streak_capped
           (boosts_on 7%N (days_back 20000 101)) 20000 7%N).
  intros i Hi. apply has_boost_boosts_on, in_days_back. lia.
Defined.

(** C1 (amended): when the user has a completed boost today,
    [calculate_burn_streak] returns the number of consecutive calendar days
    ending today that each have a completed boost, capped at 100; and it
    returns 0 when the user's most recent boost day is earlier than
    yesterday. *)
Theorem C1_streak_counts_run_ending_today boosts today uid :
  (forall k, has_boost boosts uid today = true ->
             run_ending boosts uid today k ->
             calculate_burn_streak boosts today uid = Z.min k 100) /\
  ((forall cb, In cb boosts -> cb_user_id cb = uid ->
               completed_date cb < today - 1) ->
   calculate_burn_streak boosts today uid = 0).
Proof.
  split.
  - intros k _ Hrun. now apply calculate_burn_streak_run.
  - intros Hold.
    rewrite (calculate_burn_streak_run boosts today uid 0); [reflexivity|].
    repeat split; try lia.
    rewrite Z.sub_0_r. destruct (has_boost boosts uid today) eqn:E; [|reflexivity].
    apply has_boost_true in E as (cb & Hin & Hu & Hd).
    specialize (Hold cb Hin Hu). lia.
Qed.

Lemma C1_witness :
  calculate_burn_streak (boosts_on 7%N (days_back 20000 5)) 20000 7%N = 5 /\
  calculate_burn_streak (boosts_on 7%N (days_back 19990 5)) 20000 7%N = 0.
Proof.
  split.
  - apply (proj1 (C1_streak_counts_run_ending_today
                    (boosts_on 7%N (days_back 20000 5)) 20000 7%N) 5).
    + reflexivity.
    + apply (run_ending_days_back 7%N 20000 5).
  - apply (proj2 (C1_streak_counts_run_ending_today
                    (boosts_on 7%N (days_back 19990 5)) 20000 7%N)).
    intros cb Hin _. apply in_map_iff in Hin as (d & <- & Hd).
    apply in_days_back in Hd. simpl. lia.
Defined.

(** C1 as stated fails twice.  A user whose only boost is yesterday's
    (2025-06-02, today being 2025-06-03) has a run of one qualifying day
    ending yesterday, and the computed streak is 0, not positive.  A user
    with boosts on each of the 101 days ending today has a run of 101
    consecutive qualifying days, and the computed streak is 100. *)
Lemma C1_counterexample :
  (let today := make_date 2025 6 3 in
   let boosts := boosts_on 7%N [make_date 2025 6 2] in
   has_boost boosts 7%N today = false /\
   run_ending boosts 7%N (today - 1) 1 /\
   calculate_burn_streak boosts today 7%N = 0) /\
  (let today := make_date 2025 6 3 in
   let boosts := boosts_on 7%N (days_back today 101) in
   run_ending boosts 7%N today 101 /\
   calculate_burn_streak boosts today 7%N = 100 /\
   calculate_burn_streak boosts today 7%N <> 101).
Proof.
  split; cbn zeta.
  - split; [reflexivity|]. split; [|reflexivity].
    apply (run_ending_days_back 7%N (make_date 2025 6 3 - 1) 1).
  - split; [apply (run_ending_days_back 7%N (make_date 2025 6 3) 101)|].
    assert (H : calculate_burn_streak
                  (boosts_on 7%N (days_back (make_date 2025 6 3) 101))
                  (make_date 2025 6 3) 7%N = 100) by (vm_compute; reflexivity).
    rewrite H. split; [reflexivity|discriminate].
Qed.

(** The earlier calculators on the same inputs.  For a user whose only
    qualifying day is yesterday, [fix_user_burn_streak]'s loop and
    [calculate_burn_streak_from_fp_earnings] both answer 1. *)
Example sibling_paths_yesterday_only :
  let today := make_date 2025 6 3 in
  fix_streak_loop today (today - 1) [today - 1] None 0 = 1 /\
  streak_from_fp_earnings
    {| users := []; completed_boosts := [];
       fp_earnings := [{| fe_user_id := 7%N; fe_item_type := "boost";
                          earned_at := (today - 1) * 86400 + 3600 |}];
       daily_fp := []; manual_burn_streak_fixes := [];
       burn_streak_debug_logs := [] |} today 7%N = 1.
Proof. split; vm_compute; reflexivity. Qed.

(** On the June scenario [calculate_burn_streak_from_fp_earnings] answers
    1: after its loop [v_last_date] is the oldest day of the run,
    2025-06-01, which is before yesterday, and the streak is reset to 1. *)
Example earnings_streak_june_scenario :
  let day d := {| fe_user_id := 7%N; fe_item_type := "boost";
                  earned_at := make_date 2025 6 d * 86400 + 3600 |} in
  let s := {| users := []; completed_boosts := [];
              fp_earnings := [day 1; day 2; day 3];
              daily_fp := []; manual_burn_streak_fixes := [];
              burn_streak_debug_logs := [] |} in
  boost_earning_dates s 7%N
  = [make_date 2025 6 3; make_date 2025 6 2; make_date 2025 6 1] /\
  earnings_loop (boost_earning_dates s 7%N) None 0
  = (3, Some (make_date 2025 6 1)) /\
  streak_from_fp_earnings s (make_date 2025 6 3) 7%N = 1.
Proof. repeat split; vm_compute; reflexivity. Qed.

(** *** [recalculate_burn_streak] in closed form *)

Lemma recalculate_burn_streak_fails faults today uid s :
  recalc_fails faults = true ->
  exists e, recalculate_burn_streak faults today uid s
            = Done (recalc_failure e uid) s.
Proof.
  unfold recalc_fails, recalculate_burn_streak, block, bind, gets, write_stmt.
  destruct (faults update_users_stmt) eqn:E1; cbn.
  - intros _. eexists; reflexivity.
  - destruct (faults insert_fix_stmt) eqn:E2; cbn; [|discriminate].
    intros _. eexists; reflexivity.
Qed.

Lemma recalculate_burn_streak_succeeds faults today uid s :
  recalc_fails faults = false ->
  let new_streak := calculate_burn_streak (completed_boosts s) today uid in
  exists s',
    recalculate_burn_streak faults today uid s
    = Done (recalc_success uid (user_column burn_streak uid s) new_streak
              (user_column longest_burn_streak uid s)
              (GREATEST (COALESCE (user_column longest_burn_streak uid s) 0)
                 new_streak)) s' /\
    users s' = update_users_where_id uid (recalc_row new_streak) (users s) /\
    completed_boosts s' = completed_boosts s /\
    fp_earnings s' = fp_earnings s /\
    daily_fp s' = daily_fp s /\
    List.length (manual_burn_streak_fixes s') =
      S (List.length (manual_burn_streak_fixes s)).
Proof.
  unfold recalc_fails, recalculate_burn_streak, block, bind, gets, write_stmt.
  intros Hf. apply orb_false_iff in Hf as [-> ->]. cbn.
  eexists. split; [reflexivity|]. cbn.
  repeat split. rewrite length_app. cbn. lia.
Qed.

(** *** The batch recalculation *)

Section RecalculateAll.
Variable faults : uuid -> recalc_stmt -> bool.
Variable today : date.
Variable boosts : list completed_boost.

Lemma recalc_all_row_id u : u_id (recalc_all_row faults today boosts u) = u_id u.
Proof. unfold recalc_all_row. now destruct (recalc_fails _). Qed.

Lemma recalc_all_row_idem u :
  recalc_all_row faults today boosts (recalc_all_row faults today boosts u)
  = recalc_all_row faults today boosts u.
Proof.
  unfold recalc_all_row. destruct (recalc_fails (faults (u_id u))) eqn:E.
  - now rewrite E.
  - unfold recalc_row, with_streaks; cbn [u_id]. rewrite E.
    cbn [longest_burn_streak COALESCE u_id u_email]. unfold GREATEST.
    f_equal. f_equal. lia.
Qed.

Lemma processed_step id ids us :
  map (processed faults today boosts ids)
      (if recalc_fails (faults id) then us
       else update_users_where_id id
              (recalc_row (calculate_burn_streak boosts today id)) us)
  = map (processed faults today boosts (id :: ids)) us.
Proof.
  assert (Hstep :
    (if recalc_fails (faults id) then us
     else update_users_where_id id
            (recalc_row (calculate_burn_streak boosts today id)) us)
    = map (fun u => if (u_id u =? id)%N then recalc_all_row faults today boosts u else u) us).
  { unfold update_users_where_id, recalc_all_row.
    destruct (recalc_fails (faults id)) eqn:E.
    - rewrite <- (map_id us) at 1. apply map_ext. intros u.
      destruct (N.eqb_spec (u_id u) id) as [->|]; [now rewrite E|reflexivity].
    - apply map_ext. intros u.
      destruct (N.eqb_spec (u_id u) id) as [->|]; [now rewrite E|reflexivity]. }
  rewrite Hstep, map_map. apply map_ext. intros u.
  unfold processed. cbn [existsb].
  destruct (N.eqb_spec (u_id u) id) as [Heq|Hne]; cbn [orb].
  - rewrite recalc_all_row_id, recalc_all_row_idem.
    now destruct (existsb (N.eqb (u_id u)) ids).
  - reflexivity.
Qed.

Lemma recalc_all_loop ids : forall acc s,
  completed_boosts s = boosts ->
  exists acc' s',
    for_loop (recalc_all_body faults today) ids acc s = Done acc' s' /\
    completed_boosts s' = boosts /\
    map (processed faults today boosts ids) (users s) = users s' /\
    v_success_count acc' =
      v_success_count acc + Z.of_nat (List.length (succeeding faults ids)) /\
    v_error_count acc' =
      v_error_count acc + Z.of_nat (List.length (failing faults ids)) /\
    exists rs,
      v_results acc' = v_results acc ++ rs /\
      map recalc_user rs = ids /\
      map recalc_ok rs = map (fun id => negb (recalc_fails (faults id))) ids.
Proof.
  induction ids as [|id ids IH]; intros acc s Hb.
  - exists acc, s. cbn. repeat split; try assumption; try lia.
    + unfold processed; cbn. now rewrite map_id.
    + exists []. now rewrite app_nil_r.
  - cbn [for_loop]. unfold bind at 1. unfold recalc_all_body at 1.
    unfold bind at 1.
    destruct (recalc_fails (faults id)) eqn:E.
    + destruct (recalculate_burn_streak_fails (faults id) today id s E)
        as (e & ->).
      cbn [recalc_ok ret].
      match goal with
      | |- context [for_loop _ ids ?a s] =>
          destruct (IH a s Hb)
            as (acc' & s' & -> & Hb' & Hu & Hs & He & rs & Hr & Hru & Hro)
      end.
      exists acc', s'. split; [reflexivity|]. split; [assumption|].
      split; [rewrite <- Hu, <- processed_step, E; reflexivity|].
      cbn [v_success_count v_error_count v_results] in Hs, He, Hr.
      unfold succeeding, failing in *. cbn [filter]. rewrite E. cbn [negb].
      split; [lia|]. split; [cbn [List.length]; lia|].
      exists (recalc_failure e id :: rs).
      rewrite Hr, <- app_assoc. cbn. rewrite Hru, Hro, E. repeat split.
    + destruct (recalculate_burn_streak_succeeds (faults id) today id s E)
        as (s1 & -> & Hu1 & Hb1 & _).
      cbn [recalc_ok ret].
      assert (Hb1' : completed_boosts s1 = boosts) by congruence.
      match goal with
      | |- context [for_loop _ ids ?a s1] =>
          destruct (IH a s1 Hb1')
            as (acc' & s' & -> & Hb' & Hu & Hs & He & rs & Hr & Hru & Hro)
      end.
      exists acc', s'. split; [reflexivity|]. split; [assumption|].
      split.
      { rewrite <- Hu, <- processed_step, E, Hu1, Hb. reflexivity. }
      cbn [v_success_count v_error_count v_results] in Hs, He, Hr.
      unfold succeeding, failing in *. cbn [filter]. rewrite E. cbn [negb].
      split; [cbn [List.length]; lia|]. split; [lia|].
      eexists (_ :: rs).
      rewrite Hr, <- app_assoc. cbn. rewrite Hru, Hro, E. repeat split.
Qed.
End RecalculateAll.

Lemma succeeding_failing_length faults ids :
  (List.length (succeeding faults ids) + List.length (failing faults ids)
   = List.length ids)%nat.
Proof.
  unfold succeeding, failing. induction ids as [|id ids IH]; [reflexivity|].
  cbn [filter]. destruct (recalc_fails (faults id)); cbn [negb List.length]; lia.
Qed.

Lemma processed_all faults today boosts us :
  map (processed faults today boosts (map u_id us)) us
  = map (recalc_all_row faults today boosts) us.
Proof.
  apply map_ext_in. intros u Hin. unfold processed.
  replace (existsb (N.eqb (u_id u)) (map u_id us)) with true; [reflexivity|].
  symmetry. apply existsb_exists. exists (u_id u).
  split; [now apply in_map | apply N.eqb_refl].
Qed.

(** C9: the batch recalculation visits every user, in the order of the
    [users] table; a user whose recalculation fails (whatever statement of
    it fails) is counted as an error, keeps the row they had, and does not
    stop the loop: every other user's row is recalculated.  The summary's
    [total_users] is the number of users and equals [success_count] plus
    [error_count]. *)
Theorem C9_recalculate_all_tally faults today s :
  exists summary s',
    recalculate_all_burn_streaks faults today s
      = Done (recalc_all_success summary) s' /\
    total_users summary = Z.of_nat (List.length (users s)) /\
    total_users summary = success_count summary + error_count summary /\
    success_count summary =
      Z.of_nat (List.length (succeeding faults (map u_id (users s)))) /\
    error_count summary =
      Z.of_nat (List.length (failing faults (map u_id (users s)))) /\
    map recalc_user (results summary) = map u_id (users s) /\
    map recalc_ok (results summary) =
      map (fun u => negb (recalc_fails (faults (u_id u)))) (users s) /\
    users s' = map (recalc_all_row faults today (completed_boosts s)) (users s).
Proof.
  unfold recalculate_all_burn_streaks, block, bind at 1, gets.
  destruct (recalc_all_loop faults today (completed_boosts s)
              (map u_id (users s))
              {| v_success_count := 0; v_error_count := 0; v_results := [] |}
              s eq_refl)
    as (acc' & s' & Hrun & _ & Hu & Hs & He & rs & Hr & Hru & Hro).
  unfold bind. rewrite Hrun. cbn [ret].
  eexists _, s'. split; [reflexivity|].
  cbn [total_users success_count error_count results
       v_success_count v_error_count v_results] in *.
  pose proof (succeeding_failing_length faults (map u_id (users s))) as Hlen.
  rewrite length_map in Hlen.
  rewrite Hr. cbn [app].
  repeat split; try lia; try assumption.
  - now rewrite Hro, map_map.
  - now rewrite <- Hu, processed_all.
Qed.

(** *** The scenario of June 2025 *)

Lemma users_after_update uid f us u' :
  In u' (update_users_where_id uid f us) ->
  exists u, In u us /\
            u' = if (u_id u =? uid)%N then f u else u.
Proof.
  unfold update_users_where_id. intros Hin.
  apply in_map_iff in Hin as (u & <- & Hin). now exists u.
Qed.

(** C2 (amended): with qualifying days exactly 2025-06-01, 06-02 and
    06-03 the streak as of 2025-06-03 is 3, and a recalculation stores
    current streak 3 and, when the stored longest streak was NULL or at
    most 3, longest streak 3; more generally an unbroken run of [n]
    consecutive qualifying days ending on the as-of date yields [n] when
    [n <= 100] and 100 when it is longer. *)
Theorem C2_june_scenario_and_runs :
  (forall s uid faults,
     recalc_fails faults = false ->
     (forall d, has_boost (completed_boosts s) uid d = true <->
                In d [make_date 2025 6 1; make_date 2025 6 2; make_date 2025 6 3]) ->
     let today := make_date 2025 6 3 in
     calculate_burn_streak (completed_boosts s) today uid = 3 /\
     exists s' prev prev_longest new_longest,
       recalculate_burn_streak faults today uid s
         = Done (recalc_success uid prev 3 prev_longest new_longest) s' /\
       (forall u', In u' (users s') -> u_id u' = uid ->
                   burn_streak u' = Some 3) /\
       ((forall u, In u (users s) -> u_id u = uid ->
                   COALESCE (longest_burn_streak u) 0 <= 3) ->
        forall u', In u' (users s') -> u_id u' = uid ->
                   longest_burn_streak u' = Some 3)) /\
  (forall boosts asof uid n,
     run_ending boosts uid asof n ->
     (n <= 100 -> calculate_burn_streak boosts asof uid = n) /\
     (100 < n -> calculate_burn_streak boosts asof uid = 100)).
Proof.
  split.
  - intros s uid faults Hf Hdays today.
    assert (Hcalc : calculate_burn_streak (completed_boosts s) today uid = 3).
    { rewrite (calculate_burn_streak_run _ today uid 3); [reflexivity|].
      subst today. change (make_date 2025 6 3) with 20242.
      change (make_date 2025 6 1) with 20240 in Hdays.
      change (make_date 2025 6 2) with 20241 in Hdays.
      change (make_date 2025 6 3) with 20242 in Hdays.
      repeat split; try lia.
      - intros i Hi. apply Hdays. cbn [In]. lia.
      - destruct (has_boost (completed_boosts s) uid (20242 - 3)) eqn:E;
          [|reflexivity].
        apply Hdays in E. cbn [In] in E. lia. }
    split; [exact Hcalc|].
    destruct (recalculate_burn_streak_succeeds faults today uid s Hf)
      as (s' & Hrun & Hu & _).
    cbn zeta in Hrun. rewrite Hcalc in Hrun, Hu.
    exists s'. do 3 eexists. split; [exact Hrun|]. split.
    + intros u' Hin Hid. rewrite Hu in Hin.
      apply users_after_update in Hin as (u & Hin & ->).
      destruct (N.eqb_spec (u_id u) uid) as [|Hne]; [reflexivity|].
      now elim Hne.
    + intros Hlong u' Hin Hid. rewrite Hu in Hin.
      apply users_after_update in Hin as (u & Hin & ->).
      destruct (N.eqb_spec (u_id u) uid) as [Heq|Hne]; [|now elim Hne].
      specialize (Hlong u Hin Heq).
      unfold recalc_row, with_streaks, GREATEST; cbn [longest_burn_streak].
      f_equal. lia.
  - intros boosts asof uid n Hrun.
    rewrite (calculate_burn_streak_run boosts asof uid n Hrun).
    unfold v_max_days_to_check. split; lia.
Qed.

Lemma C2_witness :
  calculate_burn_streak (completed_boosts june_db) (make_date 2025 6 3) 7%N = 3.
Proof.
  apply (proj1 C2_june_scenario_and_runs june_db 7%N no_faults).
  - reflexivity.
  - intros d. apply (has_boost_boosts_on 7%N).
Defined.

(** C2 as stated fails for runs longer than the safety limit: with boosts on
    each of the 101 days ending on the as-of date, the unbroken run has
    [n = 101] days and the computed streak is 100. *)
Lemma C2_counterexample :
  let asof := make_date 2025 6 3 in
  let boosts := boosts_on 7%N (days_back asof 101) in
  run_ending boosts 7%N asof 101 /\
  calculate_burn_streak boosts asof 7%N <> 101.
Proof.
  cbn zeta. split.
  - apply (run_ending_days_back 7%N (make_date 2025 6 3) 101).
  - rewrite (calculate_burn_streak_run _ _ _ 101
               (run_ending_days_back 7%N (make_date 2025 6 3) 101)).
    discriminate.
Qed.

(** *** The invariant [longest_burn_streak >= burn_streak] *)

Lemma calculate_burn_streak_range boosts today uid :
  0 <= calculate_burn_streak boosts today uid <= 100.
Proof.
  unfold calculate_burn_streak.
  destruct (streak_loop_bounds boosts uid (streak_init today)) as [Hs _].
  - unfold v_max_days_to_check; simpl; lia.
  - revert Hs. unfold streak_init, v_max_days_to_check;
      cbn [v_streak v_days_checked]. lia.
Qed.

Lemma consistent_recalc_row c u : 0 <= c -> consistent (recalc_row c u).
Proof.
  unfold consistent, recalc_row, with_streaks, GREATEST;
    cbn [burn_streak longest_burn_streak COALESCE]. lia.
Qed.

Lemma consistent_reset u : consistent u -> consistent (with_burn_streak (Some 0) u).
Proof.
  unfold consistent, with_burn_streak;
    cbn [burn_streak longest_burn_streak COALESCE]. lia.
Qed.

Lemma invariant_update uid f us :
  (forall u, consistent u -> consistent (f u)) ->
  (forall u, In u us -> consistent u) ->
  forall u, In u (update_users_where_id uid f us) -> consistent u.
Proof.
  intros Hf Hus u' Hin. apply users_after_update in Hin as (u & Hin & ->).
  destruct (u_id u =? uid)%N; auto.
Qed.

Lemma invariant_recalculate faults today uid s r s' :
  recalculate_burn_streak faults today uid s = Done r s' ->
  streak_invariant s -> streak_invariant s'.
Proof.
  intros Hrun Hinv. destruct (recalc_fails faults) eqn:E.
  - destruct (recalculate_burn_streak_fails faults today uid s E) as (e & He).
    rewrite He in Hrun. now inversion Hrun; subst.
  - destruct (recalculate_burn_streak_succeeds faults today uid s E)
      as (s1 & H1 & Hu & _).
    rewrite H1 in Hrun. inversion Hrun; subst s1.
    unfold streak_invariant. rewrite Hu.
    apply invariant_update; [|exact Hinv].
    intros u _. apply consistent_recalc_row, calculate_burn_streak_range.
Qed.

Lemma invariant_reset_loop targets : forall acc s,
  streak_invariant s ->
  exists acc' s', for_loop reset_body targets acc s = Done acc' s' /\
                  streak_invariant s'.
Proof.
  induction targets as [|v targets IH]; intros acc s Hinv.
  - exists acc, s. now split.
  - cbn [for_loop]. unfold bind at 1. unfold reset_body at 1.
    unfold bind, modify, ret.
    match goal with
    | |- context [for_loop reset_body targets ?a ?s1] =>
        destruct (IH a s1) as (acc' & s' & -> & Hinv')
    end.
    + unfold streak_invariant, set_fixes, set_users; cbn [users].
      apply invariant_update; [|exact Hinv]. intros u. apply consistent_reset.
    + now exists acc', s'.
Qed.

Lemma recalculate_all_users faults today s :
  exists r s',
    recalculate_all_burn_streaks faults today s = Done r s' /\
    users s' = map (recalc_all_row faults today (completed_boosts s)) (users s).
Proof.
  unfold recalculate_all_burn_streaks, block, bind at 1, gets.
  destruct (recalc_all_loop faults today (completed_boosts s)
              (map u_id (users s))
              {| v_success_count := 0; v_error_count := 0; v_results := [] |}
              s eq_refl)
    as (acc' & s' & Hrun & _ & Hu & _).
  unfold bind. rewrite Hrun. cbn [ret].
  eexists _, s'. split; [reflexivity|].
  now rewrite <- Hu, processed_all.
Qed.

Lemma invariant_run_op today op s s' :
  run_op today op s = Done tt s' -> streak_invariant s -> streak_invariant s'.
Proof.
  destruct op as [faults uid|faults|faults NEW| |uid]; cbn [run_op];
    intros Hrun Hinv.
  - unfold bind in Hrun.
    destruct (recalculate_burn_streak faults today uid s) as [r s1|e] eqn:E;
      [|discriminate].
    inversion Hrun; subst s1. eapply invariant_recalculate; eauto.
  - unfold bind in Hrun.
    destruct (recalculate_all_users faults today s) as (r & s1 & H1 & Hu).
    rewrite H1 in Hrun. inversion Hrun; subst s1.
    unfold streak_invariant. rewrite Hu. intros u' Hin.
    apply in_map_iff in Hin as (u & <- & Hin).
    unfold recalc_all_row. destruct (recalc_fails _); [now apply Hinv|].
    apply consistent_recalc_row, calculate_burn_streak_range.
  - unfold insert_completed_boost, bind, modify in Hrun.
    match type of Hrun with
    | context [recalculate_burn_streak faults today ?u ?s1] =>
        destruct (recalculate_burn_streak faults today u s1) as [r s2|e] eqn:E;
          [|discriminate]
    end.
    inversion Hrun; subst s2. eapply invariant_recalculate; [exact E|].
    exact Hinv.
  - unfold reset_missed_burn_streaks, bind, gets, ret in Hrun.
    cbn beta in Hrun.
    match type of Hrun with
    | context [for_loop reset_body ?t ?a s] =>
        destruct (invariant_reset_loop t a s Hinv) as (acc' & s1 & H1 & Hinv1)
    end.
    rewrite H1 in Hrun. now inversion Hrun; subst.
  - unfold bind, fix_user_burn_streak_20250624, gets, modify, ret in Hrun.
    inversion Hrun; subst s'.
    unfold streak_invariant, set_users; cbn [users].
    apply invariant_update; [|exact Hinv].
    intros u _. apply consistent_recalc_row. lia.
Qed.

(** Every state reached by the operations of migration 20250705181753 and
    the one-off fix from a consistent state has
    [longest_burn_streak >= burn_streak] in every row. *)
Lemma invariant_reachable s0 s :
  streak_invariant s0 -> reachable s0 s ->
  forall u, In u (users s) ->
    COALESCE (burn_streak u) 0 <= COALESCE (longest_burn_streak u) 0.
Proof.
  intros H0 Hreach.
  assert (Hinv : streak_invariant s).
  { induction Hreach as [|s op today s' _ IH Hrun]; [assumption|].
    eapply invariant_run_op; eauto. }
  intros u Hin. now destruct (Hinv u Hin).
Qed.

Lemma three_day_db_consistent : streak_invariant three_day_db.
Proof.
  intros u [<-|[]]. unfold consistent; cbn. lia.
Qed.

(** C3 fails on the code: from a consistent state (current 3, longest 3)
    the increment trigger [update_burn_streak] stores current streak 4 and
    leaves the longest streak at 3, and so does the one-off
    [fix_user_burn_streak]; the trigger of migration 20250705181753 stores
    4 and 4 on the same input. *)
Theorem C3_increment_trigger_breaks_invariant :
  let today := make_date 2025 6 4 in
  let row c l := {| u_id := 7%N; u_email := "three@example.org";
                    burn_streak := Some c; longest_burn_streak := Some l |} in
  streak_invariant three_day_db /\
  (exists s', insert_completed_boost_20250609 fourth_day_boost three_day_db
              = Done tt s' /\
              users s' = [row 4 3] /\ ~ streak_invariant s') /\
  (exists s', fix_user_burn_streak today 7%N three_day_db
              = Done (Some 3, 4) s' /\
              users s' = [row 4 3] /\ ~ streak_invariant s') /\
  (exists s', insert_completed_boost no_faults today fourth_day_boost three_day_db
              = Done tt s' /\
              users s' = [row 4 4] /\ streak_invariant s').
Proof.
  cbn zeta. split; [exact three_day_db_consistent|].
  assert (Hbad : forall s, users s =
            [{| u_id := 7%N; u_email := "three@example.org";
                burn_streak := Some 4; longest_burn_streak := Some 3 |}] ->
            ~ streak_invariant s).
  { intros s Hu Hinv. specialize (Hinv _ ltac:(rewrite Hu; left; reflexivity)).
    unfold consistent in Hinv; cbn in Hinv. lia. }
  repeat split.
  - eexists. split; [vm_compute; reflexivity|]. split; [reflexivity|].
    now apply Hbad.
  - eexists. split; [vm_compute; reflexivity|]. split; [reflexivity|].
    now apply Hbad.
  - eexists. split; [vm_compute; reflexivity|]. split; [reflexivity|].
    intros u [<-|[]]. unfold consistent; cbn. lia.
Qed.

End StreakFacts.

(** * Properties of the completion routines *)

Section PlpgsqlFacts.
Context {S : Type}.

Lemma bind_done {A B} (c : plpgsql S A) (k : A -> plpgsql S B) s b s' :
  bind c k s = Done b s' ->
  exists a s1, c s = Done a s1 /\ k a s1 = Done b s'.
Proof.
  unfold bind. destruct (c s) as [a s1|e]; [|discriminate]. eauto.
Qed.

Lemma gets_done {A} (f : S -> A) s a s' :
  gets f s = Done a s' -> a = f s /\ s' = s.
Proof. unfold gets. intros H. inversion H. auto. Qed.

Lemma ret_done {A} (x : A) (s : S) a s' :
  ret x s = Done a s' -> a = x /\ s' = s.
Proof. unfold ret. intros H. inversion H. auto. Qed.

Lemma modify_done (f : S -> S) s a s' :
  modify f s = Done a s' -> s' = f s.
Proof. unfold modify. intros H. inversion H. auto. Qed.

Lemma write_stmt_done fails table (c : plpgsql S unit) s a s' :
  write_stmt fails table c s = Done a s' -> fails = false /\ c s = Done a s'.
Proof. unfold write_stmt. destruct fails; [discriminate|auto]. Qed.

Lemma int4_done z (s : S) a s' :
  int4 z s = Done a s' -> a = z /\ s' = s /\ int4_min <= z <= int4_max.
Proof.
  unfold int4.
  destruct (int4_min <=? z) eqn:E1; destruct (z <=? int4_max) eqn:E2;
    cbn; try discriminate.
  intros H. inversion H. apply Z.leb_le in E1, E2. subst. repeat split; assumption.
Qed.

(** A block whose handler swallows the error leaves either the state its
    body reached or the state it was entered in. *)
Lemma swallow_done (body : plpgsql S unit) s a s' :
  block body (fun _ => ret tt) s = Done a s' ->
  body s = Done tt s' \/ ((exists e, body s = Raised e) /\ s' = s).
Proof.
  unfold block. destruct (body s) as [[] s1|e] eqn:E.
  - intros H. inversion H. now left.
  - unfold ret. intros H. inversion H. right. eauto.
Qed.
End PlpgsqlFacts.

(** Take a completed computation apart, statement by statement. *)
Ltac step_done :=
  match goal with
  | H : bind _ _ _ = Done _ _ |- _ =>
      let a := fresh "a" in let s := fresh "s" in
      let H1 := fresh "Hc" in let H2 := fresh "Hk" in
      apply bind_done in H as (a & s & H1 & H2)
  | H : gets _ _ = Done _ _ |- _ =>
      apply gets_done in H as [? ?]; subst
  | H : ret _ _ = Done _ _ |- _ =>
      apply ret_done in H as [? ?]; subst
  | H : modify _ _ = Done _ _ |- _ =>
      apply modify_done in H; subst
  | H : write_stmt _ _ _ _ = Done _ _ |- _ =>
      let Hf := fresh "Hfault" in apply write_stmt_done in H as [Hf H]
  | H : int4 _ _ = Done _ _ |- _ =>
      apply int4_done in H as (? & ? & ?); subst
  end.

Lemma find_app_last {A} (p : A -> bool) l x :
  p x = true -> find p (l ++ [x]) <> None.
Proof.
  intros Hp. induction l as [|y l IH]; cbn.
  - now rewrite Hp.
  - destruct (p y); [discriminate|assumption].
Qed.

Section MorningBasicsFacts.
Import MorningBasics.

Lemma update_table_users_frame p f s a s' :
  update_table users set_users p f s = Done a s' ->
  completed_actions s' = completed_actions s /\
  fp_earnings s' = fp_earnings s /\ daily_fp s' = daily_fp s /\
  challenges s' = challenges s /\
  completed_challenges s' = completed_challenges s.
Proof.
  unfold update_table.
  destruct (update_rows _ _ _ _) as [rows' u|e]; [|discriminate].
  intros H. inversion H. now cbn.
Qed.

Lemma update_table_daily_fp_frame p f s a s' :
  update_table daily_fp set_daily_fp p f s = Done a s' ->
  completed_actions s' = completed_actions s /\
  fp_earnings s' = fp_earnings s /\ users s' = users s /\
  challenges s' = challenges s /\
  completed_challenges s' = completed_challenges s.
Proof.
  unfold update_table.
  destruct (update_rows _ _ _ _) as [rows' u|e]; [|discriminate].
  intros H. inversion H. now cbn.
Qed.

Lemma record_completed_action_done faults uid today s a s' :
  record_completed_action faults uid today s = Done a s' ->
  faults insert_completed_action = false /\
  completed_actions s' =
    completed_actions s ++
    [{| ca_id := uuid_seed s; ca_user_id := uid;
        action_id := "morning_basics_daily"; completed_date := today;
        ca_fp_earned := fp_to_award |}] /\
  users s' = users s /\ fp_earnings s' = fp_earnings s /\
  daily_fp s' = daily_fp s.
Proof.
  unfold record_completed_action. intros H.
  repeat step_done. unfold gen_random_uuid in Hc. inversion Hc; subst.
  now cbn.
Qed.

Lemma record_fp_earning_actions faults uid name s a s' :
  record_fp_earning faults uid name s = Done a s' ->
  completed_actions s' = completed_actions s.
Proof.
  unfold record_fp_earning. intros H.
  apply swallow_done in H as [H|[_ ->]]; [|reflexivity].
  repeat step_done. unfold gen_random_uuid in Hc. inversion Hc; subst.
  reflexivity.
Qed.

Lemma update_daily_fp_actions faults uid name today done s a s' :
  update_daily_fp faults uid name today done s = Done a s' ->
  completed_actions s' = completed_actions s.
Proof.
  unfold update_daily_fp. intros H.
  apply swallow_done in H as [H|[_ ->]]; [|reflexivity].
  repeat step_done.
  destruct (existsb _ _).
  - now apply update_table_daily_fp_frame in Hk.
  - step_done. reflexivity.
Qed.

Lemma update_fuel_points_actions faults now uid done s a s' :
  update_fuel_points faults now uid done s = Done a s' ->
  completed_actions s' = completed_actions s.
Proof.
  unfold update_fuel_points. intros H.
  apply swallow_done in H as [H|[_ ->]]; [|reflexivity].
  step_done. now apply update_table_users_frame in H.
Qed.

(** What the body of the routine does once the checks have passed. *)
Lemma handle_cases faults auth today now s r s1 :
  handle_morning_basics_completion faults auth today now s = Done r s1 ->
  (r = failure user_not_authenticated /\ auth = None /\ s1 = s) \/
  (r = failure already_completed_today /\ s1 = s /\
   exists uid, auth = Some uid /\
     find (is_todays_action uid today) (completed_actions s) <> None) \/
  ((exists e, r = failure (sql_error e)) /\ s1 = s) \/
  (exists uid fp n done,
     auth = Some uid /\ r = success fp n done /\
     find (is_todays_action uid today) (completed_actions s) = None /\
     find (is_todays_action uid today) (completed_actions s1) <> None).
Proof.
  unfold handle_morning_basics_completion, block.
  match goal with |- context [match ?b s with _ => _ end] =>
    destruct (b s) as [r' s'|e] eqn:Hbody end.
  2:{ unfold ret. intros H; inversion H; subst. right; right; left. eauto. }
  intros H; inversion H; subst r' s'; clear H.
  destruct auth as [uid|].
  2:{ step_done. now left. }
  step_done. step_done.
  destruct (find (is_todays_action uid today) (completed_actions s)) eqn:Hfind.
  { step_done. right; left. repeat split. exists uid. split; [reflexivity|].
    now rewrite Hfind. }
  repeat step_done.
  right; right; right. do 4 eexists. split; [reflexivity|].
  split; [reflexivity|]. split; [exact Hfind|].
  match goal with
  | Ha : record_completed_action _ _ _ _ = Done _ _,
    Hb : record_fp_earning _ _ _ _ = Done _ _,
    Hc : update_daily_fp _ _ _ _ _ _ = Done _ _,
    Hd : update_fuel_points _ _ _ _ _ = Done _ _ |- _ =>
      apply record_completed_action_done in Ha as (_ & Ha & _);
      apply record_fp_earning_actions in Hb;
      apply update_daily_fp_actions in Hc;
      apply update_fuel_points_actions in Hd;
      rewrite Hd, Hc, Hb, Ha
  end.
  apply find_app_last. unfold is_todays_action; cbn.
  now rewrite N.eqb_refl, Z.eqb_refl.
Qed.

Lemma handle_total faults auth today now s :
  exists r s1, handle_morning_basics_completion faults auth today now s
               = Done r s1.
Proof.
  unfold handle_morning_basics_completion, block.
  match goal with |- context [match ?b s with _ => _ end] =>
    destruct (b s) as [r' s'|e] end; unfold ret; eauto.
Qed.

(** A call on a day that already has its completion is turned down before
    any write. *)
Lemma handle_again faults uid today now s :
  find (is_todays_action uid today) (completed_actions s) <> None ->
  handle_morning_basics_completion faults (Some uid) today now s
  = Done (failure already_completed_today) s.
Proof.
  intros Hfind. unfold handle_morning_basics_completion, block, bind, gets.
  destruct (find (is_todays_action uid today) (completed_actions s));
    [reflexivity|contradiction].
Qed.

End MorningBasicsFacts.

Section CustomChallengeFacts.
Import CustomChallenge.

Lemma update_rows_done {R K} (key : R -> K) p f (rows : list R) :
  (forall r r' u, f r tt = Done r' u -> key r' = key r) ->
  forall rows' u, update_rows p f rows tt = Done rows' u ->
                  map key rows' = map key rows.
Proof.
  intros Hf. induction rows as [|r rows IH]; intros rows' u H; cbn in H.
  - step_done. reflexivity.
  - repeat step_done. cbn. f_equal.
    + destruct (p r); [eapply Hf; eauto|]. now step_done.
    + destruct s, s0. eapply IH; eauto.
Qed.

Lemma update_table_done {T} (get : db -> list T) set p f s a s' :
  update_table get set p f s = Done a s' ->
  exists rows', update_rows p f (get s) tt = Done rows' tt /\
                s' = set (fun _ => rows') s.
Proof.
  unfold update_table. destruct (update_rows p f (get s) tt) as [rows' []|e];
    [|discriminate].
  intros H. inversion H. eauto.
Qed.

Lemma process_actions_frame faults cid dcid items : forall n s n' s',
  process_actions faults cid dcid items n s = Done n' s' ->
  custom_challenges s' = custom_challenges s /\
  daily_completions s' = daily_completions s.
Proof.
  induction items as [|item items IH]; intros n s n' s' H; cbn in H.
  - step_done. auto.
  - repeat step_done.
    match goal with
    | Hrest : process_actions _ _ _ _ _ _ = Done _ _ |- _ =>
        apply IH in Hrest as [-> ->]
    end.
    clear IH.
    destruct item as [| |id]; try discriminate; repeat step_done; auto.
    destruct (existsb _ _); repeat step_done; auto.
Qed.

Lemma mark_key_false cid k : mark_key false cid k = k.
Proof. now destruct k as [[a b] c]. Qed.

Lemma kept_same cid s s' :
  custom_challenges s' = custom_challenges s ->
  daily_completions s' = daily_completions s ->
  kept false cid s s'.
Proof.
  intros Hc Hd. split; [|exact Hd]. rewrite Hc. apply map_ext.
  intros c. now rewrite mark_key_false.
Qed.

Lemma kept_refl cid s : kept false cid s s.
Proof. now apply kept_same. Qed.

Lemma kept_keys cid s s' :
  kept false cid s s' ->
  map challenge_key (custom_challenges s') =
  map challenge_key (custom_challenges s).
Proof.
  intros [H _]. rewrite H. apply map_ext. intros c. apply mark_key_false.
Qed.

Lemma kept_then b cid s1 s2 s3 :
  kept false cid s1 s2 -> kept b cid s2 s3 -> kept b cid s1 s3.
Proof.
  intros H12 [H3 H4]. split; [|destruct H12; congruence].
  rewrite H3, <- (map_map challenge_key (mark_key b cid)), (kept_keys _ _ _ H12).
  now rewrite map_map.
Qed.

Lemma then_kept b cid s1 s2 s3 :
  kept b cid s1 s2 -> kept false cid s2 s3 -> kept b cid s1 s3.
Proof.
  intros [H1 H2] H23. split; [|destruct H23; congruence].
  now rewrite (kept_keys _ _ _ H23).
Qed.

Lemma record_daily_earning_kept faults uid cid ch fp s a s' :
  record_daily_earning faults uid cid ch fp s = Done a s' -> kept false cid s s'.
Proof.
  unfold record_daily_earning. intros H. repeat step_done. now apply kept_same.
Qed.

Lemma record_daily_fp_kept faults now today uid cid fp s a s' :
  record_daily_fp faults now today uid fp s = Done a s' -> kept false cid s s'.
Proof.
  unfold record_daily_fp. intros H. repeat step_done.
  destruct (find _ _); repeat step_done.
  - apply update_table_done in Hk as (rows' & _ & ->). now apply kept_same.
  - unfold gen_random_uuid in Hc. inversion Hc; subst. now apply kept_same.
Qed.

Lemma update_progress_kept faults today cid s a s' :
  update_progress faults today cid s = Done a s' -> kept false cid s s'.
Proof.
  unfold update_progress. intros H. repeat step_done.
  apply update_table_done in Hc as (rows' & Hrows & ->).
  split; [|reflexivity]. cbn.
  assert (Hkeys : map challenge_key rows' =
                  map challenge_key (custom_challenges s)).
  { eapply update_rows_done; [|exact Hrows].
    intros r r' u Hr. cbn beta in Hr. repeat step_done.
    unfold progress_percent in *.
    destruct (target_completions r =? 0); [discriminate|].
    repeat step_done. reflexivity. }
  rewrite Hkeys. apply map_ext. intros c. now rewrite mark_key_false.
Qed.

Lemma complete_challenge_kept faults now today uid cid ch fp s a s' :
  complete_challenge faults now today uid cid ch fp s = Done a s' ->
  kept true cid s s'.
Proof.
  unfold complete_challenge. intros H. repeat step_done.
  apply update_table_done in Hc1 as (rows' & _ & ->).
  split; [|reflexivity]. cbn. rewrite map_map. apply map_ext.
  intros c. unfold mark_key, challenge_key. cbn.
  now destruct (cc_id c =? cid)%N.
Qed.

Lemma credit_user_kept faults uid cid fp s a s' :
  credit_user faults uid fp s = Done a s' -> kept false cid s s'.
Proof.
  unfold credit_user. intros H. repeat step_done.
  apply update_table_done in H as (rows' & _ & ->). now apply kept_same.
Qed.

(** The award branch marks the challenge completed exactly when it reports
    [v_is_completed]. *)
Lemma award_daily_kept faults now today uid cid ch s a s' :
  award_daily faults now today uid cid ch s = Done a s' ->
  kept (snd (fst (fst a))) cid s s'.
Proof.
  unfold award_daily. intros H. repeat step_done.
  apply (record_daily_earning_kept _ _ cid) in Hc.
  apply (record_daily_fp_kept _ _ _ _ cid) in Hc0.
  apply update_progress_kept in Hc1.
  destruct (target_completions ch <=? fst a2); repeat step_done; cbn [fst snd].
  - apply complete_challenge_kept in Hc2.
    apply (credit_user_kept _ _ cid) in Hc3.
    eauto using kept_then, then_kept.
  - apply (credit_user_kept _ _ cid) in Hc2. eauto using kept_then.
Qed.

Lemma find_none_existsb {A} (p : A -> bool) l :
  find p l = None <-> existsb p l = false.
Proof.
  induction l as [|x l IH]; cbn; [tauto|].
  destruct (p x); cbn; [split; discriminate|exact IH].
Qed.

(** The owner's challenge is still found afterwards, completed when the
    statements marked it so and with the status it had otherwise. *)
Lemma owned_challenge_kept b cid uid s s' ch :
  kept b cid s s' -> owned_challenge cid uid s = Some ch ->
  exists ch', owned_challenge cid uid s' = Some ch' /\
              status ch' = if b then "completed" else status ch.
Proof.
  intros [Hk _]. unfold owned_challenge.
  revert Hk. generalize (custom_challenges s') as l'.
  induction (custom_challenges s) as [|c l IH]; intros [|c' l'] Hk Hfind;
    try discriminate.
  cbn in Hk. inversion Hk as [[Hid Huser Hstatus Hrest]].
  cbn in Hfind |- *. rewrite Hid, Huser.
  destruct ((cc_id c =? cid)%N && (cc_user_id c =? uid)%N) eqn:E.
  - inversion Hfind; subst ch. exists c'. split; [reflexivity|].
    rewrite Hstatus, Hid. apply andb_true_iff in E as [E _]. rewrite E.
    now rewrite andb_true_r.
  - now apply IH.
Qed.

(** Once the checks have passed, a call that returns reports success, the
    day's completion row is stored, and the challenge is found again with
    the status "completed" when the call reports the challenge completed
    and with its former status otherwise. *)
Lemma complete_day_done faults now today uid cid actions ch s r s1 :
  complete_day faults now today uid cid actions ch s = Done r s1 ->
  forall ch0, owned_challenge cid uid s = Some ch0 ->
  exists c ch1, r = success c /\
                owned_challenge cid uid s1 = Some ch1 /\
                status ch1 = (if r_is_completed c then "completed"
                              else status ch0) /\
                done_today cid today s1 = true.
Proof.
  unfold complete_day. intros H ch0 Hown.
  apply bind_done in H as (dcid & s2 & Hgen & H).
  unfold gen_random_uuid in Hgen. inversion Hgen; subst dcid s2; clear Hgen.
  apply bind_done in H as ([] & s3 & Hins & H).
  apply write_stmt_done in Hins as [_ Hins]. apply modify_done in Hins.
  apply bind_done in H as (n & s4 & Hcnt & H).
  apply bind_done in H as ([] & s5 & Hupd & H).
  apply write_stmt_done in Hupd as [_ Hupd]. apply modify_done in Hupd.
  apply bind_done in H as (awarded & s6 & Haw & H).
  apply ret_done in H as [-> ->].
  assert (Hcount : custom_challenges s4 = custom_challenges s3 /\
                   daily_completions s4 = daily_completions s3).
  { destruct actions as [| |items]; try discriminate.
    now apply process_actions_frame in Hcnt. }
  destruct Hcount as [Hcc Hdc].
  assert (Hkept : kept (snd (fst (fst awarded))) cid s5 s6).
  { destruct (daily_minimum ch <=? n).
    - eapply award_daily_kept; eassumption.
    - apply ret_done in Haw as [-> ->]. apply kept_refl. }
  assert (Hown5 : owned_challenge cid uid s5 = Some ch0).
  { unfold owned_challenge in *. subst s5 s3. cbn. rewrite Hcc. now cbn. }
  destruct (owned_challenge_kept _ _ _ _ _ _ Hkept Hown5) as (ch1 & Hown1 & Hst).
  eexists _, ch1. split; [reflexivity|]. split; [exact Hown1|].
  split; [exact Hst|].
  destruct Hkept as [_ Hd]. unfold done_today. rewrite Hd.
  subst s5. cbn. rewrite Hdc. subst s3. cbn. rewrite existsb_exists.
  eexists. split.
  - apply in_map. apply in_or_app. right. left. reflexivity.
  - cbn. rewrite N.eqb_refl. cbn. now rewrite N.eqb_refl, Z.eqb_refl.
Qed.

(** What a call that returns has done. *)
Lemma complete_cases faults today now uid cid actions s r s1 :
  complete_custom_challenge_daily faults today now uid cid actions s
  = Done r s1 ->
  (exists e, r = failure e /\ s1 = s /\
             (e = invalid_json \/ e = challenge_not_found \/
              e = challenge_not_active \/ e = already_completed_today)) \/
  (exists e, r = failure (sql_error e) /\
             s1 = set_debug_logs (fun l => l ++ [failure_log cid e]) s) \/
  (exists c ch1, r = success c /\
                 owned_challenge cid uid s1 = Some ch1 /\
                 is_active ch1 = negb (r_is_completed c) /\
                 done_today cid today s1 = true).
Proof.
  unfold complete_custom_challenge_daily, block.
  match goal with |- context [match ?b s with _ => _ end] =>
    destruct (b s) as [r' s'|e] eqn:Hbody end.
  2:{ intros H. unfold log_failure in H. repeat step_done.
      right; left. eexists. split; reflexivity. }
  intros H; inversion H; subst r' s'; clear H.
  assert (Hmain :
    (found <- gets (owned_challenge cid uid) ;;
     match found with
     | None => ret (failure challenge_not_found)
     | Some v_challenge =>
       if negb (is_active v_challenge)
       then ret (failure challenge_not_active)
       else
         completed_today <- gets (done_today cid today) ;;
         if completed_today : bool
         then ret (failure already_completed_today)
         else complete_day faults now today uid cid actions v_challenge
     end)%plpgsql s = Done r s1 ->
    (exists e, r = failure e /\ s1 = s /\
           (e = invalid_json \/ e = challenge_not_found \/
            e = challenge_not_active \/ e = already_completed_today)) \/
    (exists e, r = failure (sql_error e) /\
           s1 = set_debug_logs (fun l => l ++ [failure_log cid e]) s) \/
    (exists c ch1, r = success c /\
           owned_challenge cid uid s1 = Some ch1 /\
           is_active ch1 = negb (r_is_completed c) /\
           done_today cid today s1 = true)).
  { intros Hrun. repeat step_done.
    destruct (owned_challenge cid uid s) as [ch|] eqn:Hown.
    2:{ step_done. left. eexists. repeat split. tauto. }
    destruct (is_active ch) eqn:Hactive; cbn [negb] in *.
    2:{ step_done. left. eexists. repeat split. tauto. }
    repeat step_done.
    destruct (done_today cid today s).
    { step_done. left. eexists. repeat split. tauto. }
    right; right.
    match goal with
    | Hday : complete_day _ _ _ _ _ _ _ _ = Done _ _ |- _ =>
        destruct (complete_day_done _ _ _ _ _ _ _ _ _ _ Hday ch Hown)
          as (c & ch1 & -> & Hown1 & Hst & Hdone)
    end.
    exists c, ch1. repeat split; try assumption.
    unfold is_active in *. rewrite Hst.
    destruct (r_is_completed c); [reflexivity|exact Hactive]. }
  destruct actions as [| |items]; [|now apply Hmain|now apply Hmain].
  step_done. left. eexists. repeat split. tauto.
Qed.

(** A call for a challenge whose day is already completed is turned down
    before any write. *)
Lemma complete_again faults today now uid cid actions s ch :
  owned_challenge cid uid s = Some ch ->
  done_today cid today s = true ->
  complete_custom_challenge_daily faults today now uid cid actions s
  = Done (failure (second_answer actions (is_active ch))) s.
Proof.
  intros Hown Hdone.
  unfold complete_custom_challenge_daily, block, bind, gets, ret.
  destruct actions as [| |items]; [reflexivity| |]; cbv beta;
    rewrite Hown; cbn [second_answer];
    (destruct (is_active ch); cbn [negb]; [|reflexivity]);
    cbv beta; rewrite Hdone; reflexivity.
Qed.

End CustomChallengeFacts.

(** * The claims about the completion routines *)

Section CompletionClaims.

(** C4 fails on the code.  On day 21 the count reaches 21: one bonus ledger
    entry is written and the daily and lifetime totals rise by 5 + 50.  On
    day 22 the routine is called again: the count becomes 22, which is
    still at least 21, so the call reports the challenge completed again;
    the bonus ledger entry is skipped, but the day's [daily_fp] total and
    [users.fuel_points] rise by 5 + 50 a second time. *)
Theorem C4_bonus_added_to_totals_again :
  MorningBasics.handle_morning_basics_completion no_faults (Some 7%N)
    (make_date 2025 6 3) 1000 day20_db
  = Done (MorningBasics.success 55 21 true) day21_db /\
  MorningBasics.handle_morning_basics_completion no_faults (Some 7%N)
    (make_date 2025 6 4) 2000 day21_db
  = Done (MorningBasics.success 55 22 true) day22_db /\
  (bonus_entries day20_db, bonus_entries day21_db, bonus_entries day22_db)
  = (0, 1, 1)%nat /\
  (ledger_total day20_db, ledger_total day21_db, ledger_total day22_db)
  = (0, 55, 60) /\
  (points_of day20_db, points_of day21_db, points_of day22_db)
  = ([100], [155], [210]) /\
  daily_totals day22_db
  = [(make_date 2025 6 3, 55); (make_date 2025 6 4, 55)].
Proof.
  split; [vm_compute; reflexivity|].
  split; [vm_compute; reflexivity|].
  split; [vm_compute; reflexivity|].
  split; [vm_compute; reflexivity|].
  split; vm_compute; reflexivity.
Qed.

(** C5: after a daily completion that succeeded, a second submission for
    the same user (and challenge) on the same date is turned down and
    changes nothing: no completion record, no ledger entry and no point
    increment is added.  [handle_morning_basics_completion] answers
    "Already completed today"; [complete_custom_challenge_daily] answers
    "Challenge already completed today", or "Challenge is not active" when
    the first call completed the challenge (and "Invalid JSON format" when
    the second text is not JSON at all). *)
Theorem C5_second_submission_rejected :
  (forall faults1 faults2 uid today now1 now2 s fp n done s1,
     MorningBasics.handle_morning_basics_completion faults1 (Some uid)
       today now1 s
     = Done (MorningBasics.success fp n done) s1 ->
     MorningBasics.handle_morning_basics_completion faults2 (Some uid)
       today now2 s1
     = Done (MorningBasics.failure MorningBasics.already_completed_today) s1) /\
  (forall faults1 faults2 uid cid today now1 now2 actions1 actions2 s c s1,
     CustomChallenge.complete_custom_challenge_daily faults1 today now1
       uid cid actions1 s
     = Done (CustomChallenge.success c) s1 ->
     CustomChallenge.complete_custom_challenge_daily faults2 today now2
       uid cid actions2 s1
     = Done (CustomChallenge.failure
               (CustomChallenge.second_answer actions2
                  (negb (CustomChallenge.r_is_completed c)))) s1).
Proof.
  split.
  - intros faults1 faults2 uid today now1 now2 s fp n done s1 H1.
    apply handle_cases in H1
      as [(Hr & _)|[(Hr & _)|[((e & Hr) & _)|(u & fp' & n' & d' & Ha & _ & _ & Hf)]]];
      try discriminate.
    inversion Ha; subst u. now apply handle_again.
  - intros faults1 faults2 uid cid today now1 now2 actions1 actions2 s c s1 H1.
    apply complete_cases in H1
      as [(e & Hr & _)|[(e & Hr & _)|(c' & ch1 & Hr & Hown & Hact & Hdone)]];
      try discriminate.
    inversion Hr; subst c'. rewrite <- Hact. now apply complete_again.
Qed.

Lemma C5_witness :
  MorningBasics.handle_morning_basics_completion no_faults (Some 7%N)
    (make_date 2025 6 3) 2000 day21_db
  = Done (MorningBasics.failure MorningBasics.already_completed_today)
      day21_db /\
  CustomChallenge.complete_custom_challenge_daily no_faults
    (make_date 2025 6 3) 2000 7%N 3%N one_action custom_day1_db
  = Done (CustomChallenge.failure CustomChallenge.already_completed_today)
      custom_day1_db.
Proof.
  split.
  - apply (proj1 C5_second_submission_rejected no_faults no_faults 7%N
             (make_date 2025 6 3) 1000 2000 day20_db 55 21 true day21_db).
    vm_compute. reflexivity.
  - apply (proj2 C5_second_submission_rejected no_faults no_faults 7%N 3%N
             (make_date 2025 6 3) 1000 2000 one_action one_action custom_db
             {| CustomChallenge.r_daily_completion_id := 100%N;
                CustomChallenge.r_minimum_met := true;
                CustomChallenge.r_actions_completed := 1;
                CustomChallenge.r_fp_earned := 10;
                CustomChallenge.r_is_completed := false;
                CustomChallenge.r_total_completions := 1;
                CustomChallenge.r_progress := 50 |}
             custom_day1_db).
    vm_compute. reflexivity.
Defined.

(** C8 (amended): a daily completion that returns an error has written
    nothing.  [handle_morning_basics_completion] always returns; when it
    returns an error - not authenticated, already completed today, or an
    internal failure that reached its outer handler - the tables are as
    they were.  [complete_custom_challenge_daily] returns its rejections
    (invalid JSON, challenge not found or not active, already completed
    today) with the tables as they were, and after an internal failure in
    any of its write steps all of its writes are undone and one
    [debug_logs] row describing the failure is added. *)
Theorem C8_rejected_call_writes_nothing :
  (forall faults auth today now s,
     exists r s1,
       MorningBasics.handle_morning_basics_completion faults auth today now s
       = Done r s1) /\
  (forall faults auth today now s e s1,
     MorningBasics.handle_morning_basics_completion faults auth today now s
     = Done (MorningBasics.failure e) s1 ->
     s1 = s) /\
  (forall faults today now uid cid actions s e s1,
     CustomChallenge.complete_custom_challenge_daily faults today now
       uid cid actions s
     = Done (CustomChallenge.failure e) s1 ->
     match e with
     | CustomChallenge.sql_error err =>
         s1 = CustomChallenge.set_debug_logs
                (fun l => l ++ [CustomChallenge.failure_log cid err]) s
     | _ => s1 = s
     end).
Proof.
  split; [exact handle_total|]. split.
  - intros faults auth today now s e s1 H.
    apply handle_cases in H
      as [(_ & _ & Hs)|[(_ & Hs & _)|[(_ & Hs)|(u & fp & n & d & _ & Hr & _)]]];
      try assumption.
    discriminate.
  - intros faults today now uid cid actions s e s1 H.
    apply complete_cases in H
      as [(e' & Hr & Hs & He)|[(e' & Hr & Hs)|(c & ch1 & Hr & _)]].
    + inversion Hr; subst e'.
      destruct He as [->|[->|[->| ->]]]; assumption.
    + inversion Hr; subst e. assumption.
    + discriminate.
Qed.

Lemma C8_witness :
  state_after
    (MorningBasics.handle_morning_basics_completion no_faults (Some 7%N)
       (make_date 2025 6 3) 2000) day21_db = day21_db /\
  state_after
    (CustomChallenge.complete_custom_challenge_daily user_update_fails
       (make_date 2025 6 3) 1000 7%N 3%N one_action) custom_db
  = CustomChallenge.set_debug_logs
      (fun l => l ++ [CustomChallenge.failure_log 3%N (statement_failed "users")]) custom_db.
Proof.
  split.
  - apply (proj1 (proj2 C8_rejected_call_writes_nothing) no_faults (Some 7%N)
             (make_date 2025 6 3) 2000 day21_db
             MorningBasics.already_completed_today).
    vm_compute. reflexivity.
  - apply (proj2 (proj2 C8_rejected_call_writes_nothing) user_update_fails
             (make_date 2025 6 3) 1000 7%N 3%N one_action custom_db
             (CustomChallenge.sql_error (statement_failed "users"))).
    vm_compute. reflexivity.
Defined.

(** C8 as stated fails: an internal failure in a write step of
    [handle_morning_basics_completion] can leave part of its writes in
    place.  With the daily ledger insert failing, the call that brings the
    count from 20 to 21 still returns success: the completion record, the
    challenge progress, the daily total and the lifetime total are written,
    the daily ledger entry is not. *)
Lemma C8_counterexample :
  let s1 :=
    state_after
      (MorningBasics.handle_morning_basics_completion ledger_insert_fails
         (Some 7%N) (make_date 2025 6 3) 1000) day20_db in
  MorningBasics.handle_morning_basics_completion ledger_insert_fails
    (Some 7%N) (make_date 2025 6 3) 1000 day20_db
  = Done (MorningBasics.success 55 21 true) s1 /\
  List.length (MorningBasics.completed_actions s1) = 1%nat /\
  map MorningBasics.verification_count (MorningBasics.challenges s1) = [21] /\
  daily_totals s1 = [(make_date 2025 6 3, 55)] /\
  points_of s1 = [155] /\
  filter (fun e => String.eqb (MorningBasics.item_id e) "morning_basics_daily")
         (MorningBasics.fp_earnings s1) = [].
Proof.
  cbn zeta.
  split; [vm_compute; reflexivity|].
  split; [vm_compute; reflexivity|].
  split; [vm_compute; reflexivity|].
  split; [vm_compute; reflexivity|].
  split; vm_compute; reflexivity.
Qed.

End CompletionClaims.

(** * ORDER BY and DISTINCT ON *)

Section OrderByFacts.
Context {A : Type}.
Variable leb : A -> A -> bool.
Hypothesis leb_total : forall a b, leb a b = true \/ leb b a = true.
Hypothesis leb_trans :
  forall a b c, leb a b = true -> leb b c = true -> leb a c = true.

Lemma insert_sorted_perm x l : Permutation (insert_sorted leb x l) (x :: l).
Proof.
  induction l as [|y l IH]; cbn; [reflexivity|].
  destruct (leb x y); [reflexivity|].
  rewrite IH. apply perm_swap.
Qed.

Lemma order_by_perm l : Permutation (order_by leb l) l.
Proof.
  induction l as [|x l IH]; cbn; [reflexivity|].
  rewrite insert_sorted_perm. now apply perm_skip.
Qed.

Lemma insert_sorted_sorted x l :
  StronglySorted (ordered leb) l -> StronglySorted (ordered leb) (insert_sorted leb x l).
Proof.
  induction 1 as [|y l Hs IH Hy]; cbn.
  - repeat constructor.
  - destruct (leb x y) eqn:E.
    + constructor; [now constructor|].
      constructor; [exact E|].
      rewrite Forall_forall in *. intros z Hz. eapply leb_trans; eauto.
      now apply Hy.
    + constructor; [exact IH|].
      rewrite Forall_forall in *. intros z Hz.
      apply (Permutation_in _ (insert_sorted_perm x l)) in Hz as [<-|Hz].
      * destruct (leb_total x y) as [H|H]; [congruence|exact H].
      * now apply Hy.
Qed.

Lemma order_by_sorted l : StronglySorted (ordered leb) (order_by leb l).
Proof.
  induction l as [|x l IH]; cbn; [constructor|].
  now apply insert_sorted_sorted.
Qed.

(** DISTINCT ON a key the order sorts by first. *)
Variable key : A -> N.
Hypothesis leb_key : forall a b, leb a b = true -> (key a <= key b)%N.

Lemma above_tail prev x l : above key prev (x :: l) -> above key prev l.
Proof. destruct prev; cbn; auto. Qed.

Lemma distinct_on_first l : forall prev,
  StronglySorted (ordered leb) l -> above key prev l ->
  forall a, In a (distinct_on_from key N.eqb prev l) ->
    In a l /\ prev <> Some (key a) /\
    forall b, In b l -> key b = key a -> leb a b = true.
Proof.
  induction l as [|x l IH]; intros prev Hs Hab a Hin; [contradiction|].
  inversion Hs as [|? ? Hs' Hx]; subst. rewrite Forall_forall in Hx.
  assert (Hkeep :
    In a (x :: distinct_on_from key N.eqb (Some (key x)) l) ->
    prev <> Some (key x) ->
    In a (x :: l) /\ prev <> Some (key a) /\
    forall b, In b (x :: l) -> key b = key a -> leb a b = true).
  { intros [<-|Hin'] Hprev.
    - split; [now left|]. split; [exact Hprev|].
      intros b [<-|Hb] _; [|now apply Hx].
      destruct (leb_total x x); assumption.
    - destruct (IH (Some (key x)) Hs') with (a := a)
        as (Hal & Hne & Hfirst); [|assumption|].
      { intros y Hy. apply leb_key. now apply Hx. }
      split; [now right|]. split.
      + destruct prev as [k|]; [|discriminate].
        intros Heq. inversion Heq; subst k.
        assert (key x <= key a)%N by (apply leb_key; now apply Hx).
        assert (key a <= key x)%N by (apply Hab; now left).
        apply Hne. f_equal. lia.
      + intros b [<-|Hb] Hk; [|now apply Hfirst].
        exfalso. apply Hne. now f_equal. }
  cbn in Hin. destruct prev as [k|].
  - destruct (N.eqb_spec k (key x)) as [Heq|Hne].
    + destruct (IH (Some k) Hs' (above_tail _ _ _ Hab) a Hin)
        as (Hal & Hna & Hfirst).
      split; [now right|]. split; [exact Hna|].
      intros b [<-|Hb] Hk; [|now apply Hfirst].
      exfalso. apply Hna. congruence.
    + apply Hkeep; [exact Hin|]. intros Heq. inversion Heq. contradiction.
  - apply Hkeep; [exact Hin|discriminate].
Qed.

Lemma distinct_on_count l : forall prev k,
  StronglySorted (ordered leb) l -> above key prev l ->
  List.length (filter (fun a => (key a =? k)%N)
                      (distinct_on_from key N.eqb prev l))
  = match prev with
    | Some p => if (p =? k)%N then 0%nat
                else if existsb (fun a => (key a =? k)%N) l then 1%nat
                     else 0%nat
    | None => if existsb (fun a => (key a =? k)%N) l then 1%nat else 0%nat
    end.
Proof.
  induction l as [|x l IH]; intros prev k Hs Hab.
  { cbn. destruct prev as [p|]; [destruct (p =? k)%N|]; reflexivity. }
  inversion Hs as [|? ? Hs' Hx]; subst. rewrite Forall_forall in Hx.
  assert (Hnext : above key (Some (key x)) l).
  { intros y Hy. apply leb_key. now apply Hx. }
  assert (Hkeep :
    List.length (filter (fun a => (key a =? k)%N)
                   (x :: distinct_on_from key N.eqb (Some (key x)) l))
    = if existsb (fun a => (key a =? k)%N) (x :: l) then 1%nat else 0%nat).
  { cbn [filter existsb]. specialize (IH (Some (key x)) k Hs' Hnext).
    destruct (N.eqb_spec (key x) k) as [Heq|Hne]; cbn [orb List.length];
      rewrite IH.
    - now rewrite (proj2 (N.eqb_eq _ _) Heq).
    - now rewrite (proj2 (N.eqb_neq _ _) Hne). }
  cbn [distinct_on_from]. destruct prev as [p|]; [|exact Hkeep].
  destruct (N.eqb_spec p (key x)) as [Heq|Hne].
  - rewrite (IH (Some p) k Hs' (above_tail _ _ _ Hab)).
    destruct (N.eqb_spec p k) as [|Hpk]; [reflexivity|].
    cbn [existsb]. subst p.
    destruct (N.eqb_spec (key x) k); [contradiction|reflexivity].
  - rewrite Hkeep. destruct (N.eqb_spec p k) as [Heq|]; [|reflexivity].
    subst p.
    replace (existsb (fun a => (key a =? k)%N) (x :: l)) with false;
      [reflexivity|].
    symmetry. apply not_true_is_false. intros Hex.
    apply existsb_exists in Hex as (y & Hy & Hk). apply N.eqb_eq in Hk.
    assert (k <= key x)%N by (apply Hab; now left).
    destruct Hy as [<-|Hy]; [congruence|].
    assert (key x <= key y)%N by (apply leb_key; now apply Hx).
    apply Hne. lia.
Qed.
End OrderByFacts.

(** * Properties of the daily insight snapshot *)

Section InsightsFacts.
Import Insights.

Lemma assessment_leb_spec a b :
  assessment_leb a b = true <->
  (ha_user_id a < ha_user_id b)%N \/
  (ha_user_id a = ha_user_id b /\ ha_created_at b <= ha_created_at a).
Proof.
  unfold assessment_leb.
  rewrite orb_true_iff, andb_true_iff, N.ltb_lt, N.eqb_eq, Z.leb_le. tauto.
Qed.

Lemma assessment_leb_total a b :
  assessment_leb a b = true \/ assessment_leb b a = true.
Proof. rewrite !assessment_leb_spec. lia. Qed.

Lemma assessment_leb_trans a b c :
  assessment_leb a b = true -> assessment_leb b c = true ->
  assessment_leb a c = true.
Proof. rewrite !assessment_leb_spec. lia. Qed.

Lemma assessment_leb_key a b :
  assessment_leb a b = true -> (ha_user_id a <= ha_user_id b)%N.
Proof. rewrite assessment_leb_spec. lia. Qed.

Lemma compute_metrics_category_averages p_date t m u :
  compute_metrics p_date t tt = Done m u ->
  category_averages m =
    category_averages_of (latest_assessments p_date (health_assessments t)).
Proof.
  unfold compute_metrics. intros H.
  repeat (cbv zeta beta in H; apply bind_done in H as (? & ? & _ & H)).
  cbv zeta beta in H. apply ret_done in H as [-> _]. reflexivity.
Qed.

(** C7: the category averages of a snapshot are taken over
    [latest_assessments], which holds exactly one record for each user who
    has a qualifying record (and none for the other users): a qualifying
    record of that user whose timestamp is the latest among the user's
    qualifying records. *)
Theorem C7_latest_assessment_per_user p_date rows :
  let latest := latest_assessments p_date rows in
  (forall t m u,
     health_assessments t = rows ->
     compute_metrics p_date t tt = Done m u ->
     category_averages m = category_averages_of latest) /\
  (forall a, In a latest ->
     In a rows /\ DATE (ha_created_at a) <= p_date /\
     forall b, In b rows -> ha_user_id b = ha_user_id a ->
               DATE (ha_created_at b) <= p_date ->
               ha_created_at b <= ha_created_at a) /\
  (forall uid,
     List.length (filter (fun a => (ha_user_id a =? uid)%N) latest)
     = if existsb (fun b => (ha_user_id b =? uid)%N && qualifies p_date b) rows
       then 1%nat else 0%nat).
Proof.
  cbn zeta. unfold latest_assessments, distinct_on.
  set (qual := filter (fun a => DATE (ha_created_at a) <=? p_date) rows).
  pose proof (order_by_sorted assessment_leb assessment_leb_total
                assessment_leb_trans qual) as Hsorted.
  pose proof (order_by_perm assessment_leb qual) as Hperm.
  assert (Hqual : forall b, In b (order_by assessment_leb qual) <->
                            In b rows /\ DATE (ha_created_at b) <= p_date).
  { intros b. split.
    - intros Hb. apply (Permutation_in _ Hperm) in Hb.
      apply filter_In in Hb as [Hb Hd]. now apply Z.leb_le in Hd.
    - intros [Hb Hd]. apply (Permutation_in _ (Permutation_sym Hperm)).
      apply filter_In. split; [exact Hb|now apply Z.leb_le]. }
  split; [|split].
  - intros t m u <- Hm.
    now apply compute_metrics_category_averages in Hm.
  - intros a Ha.
    destruct (distinct_on_first assessment_leb assessment_leb_total
                ha_user_id assessment_leb_key _ None Hsorted I a Ha)
      as (Hin & _ & Hfirst).
    apply Hqual in Hin as [Hin Hd]. split; [exact Hin|]. split; [exact Hd|].
    intros b Hb Hu Hbd.
    specialize (Hfirst b (proj2 (Hqual b) (conj Hb Hbd)) Hu).
    apply assessment_leb_spec in Hfirst. lia.
  - intros uid.
    pose proof (distinct_on_count assessment_leb ha_user_id assessment_leb_key
                  _ None uid Hsorted I) as Hcount.
    cbv iota in Hcount.
    assert (Hex : existsb (fun a => (ha_user_id a =? uid)%N)
                          (order_by assessment_leb qual)
                  = existsb (fun b => (ha_user_id b =? uid)%N &&
                                      qualifies p_date b) rows).
    { apply eq_true_iff_eq. rewrite !existsb_exists. split.
      - intros (b & Hb & Hk). apply Hqual in Hb as [Hb Hd].
        exists b. split; [exact Hb|]. rewrite Hk. unfold qualifies.
        now apply Z.leb_le.
      - intros (b & Hb & Hk). apply andb_true_iff in Hk as [Hk Hd].
        exists b. split; [|exact Hk]. apply Hqual. split; [exact Hb|].
        now apply Z.leb_le. }
    rewrite Hex in Hcount. exact Hcount.
Qed.

Lemma C7_witness :
  let a := assessment 1%N (5 * 86400 + 43200) 8 in
  latest_assessments 5 sample_assessments = [a; assessment 2%N (4 * 86400) 3] /\
  In a sample_assessments /\ DATE (ha_created_at a) <= 5 /\
  forall b, In b sample_assessments -> ha_user_id b = ha_user_id a ->
            DATE (ha_created_at b) <= 5 ->
            ha_created_at b <= ha_created_at a.
Proof.
  cbn zeta. split; [vm_compute; reflexivity|].
  apply (proj1 (proj2 (C7_latest_assessment_per_user 5 sample_assessments))).
  vm_compute. left. reflexivity.
Defined.

(** *** The upsert *)

Lemma update_existing_dates d m rows :
  map in_date (update_existing d m rows) = map in_date rows.
Proof.
  induction rows as [|r rows IH]; cbn; [reflexivity|].
  destruct (in_date r =? d); cbn; congruence.
Qed.

Lemma update_existing_idem d m rows :
  update_existing d m (update_existing d m rows) = update_existing d m rows.
Proof.
  induction rows as [|r rows IH]; cbn; [reflexivity|].
  destruct (in_date r =? d) eqn:E; cbn; rewrite E; [reflexivity|].
  now rewrite IH.
Qed.

Lemma find_update_existing d m rows r :
  find (fun r => in_date r =? d) rows = Some r ->
  find (fun r => in_date r =? d) (update_existing d m rows)
  = Some {| in_date := in_date r; in_metrics := m |}.
Proof.
  induction rows as [|x rows IH]; cbn; [discriminate|].
  destruct (in_date x =? d) eqn:E; cbn; rewrite E.
  - intros H; inversion H; subst. reflexivity.
  - exact IH.
Qed.

Lemma find_appended d m rows :
  find (fun r => in_date r =? d) rows = None ->
  find (fun r => in_date r =? d)
       (rows ++ [{| in_date := d; in_metrics := m |}])
  = Some {| in_date := d; in_metrics := m |} /\
  update_existing d m (rows ++ [{| in_date := d; in_metrics := m |}])
  = rows ++ [{| in_date := d; in_metrics := m |}].
Proof.
  induction rows as [|x rows IH]; cbn.
  - intros _. now rewrite Z.eqb_refl.
  - destruct (in_date x =? d); [discriminate|].
    intros H. destruct (IH H) as [-> ->]. now split.
Qed.

Lemma filter_dates_length d (rows rows' : list insight) :
  map in_date rows' = map in_date rows ->
  List.length (filter (fun r => in_date r =? d) rows')
  = List.length (filter (fun r => in_date r =? d) rows).
Proof.
  revert rows'. induction rows as [|r rows IH]; intros [|r' rows'] H;
    try discriminate; [reflexivity|].
  cbn in H. inversion H as [[Hd Ht]]. cbn. rewrite Hd.
  destruct (in_date r =? d); cbn; now rewrite (IH _ Ht).
Qed.

(** C6: when the snapshot routine has run for a date, running it again
    for that date with nothing written in between succeeds and leaves the
    database exactly as the first run left it, snapshot row included: the
    row of the date carries the computed metrics, the second run rewrites
    it and inserts nothing.  The first run adds a row only when the date
    had none, so a table with at most one row per date stays so. *)
Theorem C6_snapshot_rerun_identical p_date s s1 :
  calculate_daily_user_insights p_date s = Done true s1 ->
  calculate_daily_user_insights p_date s1 = Done true s1 /\
  (exists m,
     compute_metrics p_date (src s) tt = Done m tt /\
     find (fun r => in_date r =? p_date) (all_user_insights s1)
     = Some {| in_date := p_date; in_metrics := m |}) /\
  (forall d,
     List.length (rows_for d s1)
     = if (d =? p_date) && (List.length (rows_for p_date s) =? 0)%nat
       then 1%nat else List.length (rows_for d s)) /\
  ((forall d, (List.length (rows_for d s) <= 1)%nat) ->
   forall d, (List.length (rows_for d s1) <= 1)%nat).
Proof.
  unfold calculate_daily_user_insights. intros H.
  destruct (compute_metrics p_date (src s) tt) as [m []|e] eqn:Hm;
    [|discriminate].
  destruct (find (fun r => in_date r =? p_date) (all_user_insights s))
    as [r|] eqn:Hfind; inversion H; subst s1; clear H; cbn [src all_user_insights].
  - assert (Hr : in_date r = p_date).
    { apply find_some in Hfind as [_ Hd]. now apply Z.eqb_eq. }
    assert (Hcount : forall d,
      List.length (rows_for d
        {| src := src s;
           all_user_insights := update_existing p_date m (all_user_insights s) |})
      = List.length (rows_for d s)).
    { intros d. unfold rows_for. cbn [all_user_insights].
      apply filter_dates_length, update_existing_dates. }
    assert (Hsome : (List.length (rows_for p_date s) =? 0)%nat = false).
    { unfold rows_for. apply Nat.eqb_neq.
      destruct (all_user_insights s) as [|x l]; [discriminate|].
      clear Hcount. revert Hfind. generalize (x :: l). intros rows.
      induction rows as [|y rows IH]; cbn; [discriminate|].
      destruct (in_date y =? p_date); cbn; [discriminate|exact IH]. }
    rewrite Hm, (find_update_existing _ m _ _ Hfind), update_existing_idem.
    split; [reflexivity|]. split.
    { exists m. split; [reflexivity|]. now rewrite Hr. }
    split.
    + intros d. rewrite Hcount, Hsome, andb_false_r. reflexivity.
    + intros Hone d. rewrite Hcount. apply Hone.
  - destruct (find_appended p_date m _ Hfind) as [Hf Hu].
    assert (Hnone : rows_for p_date s = []).
    { unfold rows_for. clear Hf Hu. revert Hfind.
      induction (all_user_insights s) as [|y rows IH]; cbn; [reflexivity|].
      destruct (in_date y =? p_date); [discriminate|exact IH]. }
    assert (Hcount : forall d,
      List.length (rows_for d
        {| src := src s;
           all_user_insights :=
             all_user_insights s ++ [{| in_date := p_date; in_metrics := m |}] |})
      = if (d =? p_date) && (List.length (rows_for p_date s) =? 0)%nat
        then 1%nat else List.length (rows_for d s)).
    { intros d. unfold rows_for at 1. cbn [all_user_insights].
      rewrite filter_app, length_app. cbn [filter in_date].
      rewrite Hnone. cbn [List.length Nat.eqb]. rewrite andb_true_r.
      rewrite (Z.eqb_sym p_date d).
      destruct (Z.eqb_spec d p_date) as [->|]; cbn [List.length].
      - fold (rows_for p_date s). rewrite Hnone. reflexivity.
      - fold (rows_for d s). lia. }
    rewrite Hm, Hf, Hu.
    split; [reflexivity|]. split.
    { exists m. now split. }
    split; [exact Hcount|].
    intros Hone d. rewrite Hcount.
    destruct ((d =? p_date) && _); [lia|apply Hone].
Qed.

Lemma C6_witness :
  calculate_daily_user_insights 5 sample_db_day5 = Done true sample_db_day5 /\
  List.length (rows_for 5 sample_db_day5) = 1%nat.
Proof.
  destruct (C6_snapshot_rerun_identical 5 sample_db sample_db_day5)
    as (Hrun & _ & Hcount & _).
  - vm_compute. reflexivity.
  - split; [exact Hrun|]. rewrite (Hcount 5). reflexivity.
Defined.

End InsightsFacts.
(** * Further properties of the streak routines *)

Section StreakMore.
Import Streak.

(** The loop of [calculate_burn_streak] counts backwards from the day it
    starts at, as long as the days have a boost and the limit allows. *)
Lemma streak_loop_count_back boosts uid st :
  0 <= v_days_checked st < v_max_days_to_check ->
  v_streak (streak_loop boosts uid st) =
    v_streak st +
    count_back (has_boost boosts uid) (v_check_date st)
      (Z.to_nat (v_max_days_to_check - v_days_checked st)).
Proof.
  funelim (streak_loop boosts uid st); intros Hdc;
    unfold v_max_days_to_check in *.
  - replace (Z.to_nat (100 - v_days_checked st))
      with (S (Z.to_nat (100 - v_days_checked st - 1))) by lia.
    cbn [count_back]. rewrite Heq. unfold streak_break; cbn [v_streak]. lia.
  - replace (Z.to_nat (100 - v_days_checked st)) with 1%nat by lia.
    cbn [count_back]. rewrite Heq0. unfold streak_advance; cbn [v_streak]. lia.
  - replace (Z.to_nat (100 - v_days_checked st))
      with (S (Z.to_nat (100 - v_days_checked st - 1))) by lia.
    cbn [count_back]. rewrite Heq0.
    match goal with
    | IH : _ -> _ |- _ => rewrite IH
    end; unfold streak_advance; cbn [v_streak v_days_checked v_check_date];
      [|lia].
    replace (100 - (v_days_checked st + 1)) with (100 - v_days_checked st - 1)
      by lia.
    lia.
Qed.

Lemma calculate_burn_streak_count_back boosts today uid :
  calculate_burn_streak boosts today uid =
    count_back (has_boost boosts uid) today 100.
Proof.
  unfold calculate_burn_streak. rewrite streak_loop_count_back.
  - reflexivity.
  - unfold v_max_days_to_check; simpl; lia.
Qed.

Lemma count_back_ext has has' d n :
  (forall x, d - Z.of_nat n < x <= d -> has x = has' x) ->
  count_back has d n = count_back has' d n.
Proof.
  revert d; induction n as [|n IH]; intros d Hext; [reflexivity|].
  cbn [count_back]. rewrite <- (Hext d) by lia.
  destruct (has d); [|reflexivity].
  rewrite IH; [reflexivity|]. intros x Hx. apply Hext. lia.
Qed.

Lemma count_back_range has d n : 0 <= count_back has d n <= Z.of_nat n.
Proof.
  revert d; induction n as [|n IH]; intros d; cbn [count_back]; [lia|].
  destruct (has d); [|lia]. specialize (IH (d - 1)). lia.
Qed.

Lemma count_back_S has d n :
  count_back has d (S n) = if has d then 1 + count_back has (d - 1) n else 0.
Proof. reflexivity. Qed.

(** One day less of limit cuts the count at that limit. *)
Lemma count_back_less has d n :
  count_back has d n = Z.min (count_back has d (S n)) (Z.of_nat n).
Proof.
  revert d; induction n as [|n IH]; intros d.
  - cbn [count_back]. destruct (has d); lia.
  - change (count_back has d (S (S n)))
      with (if has d then 1 + count_back has (d - 1) (S n) else 0).
    cbn [count_back]. destruct (has d); [|lia].
    rewrite (IH (d - 1)). cbn [count_back].
    destruct (has (d - 1)); lia.
Qed.

Lemma users_unknown_id uid f (us : list user) :
  find (fun u => (u_id u =? uid)%N) us = None ->
  update_users_where_id uid f us = us.
Proof.
  unfold update_users_where_id. induction us as [|u us IH]; [reflexivity|].
  cbn. destruct (u_id u =? uid)%N; [discriminate|].
  intros H. now rewrite IH.
Qed.

(** X1: for a user id that has no row in [users], [recalculate_burn_streak]
    still reports success when no statement fails: the previous streak and
    the previous longest streak are NULL, the new streak is the one
    [calculate_burn_streak] computes and the new longest streak is
    [GREATEST(0, new streak)]; no user row changes, and one row is added to
    [manual_burn_streak_fixes]. *)
Theorem recalculate_burn_streak_unknown_user faults today uid s :
  select_user uid s = None -> recalc_fails faults = false ->
  let c := calculate_burn_streak (completed_boosts s) today uid in
  recalculate_burn_streak faults today uid s =
    Done (recalc_success uid None c None (GREATEST 0 c))
      (set_fixes (fun l => l ++
         [{| sf_user_id := uid; previous_streak := None;
             new_streak := Some c; previous_longest := None;
             new_longest := Some (GREATEST 0 c);
             reason :=
               "Automatic recalculation via recalculate_burn_streak function"
          |}]) s).
Proof.
  intros Hnone Hf. cbn zeta.
  unfold recalc_fails in Hf. apply orb_false_iff in Hf as [Hf1 Hf2].
  unfold recalculate_burn_streak, block, bind, gets, write_stmt, modify, ret,
    user_column.
  rewrite Hnone, Hf1, Hf2. cbn [COALESCE].
  unfold set_users at 1. cbn [users completed_boosts].
  unfold select_user in Hnone. rewrite (users_unknown_id _ _ _ Hnone).
  destruct s; reflexivity.
Qed.

Lemma recalculate_burn_streak_unknown_user_witness :
  recalculate_burn_streak no_faults (make_date 2025 6 3) 8%N june_db =
    Done (recalc_success 8%N None 0 None 0)
      (set_fixes (fun l => l ++
         [{| sf_user_id := 8%N; previous_streak := None;
             new_streak := Some 0; previous_longest := None;
             new_longest := Some 0;
             reason :=
               "Automatic recalculation via recalculate_burn_streak function"
          |}]) june_db).
Proof.
  apply (recalculate_burn_streak_unknown_user no_faults (make_date 2025 6 3)
           8%N june_db); reflexivity.
Defined.


Lemma recalc_row_idem c u : recalc_row c (recalc_row c u) = recalc_row c u.
Proof.
  unfold recalc_row, with_streaks, GREATEST;
    cbn [u_id u_email longest_burn_streak COALESCE].
  f_equal. f_equal. lia.
Qed.

Lemma update_users_twice uid f (us : list user) :
  (forall u, u_id (f u) = u_id u) -> (forall u, f (f u) = f u) ->
  update_users_where_id uid f (update_users_where_id uid f us)
  = update_users_where_id uid f us.
Proof.
  intros Hid Hidem. unfold update_users_where_id. rewrite map_map.
  apply map_ext. intros u. destruct (u_id u =? uid)%N eqn:E.
  - now rewrite Hid, E, Hidem.
  - now rewrite E.
Qed.

Lemma find_updated_user uid f (us : list user) u :
  (forall u, u_id (f u) = u_id u) ->
  find (fun u => (u_id u =? uid)%N) us = Some u ->
  find (fun u => (u_id u =? uid)%N) (update_users_where_id uid f us)
  = Some (f u).
Proof.
  intros Hid. unfold update_users_where_id.
  induction us as [|x us IH]; [discriminate|]. cbn.
  destruct (u_id x =? uid)%N eqn:E.
  - intros H; inversion H; subst. now rewrite Hid, E.
  - rewrite E. exact IH.
Qed.

(** X2: when a recalculation of a user has gone through, a second one on
    the same day goes through too and leaves the [users] table as the first
    left it; for a user with a row it reports one streak as the previous and
    the new one, one longest streak as the previous and the new one, and the
    streak is at most the longest. *)
Theorem recalculate_burn_streak_twice f1 f2 today uid s r1 s1 :
  recalc_fails f1 = false -> recalc_fails f2 = false ->
  recalculate_burn_streak f1 today uid s = Done r1 s1 ->
  exists r2 s2,
    recalculate_burn_streak f2 today uid s1 = Done r2 s2 /\
    users s2 = users s1 /\
    (select_user uid s <> None ->
     exists c l, r2 = recalc_success uid (Some c) c (Some l) l /\ c <= l).
Proof.
  intros Hf1 Hf2 Hrun.
  destruct (recalculate_burn_streak_succeeds f1 today uid s Hf1)
    as (s1' & H1 & Hu1 & Hb1 & _).
  rewrite H1 in Hrun. inversion Hrun; subst s1' r1; clear Hrun.
  destruct (recalculate_burn_streak_succeeds f2 today uid s1 Hf2)
    as (s2 & H2 & Hu2 & _).
  cbn zeta in *. rewrite Hb1 in *.
  eexists _, s2. split; [exact H2|]. split.
  - rewrite Hu2, Hu1. apply update_users_twice; [reflexivity|].
    apply recalc_row_idem.
  - intros Hsome. unfold select_user in Hsome.
    destruct (find (fun u => (u_id u =? uid)%N) (users s)) as [u|] eqn:Hfind;
      [|contradiction].
    unfold user_column, select_user. rewrite Hu1.
    erewrite find_updated_user; [|reflexivity|exact Hfind].
    unfold recalc_row, with_streaks, GREATEST;
      cbn [burn_streak longest_burn_streak COALESCE].
    set (c := calculate_burn_streak (completed_boosts s) today uid).
    exists c, (Z.max (COALESCE (longest_burn_streak u) 0) c). split.
    + f_equal. lia.
    + lia.
Qed.

Lemma recalculate_burn_streak_twice_witness :
  exists r2 s2,
    recalculate_burn_streak no_faults (make_date 2025 6 3) 7%N
      (state_after (recalculate_burn_streak no_faults (make_date 2025 6 3) 7%N)
         june_db) = Done r2 s2 /\
    users s2 =
      users (state_after
               (recalculate_burn_streak no_faults (make_date 2025 6 3) 7%N)
               june_db) /\
    (select_user 7%N june_db <> None ->
     exists c l, r2 = recalc_success 7%N (Some c) c (Some l) l /\ c <= l).
Proof.
  eapply (recalculate_burn_streak_twice no_faults no_faults
            (make_date 2025 6 3) 7%N june_db);
    [reflexivity | reflexivity | vm_compute; reflexivity].
Defined.

(** *** The longest streak is never lowered *)

Lemma longest_kept_refl us : longest_kept us us.
Proof.
  unfold longest_kept. induction us; constructor; auto.
  repeat split. lia.
Qed.

Lemma longest_kept_trans us1 us2 us3 :
  longest_kept us1 us2 -> longest_kept us2 us3 -> longest_kept us1 us3.
Proof.
  unfold longest_kept. intros H12. revert us3.
  induction H12 as [|u1 u2 l1 l2 (Hi & He & Hl) _ IH]; intros us3 H23;
    inversion H23 as [|? u3 ? l3 (Hi' & He' & Hl') Hrest]; subst;
    constructor; auto.
  repeat split; try congruence. lia.
Qed.

Lemma longest_kept_map f us :
  (forall u, u_id (f u) = u_id u /\ u_email (f u) = u_email u /\
             COALESCE (longest_burn_streak u) 0
             <= COALESCE (longest_burn_streak (f u)) 0) ->
  longest_kept us (map f us).
Proof.
  intros Hf. unfold longest_kept. induction us; constructor; auto.
Qed.

Lemma longest_kept_update uid f us :
  (forall u, u_id (f u) = u_id u /\ u_email (f u) = u_email u /\
             COALESCE (longest_burn_streak u) 0
             <= COALESCE (longest_burn_streak (f u)) 0) ->
  longest_kept us (update_users_where_id uid f us).
Proof.
  intros Hf. unfold update_users_where_id. apply longest_kept_map.
  intros u. destruct (u_id u =? uid)%N; [apply Hf|]. repeat split. lia.
Qed.

Lemma longest_kept_recalc_row c u :
  u_id (recalc_row c u) = u_id u /\ u_email (recalc_row c u) = u_email u /\
  COALESCE (longest_burn_streak u) 0
  <= COALESCE (longest_burn_streak (recalc_row c u)) 0.
Proof.
  unfold recalc_row, with_streaks, GREATEST;
    cbn [u_id u_email longest_burn_streak COALESCE]. repeat split. lia.
Qed.

Lemma longest_kept_reset u :
  u_id (with_burn_streak (Some 0) u) = u_id u /\
  u_email (with_burn_streak (Some 0) u) = u_email u /\
  COALESCE (longest_burn_streak u) 0
  <= COALESCE (longest_burn_streak (with_burn_streak (Some 0) u)) 0.
Proof. unfold with_burn_streak; cbn. repeat split. lia. Qed.

Lemma longest_kept_recalculate faults today uid s r s' :
  recalculate_burn_streak faults today uid s = Done r s' ->
  longest_kept (users s) (users s').
Proof.
  intros Hrun. destruct (recalc_fails faults) eqn:E.
  - destruct (recalculate_burn_streak_fails faults today uid s E) as (e & He).
    rewrite He in Hrun. inversion Hrun; subst. apply longest_kept_refl.
  - destruct (recalculate_burn_streak_succeeds faults today uid s E)
      as (s1 & H1 & Hu & _).
    rewrite H1 in Hrun. inversion Hrun; subst s1. rewrite Hu.
    apply longest_kept_update. intros u. apply longest_kept_recalc_row.
Qed.

Lemma longest_kept_reset_loop targets : forall acc s acc' s',
  for_loop reset_body targets acc s = Done acc' s' ->
  longest_kept (users s) (users s').
Proof.
  induction targets as [|v targets IH]; intros acc s acc' s' H.
  - cbn in H. step_done. apply longest_kept_refl.
  - cbn [for_loop] in H. step_done. unfold reset_body in Hc.
    repeat step_done. apply IH in Hk.
    eapply longest_kept_trans; [|exact Hk].
    cbn [users set_fixes set_users].
    apply longest_kept_update. intros u. apply longest_kept_reset.
Qed.

Lemma longest_kept_run_op today op s s' :
  run_op today op s = Done tt s' -> longest_kept (users s) (users s').
Proof.
  destruct op as [faults uid|faults|faults NEW| |uid]; cbn [run_op];
    intros Hrun.
  - repeat step_done. eapply longest_kept_recalculate; eauto.
  - destruct (recalculate_all_users faults today s) as (r & s1 & H1 & Hu).
    unfold bind in Hrun. rewrite H1 in Hrun. step_done. rewrite Hu.
    apply longest_kept_map. intros u. unfold recalc_all_row.
    destruct (recalc_fails _); [repeat split; lia|].
    apply longest_kept_recalc_row.
  - unfold insert_completed_boost in Hrun. repeat step_done.
    apply longest_kept_recalculate in Hc0. exact Hc0.
  - unfold reset_missed_burn_streaks in Hrun. repeat step_done.
    eapply longest_kept_reset_loop; eauto.
  - unfold fix_user_burn_streak_20250624 in Hrun. repeat step_done.
    cbn [users set_users]. apply longest_kept_update. intros u.
    apply longest_kept_recalc_row.
Qed.

(** X3: whatever sequence of [recalculate_burn_streak],
    [recalculate_all_burn_streaks], the completed-boost trigger,
    [reset_missed_burn_streaks] and [fix_user_burn_streak_20250624] runs, on
    any days and under any fault plans, the [users] table keeps its rows in
    order with their ids and emails, and no user's longest streak (NULL read
    as 0) gets smaller. *)
Theorem longest_streak_never_lowered s0 s :
  reachable s0 s -> longest_kept (users s0) (users s).
Proof.
  induction 1 as [|s op today s' _ IH Hrun]; [apply longest_kept_refl|].
  eapply longest_kept_trans; [exact IH|].
  eapply longest_kept_run_op; eauto.
Qed.

Lemma longest_streak_never_lowered_witness :
  longest_kept (users three_day_db)
    (users (state_after (reset_missed_burn_streaks (make_date 2025 6 6))
              (state_after
                 (insert_completed_boost no_faults (make_date 2025 6 4)
                    fourth_day_boost) three_day_db))).
Proof.
  apply (longest_streak_never_lowered three_day_db).
  eapply (reach_step _ _ op_reset_missed (make_date 2025 6 6)).
  - eapply (reach_step _ _ (op_boost_completed no_faults fourth_day_boost)
              (make_date 2025 6 4)).
    + apply reach_start.
    + vm_compute. reflexivity.
  - vm_compute. reflexivity.
Defined.


(** *** A boost completed today *)

Lemma has_boost_app boosts NEW uid d :
  has_boost (boosts ++ [NEW]) uid d =
  has_boost boosts uid d ||
  ((cb_user_id NEW =? uid)%N && (completed_date NEW =? d)).
Proof.
  unfold has_boost. rewrite existsb_app. cbn [existsb]. now rewrite orb_false_r.
Qed.

(** X4: storing a completed boost dated today, with the trigger
    [update_burn_streak_on_boost_completion] and no statement failing, sets
    the user's streak to one more than the streak computed for yesterday,
    capped at 100, hence to at least 1; it raises the longest streak to it
    when that was smaller, and leaves the other users' rows alone. *)
Theorem boost_today_extends_streak faults today NEW s :
  completed_date NEW = today -> recalc_fails faults = false ->
  let uid := cb_user_id NEW in
  let c := Z.min (1 + calculate_burn_streak (completed_boosts s) (today - 1) uid)
                 100 in
  exists s',
    insert_completed_boost faults today NEW s = Done tt s' /\
    1 <= c /\
    users s' = update_users_where_id uid (recalc_row c) (users s) /\
    completed_boosts s' = completed_boosts s ++ [NEW].
Proof.
  intros Hdate Hf. cbn zeta.
  unfold insert_completed_boost, bind at 1, modify.
  destruct (recalculate_burn_streak_succeeds faults today (cb_user_id NEW)
              (set_completed_boosts (fun l => l ++ [NEW]) s) Hf)
    as (s' & Hrun & Hu & Hb & _).
  unfold bind. rewrite Hrun. cbn [ret].
  exists s'. split; [reflexivity|].
  cbn [completed_boosts users set_completed_boosts] in Hu, Hb.
  assert (Hc : calculate_burn_streak (completed_boosts s ++ [NEW]) today
                 (cb_user_id NEW)
               = Z.min (1 + calculate_burn_streak (completed_boosts s)
                              (today - 1) (cb_user_id NEW)) 100).
  { rewrite !calculate_burn_streak_count_back.
    rewrite (count_back_S _ today 99).
    rewrite has_boost_app, N.eqb_refl, Hdate, Z.eqb_refl, orb_true_r.
    rewrite (count_back_ext _ (has_boost (completed_boosts s) (cb_user_id NEW))).
    - rewrite (count_back_less _ (today - 1) 99). lia.
    - intros x Hx. rewrite has_boost_app, Hdate.
      destruct (Z.eqb_spec today x) as [->|]; [lia|].
      now rewrite andb_false_r, orb_false_r. }
  rewrite Hc in Hu. split; [|split; assumption].
  pose proof (calculate_burn_streak_range (completed_boosts s) (today - 1)
                (cb_user_id NEW)).
  lia.
Qed.

Lemma boost_today_extends_streak_witness :
  exists s',
    insert_completed_boost no_faults (make_date 2025 6 4) fourth_day_boost
      three_day_db = Done tt s' /\
    1 <= Z.min (1 + calculate_burn_streak (completed_boosts three_day_db)
                      (make_date 2025 6 4 - 1) 7%N) 100 /\
    users s' =
      update_users_where_id 7%N
        (recalc_row
           (Z.min (1 + calculate_burn_streak (completed_boosts three_day_db)
                         (make_date 2025 6 4 - 1) 7%N) 100))
        (users three_day_db) /\
    completed_boosts s' = completed_boosts three_day_db ++ [fourth_day_boost].
Proof.
  apply (boost_today_extends_streak no_faults (make_date 2025 6 4)
           fourth_day_boost three_day_db); reflexivity.
Defined.

(** *** [reset_missed_burn_streaks] *)

Lemma filter_none {A} (p : A -> bool) l :
  (forall x, In x l -> p x = false) -> filter p l = [].
Proof.
  induction l as [|x l IH]; intros H; [reflexivity|].
  cbn [filter]. rewrite (H x (or_introl eq_refl)).
  apply IH. intros y Hy. apply H. now right.
Qed.



(** *** [fix_specific_user_burn_streak] *)

(** X6: [fix_specific_user_burn_streak] answers "not found" and changes
    nothing when no user has the email.  Otherwise it recalculates the first
    user with that email and wraps the result of [recalculate_burn_streak]:
    when a statement of the recalculation fails, the wrapped result is a
    failure and the database is unchanged; when none fails, the user's row
    holds the recalculated streaks. *)
Theorem fix_specific_user_burn_streak_outcomes faults today p_email s :
  match find (has_email p_email) (users s) with
  | None =>
      fix_specific_user_burn_streak faults today p_email s
      = Done (fix_specific_not_found p_email) s
  | Some u =>
      exists r s',
        recalculate_burn_streak faults today (u_id u) s = Done r s' /\
        fix_specific_user_burn_streak faults today p_email s
        = Done (fix_specific_success p_email (u_id u) r) s' /\
        (recalc_fails faults = true -> recalc_ok r = false /\ s' = s) /\
        (recalc_fails faults = false ->
         recalc_ok r = true /\
         users s' =
           update_users_where_id (u_id u)
             (recalc_row
                (calculate_burn_streak (completed_boosts s) today (u_id u)))
             (users s))
  end.
Proof.
  destruct (find (has_email p_email) (users s)) as [u|] eqn:Hfind.
  2:{ unfold fix_specific_user_burn_streak, block, bind, gets.
      now rewrite Hfind. }
  destruct (recalc_fails faults) eqn:E.
  - destruct (recalculate_burn_streak_fails faults today (u_id u) s E)
      as (e & He).
    eexists _, s. split; [exact He|].
    unfold fix_specific_user_burn_streak, block, bind, gets.
    rewrite Hfind, He. cbn [ret].
    split; [reflexivity|]. split; [now intros _|discriminate].
  - destruct (recalculate_burn_streak_succeeds faults today (u_id u) s E)
      as (s' & Hr & Hu & _).
    eexists _, s'. split; [exact Hr|].
    unfold fix_specific_user_burn_streak, block, bind, gets.
    rewrite Hfind, Hr. cbn [ret].
    split; [reflexivity|]. split; [discriminate|]. intros _. now split.
Qed.

End StreakMore.

(** * The streak routines of the discarded migrations *)

Section StreakSiblings.
Import Streak.

Lemma sorted_snoc {A} (R : A -> A -> Prop) l x :
  StronglySorted R l -> (forall y, In y l -> R y x) ->
  StronglySorted R (l ++ [x]).
Proof.
  induction 1 as [|a l Hs IH Ha]; intros Hx; cbn.
  - constructor; constructor.
  - constructor.
    + apply IH. intros y Hy. apply Hx. now right.
    + apply Forall_app. split; [assumption|].
      constructor; [|constructor]. apply Hx. now left.
Qed.

Lemma sorted_impl {A} (R R' : A -> A -> Prop) l :
  (forall a b, R a b -> R' a b) -> StronglySorted R l -> StronglySorted R' l.
Proof.
  intros HR. induction 1 as [|a l Hs IH Ha]; constructor; [assumption|].
  eapply Forall_impl; [|exact Ha]. intros b. apply HR.
Qed.

Lemma sorted_rev {A} (R : A -> A -> Prop) l :
  StronglySorted R l -> StronglySorted (fun a b => R b a) (rev l).
Proof.
  induction 1 as [|a l Hs IH Ha]; cbn; [constructor|].
  apply sorted_snoc; [assumption|].
  intros y Hy. apply in_rev in Hy.
  rewrite Forall_forall in Ha. now apply Ha.
Qed.

Lemma in_fp_dates s uid x :
  In x (fp_dates s uid) <-> has_points s uid x = true.
Proof.
  unfold fp_dates, has_points.
  match goal with
  | |- In x (order_by Z.leb ?l) <-> _ =>
      assert (Hperm : In x (order_by Z.leb l) <-> In x l)
        by (split; apply Permutation_in;
            [|apply Permutation_sym]; apply order_by_perm)
  end.
  rewrite Hperm, in_map_iff, existsb_exists. split.
  - intros (r & <- & Hin). apply filter_In in Hin as [Hin Hp].
    exists r. split; [assumption|]. now rewrite Hp, Z.eqb_refl.
  - intros (r & Hin & Hp). apply andb_true_iff in Hp as [Hp Hd].
    exists r. split; [now apply Z.eqb_eq|]. apply filter_In. now split.
Qed.

Lemma fp_dates_desc s uid :
  StronglySorted (fun a b => b <= a) (rev (fp_dates s uid)).
Proof.
  apply (sorted_rev (fun a b => a <= b)). unfold fp_dates.
  apply (sorted_impl (ordered Z.leb)).
  - intros a b. unfold ordered. now rewrite Z.leb_le.
  - apply (order_by_sorted Z.leb).
    + intros a b. rewrite !Z.leb_le. lia.
    + intros a b c. rewrite !Z.leb_le. lia.
Qed.

(** After the first date the two loops are the same. *)
Lemma fix_streak_loop_recalc t y l : forall last c,
  fix_streak_loop t y l (Some last) c = recalc_streak_loop l (Some last) c.
Proof.
  induction l as [|x l IH]; intros last c; [reflexivity|].
  cbn. destruct (x + 1 <? last); [reflexivity|]. apply IH.
Qed.

(** Over dates in descending order, the loop adds the number of days right
    below the last date that are all in the list. *)
Lemma recalc_streak_loop_run (l : list date) : forall (last : date) c k,
  StronglySorted (fun a b => b <= a) (last :: l) ->
  0 <= k -> (forall i, 1 <= i <= k -> In (last - i) l) ->
  ~ In (last - k - 1) l ->
  recalc_streak_loop l (Some last) c = c + k.
Proof.
  induction l as [|x l IH]; intros last c k Hsorted Hk Hrun Hend.
  - cbn. destruct (Z.eq_dec k 0) as [->|]; [lia|].
    destruct (Hrun 1 ltac:(lia)).
  - apply StronglySorted_inv in Hsorted as [Hsl Hall].
    pose proof Hsl as Hsl'.
    apply StronglySorted_inv in Hsl' as [_ Hbelow].
    rewrite Forall_forall in Hall, Hbelow.
    pose proof (Hall x (or_introl eq_refl)) as Hx.
    cbn [recalc_streak_loop].
    destruct (Z.ltb_spec (x + 1) last) as [Hgap|Hnear].
    + destruct (Z.eq_dec k 0) as [->|]; [lia|].
      specialize (Hrun 1 ltac:(lia)). destruct Hrun as [Hh|Ht]; [lia|].
      specialize (Hbelow _ Ht). lia.
    + destruct (Z.eqb_spec x last) as [->|Hne]; cbn [negb].
      * apply IH; try assumption.
        -- intros i Hi. destruct (Hrun i Hi) as [Hh|Ht]; [lia|assumption].
        -- intros Hin. apply Hend. now right.
      * assert (x = last - 1) by lia. subst x.
        assert (1 <= k).
        { destruct (Z.eq_dec k 0) as [->|]; [|lia].
          exfalso. apply Hend. left. lia. }
        replace (c + k) with (c + 1 + (k - 1)) by lia.
        apply IH; try assumption; try lia.
        -- intros i Hi. destruct (Hrun (i + 1) ltac:(lia)) as [Hh|Ht]; [lia|].
           now replace (last - 1 - i) with (last - (i + 1)) by lia.
        -- intros Hin. apply Hend. right.
           now replace (last - k - 1) with (last - 1 - (k - 1) - 1) by lia.
Qed.

(** The dates in descending order start with the most recent one. *)
Lemma fp_dates_head s uid (d : date) :
  has_points s uid d = true ->
  (forall x, has_points s uid x = true -> x <= d) ->
  exists l : list date, rev (fp_dates s uid) = d :: l.
Proof.
  intros Hd Hmax. pose proof (fp_dates_desc s uid) as Hsorted.
  assert (Hin : In d (rev (fp_dates s uid)))
    by now apply in_rev; rewrite rev_involutive; apply in_fp_dates.
  destruct (rev (fp_dates s uid)) as [|x l] eqn:E; [destruct Hin|].
  exists l. f_equal.
  assert (Hx : x <= d).
  { apply Hmax, in_fp_dates. apply in_rev. rewrite E. now left. }
  apply StronglySorted_inv in Hsorted as [_ Hall].
  rewrite Forall_forall in Hall.
  destruct Hin as [|Hin]; [assumption|]. specialize (Hall _ Hin). lia.
Qed.

Lemma latest_streak_run s uid (d : date) k :
  (forall x, has_points s uid x = true -> x <= d) ->
  run (has_points s uid) d k -> 1 <= k ->
  exists l : list date, rev (fp_dates s uid) = d :: l /\
            recalc_streak_loop l (Some d) 1 = k.
Proof.
  intros Hmax (Hk & Hrun & Hend) Hpos.
  assert (Hd : has_points s uid d = true).
  { specialize (Hrun 0 ltac:(lia)). now rewrite Z.sub_0_r in Hrun. }
  destruct (fp_dates_head s uid d Hd Hmax) as (l & Hl).
  exists l. split; [assumption|].
  assert (Hin : forall x, x <> d -> In x l <-> has_points s uid x = true).
  { intros x Hx. rewrite <- in_fp_dates, (in_rev (fp_dates s uid)), Hl.
    cbn. intuition congruence. }
  transitivity (1 + (k - 1)); [|lia].
  apply recalc_streak_loop_run; try lia.
  - rewrite <- Hl. apply fp_dates_desc.
  - intros i Hi. apply Hin; [lia|]. apply Hrun. lia.
  - rewrite Hin by lia. replace (d - (k - 1) - 1) with (d - k) by lia.
    now rewrite Hend.
Qed.

(** X7: [fix_user_burn_streak] of migration 20250614234610: when the user's
    latest day with Fuel Points is today or yesterday and [k >= 1]
    consecutive days ending on it have points, the routine stores [k] as the
    streak, with no cap, and reports the old streak and [k]; when every day
    with points of the user is earlier than yesterday, it stores 0. *)
Theorem fix_user_burn_streak_counts_run today uid s :
  (forall (d : date) k,
     d = today \/ d = today - 1 ->
     (forall x, has_points s uid x = true -> x <= d) ->
     run (has_points s uid) d k -> 1 <= k ->
     fix_user_burn_streak today uid s =
       Done (user_column burn_streak uid s, k)
         (set_users (update_users_where_id uid (with_burn_streak (Some k))) s)) /\
  ((forall x, has_points s uid x = true -> x < today - 1) ->
   fix_user_burn_streak today uid s =
     Done (user_column burn_streak uid s, 0)
       (set_users (update_users_where_id uid (with_burn_streak (Some 0))) s)).
Proof.
  split.
  - intros d k Hd Hmax Hrun Hpos.
    destruct (latest_streak_run s uid d k Hmax Hrun Hpos) as (l & Hl & Hloop).
    unfold fix_user_burn_streak, bind, gets, modify, ret.
    destruct (fp_dates s uid) as [|x v] eqn:E.
    { destruct l; discriminate. }
    rewrite Hl. cbn [fix_streak_loop].
    replace ((d =? today) || (d =? today - 1)) with true.
    + now rewrite fix_streak_loop_recalc, Hloop.
    + symmetry. apply orb_true_iff. rewrite !Z.eqb_eq. exact Hd.
  - intros Hold.
    unfold fix_user_burn_streak, bind, gets, modify, ret.
    destruct (fp_dates s uid) as [|x v] eqn:E; [reflexivity|].
    destruct (rev (x :: v)) as [|y l] eqn:Er.
    { apply (f_equal (@List.length _)) in Er. rewrite length_rev in Er.
      discriminate. }
    cbn [fix_streak_loop].
    assert (Hy : y < today - 1).
    { apply Hold, in_fp_dates. rewrite E. apply in_rev. rewrite Er. now left. }
    replace ((y =? today) || (y =? today - 1)) with false; [reflexivity|].
    symmetry. apply orb_false_iff. rewrite !Z.eqb_neq. lia.
Qed.


Lemma three_day_points x :
  has_points three_day_db 7%N x = true ->
  make_date 2025 6 1 <= x <= make_date 2025 6 4.
Proof.
  intros Hx. unfold has_points in Hx. apply existsb_exists in Hx.
  destruct Hx as (r & Hin & Hr).
  apply andb_true_iff in Hr as [_ Hr]. apply Z.eqb_eq in Hr. subst x.
  cbn in Hin.
  repeat (destruct Hin as [<-|Hin]; [vm_compute; split; discriminate|]).
  destruct Hin.
Qed.

Lemma three_day_run :
  run (has_points three_day_db 7%N) (make_date 2025 6 4) 4.
Proof.
  split; [lia|]. split; [|reflexivity].
  intros i Hi.
  assert (Hcases : i = 0 \/ i = 1 \/ i = 2 \/ i = 3) by lia.
  destruct Hcases as [->|[->|[->| ->]]]; reflexivity.
Qed.

Lemma fix_user_burn_streak_counts_run_witness :
  fix_user_burn_streak (make_date 2025 6 4) 7%N three_day_db =
    Done (user_column burn_streak 7%N three_day_db, 4)
      (set_users (update_users_where_id 7%N (with_burn_streak (Some 4)))
         three_day_db) /\
  fix_user_burn_streak (make_date 2025 6 9) 7%N three_day_db =
    Done (user_column burn_streak 7%N three_day_db, 0)
      (set_users (update_users_where_id 7%N (with_burn_streak (Some 0)))
         three_day_db).
Proof.
  split.
  - apply (proj1 (fix_user_burn_streak_counts_run (make_date 2025 6 4) 7%N
                    three_day_db) (make_date 2025 6 4) 4).
    + left. reflexivity.
    + intros x Hx. apply three_day_points in Hx. lia.
    + exact three_day_run.
    + lia.
  - apply (proj2 (fix_user_burn_streak_counts_run (make_date 2025 6 9) 7%N
                    three_day_db)).
    intros x Hx. apply three_day_points in Hx.
    change (make_date 2025 6 9) with (make_date 2025 6 4 + 5). lia.
Defined.

(** *** [recalculate_burn_streaks] *)

Lemma with_burn_streak_same v u :
  burn_streak u = Some v -> with_burn_streak (Some v) u = u.
Proof. destruct u; cbn. now intros ->. Qed.

Lemma set_users_same (s : db) us : users s = us -> set_users (fun _ => us) s = s.
Proof. destruct s; cbn. now intros ->. Qed.

Lemma fp_dates_daily_fp s s' uid :
  daily_fp s' = daily_fp s -> fp_dates s' uid = fp_dates s uid.
Proof. unfold fp_dates. now intros ->. Qed.

Section RecalculateStreaks.
Variable s0 : db.

Lemma pass_id id u : u_id (pass s0 id u) = u_id u.
Proof. unfold pass. now destruct (differs _ _ _). Qed.

Lemma passes_pass id ids u :
  passes s0 ids (pass s0 id u) = passes s0 (id :: ids) u.
Proof.
  unfold passes. rewrite pass_id. cbn [existsb].
  unfold pass, differs.
  destruct (N.eqb_spec (u_id u) id) as [Heq|Hne]; cbn [andb orb];
    [|reflexivity].
  subst id. destruct (burn_streak u) as [b|] eqn:Eb.
  - destruct (Z.eqb_spec b (latest_streak s0 (u_id u))) as [Hb|Hb]; cbn [negb].
    + rewrite Eb. subst b. rewrite (with_burn_streak_same _ _ Eb).
      now destruct (existsb _ _).
    + unfold with_burn_streak at 1 2 3. cbn [burn_streak u_id].
      now destruct (existsb _ _).
  - rewrite Eb. now destruct (existsb _ _).
Qed.

Lemma differs_pass id id' v u :
  id' <> id -> differs id' v (pass s0 id u) = differs id' v u.
Proof.
  intros Hne. unfold pass. destruct (differs id _ u) eqn:E; [|reflexivity].
  unfold differs in *. apply andb_true_iff in E as [E _].
  apply N.eqb_eq in E. cbn [with_burn_streak u_id]. rewrite E.
  destruct (N.eqb_spec id id'); [congruence|reflexivity].
Qed.

Lemma changed_pass id us ids :
  ~ In id ids -> changed s0 (map (pass s0 id) us) ids = changed s0 us ids.
Proof.
  intros Hnot. unfold changed. apply filter_ext_in. intros id' Hin.
  assert (id' <> id) by (intros ->; contradiction).
  induction us as [|u us IH]; [reflexivity|]. cbn [map existsb].
  now rewrite differs_pass, IH.
Qed.

Lemma recalc_streaks_loop ids : NoDup ids -> forall n s,
  daily_fp s = daily_fp s0 ->
  for_loop recalc_streaks_body ids n s =
    Done (n + Z.of_nat (List.length (changed s0 (users s) ids)))
      (set_users (fun _ => map (passes s0 ids) (users s)) s).
Proof.
  induction 1 as [|id ids Hnot Hnodup IH]; intros n s Hd.
  - unfold changed. cbn [for_loop filter List.length]. unfold ret.
    rewrite Z.add_0_r, set_users_same; [reflexivity|].
    unfold passes; cbn. now rewrite map_id.
  - cbn [for_loop]. unfold bind at 1. unfold recalc_streaks_body at 1.
    unfold bind, gets, modify, ret.
    rewrite (fp_dates_daily_fp s0 s id Hd).
    fold (latest_streak s0 id). fold (pass s0 id).
    rewrite IH by (now destruct s).
    cbn [users set_users]. rewrite changed_pass by assumption.
    f_equal.
    + unfold changed at 2. cbn [filter].
      destruct (existsb (differs id (latest_streak s0 id)) (users s));
        cbn [List.length]; fold (changed s0 (users s) ids); lia.
    + rewrite map_map.
      rewrite (map_ext _ _ (fun u => passes_pass id ids u)).
      now destruct s.
Qed.

End RecalculateStreaks.

Lemma users_with_points_daily_fp s s' :
  daily_fp s' = daily_fp s -> users_with_points s' = users_with_points s.
Proof. unfold users_with_points. now intros ->. Qed.

Lemma latest_streak_daily_fp s s' uid :
  daily_fp s' = daily_fp s -> latest_streak s' uid = latest_streak s uid.
Proof. unfold latest_streak. intros H. now rewrite (fp_dates_daily_fp s s' uid H). Qed.

(** X8: [recalculate_burn_streaks] always completes.  Every row of a user
    with Fuel Points gets the streak computed for the user, unless the row's
    streak is NULL, which stays; the result is the number of users with
    points that had a row with another streak; a second run returns 0 and
    changes nothing.  The streak computed is the length of the run of
    consecutive days with points that ends on the user's latest day with
    points, however long ago that day is. *)
Theorem recalculate_burn_streaks_result s :
  let s' := set_users (fun _ => map (recalc_streaks_row s) (users s)) s in
  recalculate_burn_streaks s =
    Done (Z.of_nat (List.length
            (filter (fun id => existsb (differs id (latest_streak s id)) (users s))
                    (users_with_points s)))) s' /\
  recalculate_burn_streaks s' = Done 0 s' /\
  (forall uid (d : date) k,
     (forall x, has_points s uid x = true -> x <= d) ->
     run (has_points s uid) d k -> 1 <= k ->
     latest_streak s uid = k).
Proof.
  cbn zeta.
  assert (Hfirst : forall s,
    recalculate_burn_streaks s =
      Done (Z.of_nat (List.length
              (filter (fun id => existsb (differs id (latest_streak s id)) (users s))
                      (users_with_points s))))
        (set_users (fun _ => map (recalc_streaks_row s) (users s)) s)).
  { intros s1. unfold recalculate_burn_streaks, bind, gets.
    rewrite (recalc_streaks_loop s1); [|apply NoDup_nodup|reflexivity].
    reflexivity. }
  split; [apply Hfirst|]. split.
  - rewrite Hfirst. cbn [users set_users].
    set (s' := set_users _ s).
    assert (Hd : daily_fp s' = daily_fp s) by now destruct s.
    rewrite (users_with_points_daily_fp s s' Hd).
    assert (Hsame : forall u, In u (users s) ->
              recalc_streaks_row s' (recalc_streaks_row s u)
              = recalc_streaks_row s u).
    { intros u _. unfold recalc_streaks_row, passes.
      rewrite (users_with_points_daily_fp s s' Hd).
      destruct (existsb (N.eqb (u_id u)) (users_with_points s)) eqn:E.
      - destruct (burn_streak u) as [b|] eqn:Eb.
        + cbn [with_burn_streak u_id burn_streak]. rewrite E.
          now rewrite (latest_streak_daily_fp s s' _ Hd).
        + now rewrite E, Eb.
      - now rewrite E. }
    f_equal.
    + replace (filter _ (users_with_points s)) with (@nil uuid); [reflexivity|].
      symmetry. apply filter_none. intros id Hid.
      apply Bool.not_true_iff_false. intros Hex.
      apply existsb_exists in Hex as (u' & Hin & Hdiff).
      apply in_map_iff in Hin as (u & <- & Hin).
      rewrite (latest_streak_daily_fp s s' _ Hd) in Hdiff.
      unfold differs in Hdiff. apply andb_true_iff in Hdiff as [Hid' Hb].
      apply N.eqb_eq in Hid'. unfold recalc_streaks_row, passes in Hid', Hb.
      assert (Hu : u_id u = id).
      { destruct (existsb _ _); [destruct (burn_streak u)|]; exact Hid'. }
      assert (Hex : existsb (N.eqb (u_id u)) (users_with_points s) = true).
      { apply existsb_exists. exists id. split; [assumption|].
        now apply N.eqb_eq. }
      rewrite Hex in Hb. destruct (burn_streak u) as [b|] eqn:Eb.
      * cbn [with_burn_streak burn_streak] in Hb. rewrite Hu, Z.eqb_refl in Hb.
        discriminate.
      * rewrite Eb in Hb. discriminate.
    + rewrite map_map.
      rewrite (map_ext_in _ _ _ Hsame).
      unfold s'. now destruct s.
  - intros uid d k Hmax Hrun Hpos.
    destruct (latest_streak_run s uid d k Hmax Hrun Hpos) as (l & Hl & Hloop).
    unfold latest_streak. rewrite Hl. exact Hloop.
Qed.


Lemma recalculate_burn_streaks_result_witness :
  latest_streak three_day_db 7%N = 4.
Proof.
  apply (proj2 (proj2 (recalculate_burn_streaks_result three_day_db))
           7%N (make_date 2025 6 4) 4).
  - intros x Hx. apply three_day_points in Hx. lia.
  - exact three_day_run.
  - lia.
Defined.

(** *** The calculator on the ledger *)

Lemma in_distinct_adjacent {A} (eqb : A -> A -> bool) x l :
  In x (distinct_adjacent eqb l) -> In x l.
Proof.
  induction l as [|a l IH]; [tauto|].
  cbn [distinct_adjacent]. destruct l as [|b l]; [tauto|].
  destruct (eqb a b); intros Hin.
  - right. now apply IH.
  - destruct Hin as [<-|Hin]; [now left|]. right. now apply IH.
Qed.

Lemma in_boost_earning_dates s uid x :
  In x (boost_earning_dates s uid) -> has_boost_earning s uid x = true.
Proof.
  unfold boost_earning_dates, has_boost_earning. intros Hin.
  apply in_distinct_adjacent in Hin.
  apply (Permutation_in _ (order_by_perm Z.geb _)) in Hin.
  apply in_map_iff in Hin as (e & <- & Hin).
  apply filter_In in Hin as [Hin He].
  apply existsb_exists. exists e. split; [assumption|].
  now rewrite He, Z.eqb_refl.
Qed.

(** The loop leaves in [v_last_date] the oldest date it counted. *)
Lemma earnings_loop_last l : forall (last : date) c,
  exists c', earnings_loop l (Some last) c = (c', Some (last - (c' - c))) /\
             c <= c'.
Proof.
  induction l as [|d l IH]; intros last c; cbn [earnings_loop].
  - exists c. split; [|lia]. do 2 f_equal. lia.
  - destruct (Z.eqb_spec d (last - 1)) as [->|_].
    + destruct (IH (last - 1) (c + 1)) as (c' & -> & Hc).
      exists c'. split; [|lia]. do 2 f_equal. lia.
    + exists c. split; [|lia]. do 2 f_equal. lia.
Qed.

(** X9: when no boost entry of the user in the ledger is dated after today,
    the streak [calculate_burn_streak_from_fp_earnings] computes is 0, 1 or
    2, however many consecutive days carry boost entries. *)
Theorem streak_from_fp_earnings_at_most_two s today uid :
  (forall d, has_boost_earning s uid d = true -> d <= today) ->
  0 <= streak_from_fp_earnings s today uid <= 2.
Proof.
  intros Hpast. unfold streak_from_fp_earnings.
  destruct (boost_earning_dates s uid) as [|d l] eqn:E; [cbn; lia|].
  assert (Hd : d <= today).
  { apply Hpast, in_boost_earning_dates. rewrite E. now left. }
  cbn [earnings_loop].
  destruct (earnings_loop_last l d 1) as (c' & -> & Hc).
  destruct (Z.ltb_spec (d - (c' - 1)) (today - 1)).
  - destruct (existsb _ _); lia.
  - lia.
Qed.


Lemma june_earnings_dates d :
  has_boost_earning june_earnings_db 7%N d = true -> d <= make_date 2025 6 3.
Proof.
  intros Hd. unfold has_boost_earning in Hd. apply existsb_exists in Hd.
  destruct Hd as (e & Hin & He).
  apply andb_true_iff in He as [_ He]. apply Z.eqb_eq in He. subst d.
  cbn in Hin.
  repeat (destruct Hin as [<-|Hin]; [vm_compute; discriminate|]).
  destruct Hin.
Qed.

Lemma streak_from_fp_earnings_at_most_two_witness :
  0 <= streak_from_fp_earnings june_earnings_db (make_date 2025 6 3) 7%N <= 2.
Proof.
  apply (streak_from_fp_earnings_at_most_two june_earnings_db
           (make_date 2025 6 3) 7%N).
  exact june_earnings_dates.
Defined.

(** *** [fix_user_burn_streak_from_fp_earnings] *)

Lemma streak_from_fp_earnings_ledger s s' today uid :
  fp_earnings s' = fp_earnings s ->
  streak_from_fp_earnings s' today uid = streak_from_fp_earnings s today uid.
Proof.
  unfold streak_from_fp_earnings, boost_earning_dates. now intros ->.
Qed.

Lemma dates_with_boosts_ledger s s' uid :
  fp_earnings s' = fp_earnings s ->
  dates_with_boosts_of s' uid = dates_with_boosts_of s uid.
Proof.
  unfold dates_with_boosts_of, boost_earning_dates. now intros ->.
Qed.

Lemma fix_from_earnings_closed today uid s :
  let c := streak_from_fp_earnings s today uid in
  let old := user_column burn_streak uid s in
  exists s',
    fix_user_burn_streak_from_fp_earnings today uid s =
      Done (if c =? COALESCE old 0
            then streak_not_updated old (dates_with_boosts_of s uid)
            else streak_updated old c (dates_with_boosts_of s uid)) s' /\
    users s' =
      (if c =? COALESCE old 0 then users s
       else update_users_where_id uid (with_burn_streak (Some c)) (users s)) /\
    fp_earnings s' = fp_earnings s.
Proof.
  cbn zeta.
  unfold fix_user_burn_streak_from_fp_earnings,
    calculate_burn_streak_from_fp_earnings, bind, gets, modify, ret.
  destruct (streak_from_fp_earnings s today uid
            =? COALESCE (user_column burn_streak uid s) 0);
    cbn [negb]; eexists; (split; [reflexivity|]); now split.
Qed.

(** X10: [fix_user_burn_streak_from_fp_earnings] always completes.  It
    reports "updated" with the old and the new streak when the computed
    streak differs from the stored one (NULL read as 0) and writes it; it
    reports "not updated" and leaves [users] alone otherwise; it never
    changes the ledger.  For a user with a row the stored streak then equals
    the computed one, and a second call reports "not updated" and leaves
    [users] as it is. *)
Theorem fix_user_burn_streak_from_fp_earnings_result today uid s :
  let c := streak_from_fp_earnings s today uid in
  let old := user_column burn_streak uid s in
  exists s',
    fix_user_burn_streak_from_fp_earnings today uid s =
      Done (if c =? COALESCE old 0
            then streak_not_updated old (dates_with_boosts_of s uid)
            else streak_updated old c (dates_with_boosts_of s uid)) s' /\
    users s' =
      (if c =? COALESCE old 0 then users s
       else update_users_where_id uid (with_burn_streak (Some c)) (users s)) /\
    fp_earnings s' = fp_earnings s /\
    (select_user uid s <> None ->
     COALESCE (user_column burn_streak uid s') 0 = c /\
     exists s'',
       fix_user_burn_streak_from_fp_earnings today uid s' =
         Done (streak_not_updated (user_column burn_streak uid s')
                 (dates_with_boosts_of s uid)) s'' /\
       users s'' = users s').
Proof.
  cbn zeta.
  destruct (fix_from_earnings_closed today uid s) as (s' & Hrun & Hu & Hl).
  cbn zeta in Hrun, Hu.
  exists s'. split; [exact Hrun|]. split; [exact Hu|]. split; [exact Hl|].
  intros Hsome.
  assert (Hstored : COALESCE (user_column burn_streak uid s') 0
                    = streak_from_fp_earnings s today uid).
  { unfold user_column, select_user in *. rewrite Hu.
    destruct (Z.eqb_spec (streak_from_fp_earnings s today uid)
                (COALESCE
                   match find (fun u => (u_id u =? uid)%N) (users s) with
                   | Some u => burn_streak u
                   | None => None
                   end 0)) as [Heq|Hne].
    - now rewrite <- Heq.
    - destruct (find (fun u => (u_id u =? uid)%N) (users s)) as [u|] eqn:Hfind;
        [|contradiction].
      erewrite find_updated_user; [|reflexivity|exact Hfind].
      reflexivity. }
  split; [exact Hstored|].
  destruct (fix_from_earnings_closed today uid s') as (s'' & Hrun2 & Hu2 & _).
  cbn zeta in Hrun2, Hu2.
  rewrite (streak_from_fp_earnings_ledger s s' today uid Hl) in Hrun2, Hu2.
  rewrite (dates_with_boosts_ledger s s' uid Hl) in Hrun2.
  rewrite Hstored, Z.eqb_refl in Hrun2, Hu2.
  exists s''. now split.
Qed.

Lemma fix_user_burn_streak_from_fp_earnings_result_witness :
  exists s',
    fix_user_burn_streak_from_fp_earnings (make_date 2025 6 3) 7%N
      june_earnings_db =
      Done (streak_updated (Some 3) 1
              (Some [make_date 2025 6 3; make_date 2025 6 2;
                     make_date 2025 6 1])) s' /\
    COALESCE (user_column burn_streak 7%N s') 0 = 1 /\
    exists s'',
      fix_user_burn_streak_from_fp_earnings (make_date 2025 6 3) 7%N s' =
        Done (streak_not_updated (user_column burn_streak 7%N s')
                (dates_with_boosts_of june_earnings_db 7%N)) s'' /\
      users s'' = users s'.
Proof.
  destruct (fix_user_burn_streak_from_fp_earnings_result (make_date 2025 6 3)
              7%N june_earnings_db) as (s' & Hrun & _ & _ & Hagain).
  exists s'. split; [exact Hrun|].
  apply Hagain. discriminate.
Defined.

End StreakSiblings.

(** * Properties of the resets and fixes of the ledger-based streak *)

Section LedgerStreakFacts.
Import Streak.

Lemma existsb_same_members {A} (p : A -> bool) l1 l2 :
  (forall x, In x l1 <-> In x l2) -> existsb p l1 = existsb p l2.
Proof.
  intros H. destruct (existsb p l2) eqn:E.
  - apply existsb_exists in E as (x & Hin & Hp).
    apply existsb_exists. exists x. split; [now apply H|exact Hp].
  - destruct (existsb p l1) eqn:E1; [|reflexivity].
    apply existsb_exists in E1 as (x & Hin & Hp).
    assert (existsb p l2 = true)
      by (apply existsb_exists; exists x; split; [now apply H|exact Hp]).
    congruence.
Qed.

(** *** [check_and_reset_burn_streak] *)

Lemma check_and_reset_loop targets : forall s,
  exists s',
    for_loop check_and_reset_body targets tt s = Done tt s' /\
    users s' =
      map (fun u => if existsb (N.eqb (u_id u)) (map fst targets)
                    then with_burn_streak (Some 0) u else u) (users s) /\
    fp_earnings s' = fp_earnings s /\
    daily_fp s' = daily_fp s.
Proof.
  induction targets as [|v targets IH]; intros s.
  - exists s. cbn. now rewrite map_id.
  - cbn [for_loop]. unfold bind at 1. unfold check_and_reset_body at 1.
    unfold bind, modify.
    match goal with
    | |- context [for_loop check_and_reset_body targets tt ?s1] =>
        destruct (IH s1) as (s' & -> & Hu & He & Hd)
    end.
    exists s'. split; [reflexivity|].
    cbn [users fp_earnings daily_fp set_users set_debug_logs] in Hu, He, Hd.
    split; [|split; assumption].
    rewrite Hu. unfold update_users_where_id. rewrite map_map.
    apply map_ext. intros u. cbn [map existsb].
    destruct (N.eqb_spec (u_id u) (fst v)) as [Heq|Hne]; cbn [orb].
    + unfold with_burn_streak at 2; cbn [u_id].
      now destruct (existsb _ _).
    + reflexivity.
Qed.

Lemma reset_targets_ids (l : list user) x :
  In x (map fst (nodup reset_target_dec
                   (map (fun u => (u_id u, burn_streak u)) l)))
  <-> In x (map u_id l).
Proof.
  rewrite !in_map_iff. split.
  - intros (p & <- & Hin). apply nodup_In in Hin.
    apply in_map_iff in Hin as (u & <- & Hin). now exists u.
  - intros (u & <- & Hin). exists (u_id u, burn_streak u).
    split; [reflexivity|]. apply nodup_In.
    now apply (in_map (fun u0 => (u_id u0, burn_streak u0))).
Qed.

(** X11: with the trigger [daily_burn_streak_reset_trigger], an INSERT on
    [daily_fp], whoever's rows it stores, sets to 0 the streak in every row
    whose user has a positive streak, a ledger entry yesterday and none
    today, and in no other row; afterwards no such user is left, and the
    longest streaks are unchanged. *)
Theorem daily_fp_insert_resets_idle_streaks today rows s :
  exists s',
    insert_daily_fp_20250609 today rows s = Done tt s' /\
    daily_fp s' = daily_fp s ++ rows /\
    users s' =
      map (fun u => if existsb (N.eqb (u_id u))
                         (map u_id (filter (idle s today) (users s)))
                    then with_burn_streak (Some 0) u else u) (users s) /\
    (forall u', In u' (users s') -> idle s' today u' = false) /\
    map longest_burn_streak (users s') = map longest_burn_streak (users s).
Proof.
  unfold insert_daily_fp_20250609, bind at 1, modify.
  unfold check_and_reset_burn_streak, bind at 1, gets.
  match goal with
  | |- context [for_loop check_and_reset_body ?t tt ?s1] =>
      destruct (check_and_reset_loop t s1) as (s' & Hrun & Hu & He & Hd)
  end.
  cbn [users fp_earnings daily_fp] in Hu, He, Hd.
  exists s'. split; [exact Hrun|]. split; [exact Hd|].
  assert (Hsame : forall u : user,
             existsb (N.eqb (u_id u))
               (map fst
                  (nodup reset_target_dec
                     (map (fun u0 => (u_id u0, burn_streak u0))
                        (filter
                           (idle
                              {| users := users s;
                                 completed_boosts := completed_boosts s;
                                 fp_earnings := fp_earnings s;
                                 daily_fp := daily_fp s ++ rows;
                                 manual_burn_streak_fixes :=
                                   manual_burn_streak_fixes s;
                                 burn_streak_debug_logs :=
                                   burn_streak_debug_logs s |} today)
                           (users s)))))
             = existsb (N.eqb (u_id u))
                 (map u_id (filter (idle s today) (users s)))).
  { intros u. apply existsb_same_members. intros x.
    apply reset_targets_ids. }
  assert (Husers : users s' =
            map (fun u => if existsb (N.eqb (u_id u))
                               (map u_id (filter (idle s today) (users s)))
                          then with_burn_streak (Some 0) u else u) (users s)).
  { rewrite Hu. apply map_ext. intros u. now rewrite Hsame. }
  split; [exact Husers|]. split.
  - intros u' Hin. rewrite Husers in Hin.
    apply in_map_iff in Hin as (u & <- & Hin).
    destruct (existsb _ _) eqn:E.
    + reflexivity.
    + assert (Hid : idle s today u = false).
      { destruct (idle s today u) eqn:Ei; [|reflexivity].
        exfalso. apply Bool.not_true_iff_false in E. apply E.
        apply existsb_exists. exists (u_id u). split; [|apply N.eqb_refl].
        apply in_map. apply filter_In. now split. }
      unfold idle, earned_on in *. now rewrite He.
  - rewrite Husers, map_map. apply map_ext. intros u.
    now destruct (existsb _ _).
Qed.

Lemma daily_fp_insert_resets_idle_streaks_witness :
  let bobs_row := {| df_user_id := 8%N; df_date := make_date 2025 6 4;
                     df_fp_earned := 10 |} in
  exists s',
    insert_daily_fp_20250609 (make_date 2025 6 4) [bobs_row] midday_db
    = Done tt s' /\
    map burn_streak (users s') = [Some 0; Some 2].
Proof.
  cbn zeta.
  destruct (daily_fp_insert_resets_idle_streaks (make_date 2025 6 4)
              [{| df_user_id := 8%N; df_date := make_date 2025 6 4;
                  df_fp_earned := 10 |}] midday_db)
    as (s' & Hrun & _ & Hu & _).
  exists s'. split; [exact Hrun|]. rewrite Hu. reflexivity.
Defined.

(** *** [fix_all_burn_streaks_from_fp_earnings] *)

Lemma streak_from_fp_earnings_ledger' (s s' : db) today uid :
  fp_earnings s' = fp_earnings s ->
  streak_from_fp_earnings s' today uid = streak_from_fp_earnings s today uid.
Proof.
  intros H. unfold streak_from_fp_earnings, boost_earning_dates.
  now rewrite H.
Qed.

Lemma earners_row_step (s : db) today v ids (u : user) :
  fix_all_earners_row s today ids
    (if off_by v (streak_from_fp_earnings s today v) u
     then with_burn_streak (Some (streak_from_fp_earnings s today v)) u
     else u)
  = fix_all_earners_row s today (v :: ids) u.
Proof.
  unfold fix_all_earners_row, off_by. cbn [existsb].
  destruct (N.eqb_spec (u_id u) v) as [Heq|Hne]; cbn [andb orb].
  - subst v.
    destruct (COALESCE (burn_streak u) 0
              =? streak_from_fp_earnings s today (u_id u)) eqn:E;
      cbn [negb].
    + rewrite E. cbn [negb]. now rewrite andb_false_r.
    + cbn [with_burn_streak u_id burn_streak COALESCE].
      rewrite Z.eqb_refl. cbn [negb]. now rewrite andb_false_r.
  - reflexivity.
Qed.

Lemma earners_loop (s : db) today ids : forall n s1,
  fp_earnings s1 = fp_earnings s ->
  exists n' s2,
    for_loop (fix_all_earners_body today) ids n s1 = Done n' s2 /\
    users s2 = map (fix_all_earners_row s today ids) (users s1) /\
    fp_earnings s2 = fp_earnings s /\
    ((forall u id, In u (users s1) -> In id ids ->
        off_by id (streak_from_fp_earnings s today id) u = false) ->
     n' = n).
Proof.
  induction ids as [|v ids IH]; intros n s1 He.
  - exists n, s1. cbn [for_loop]. split; [reflexivity|].
    split; [|split; [exact He|reflexivity]].
    unfold fix_all_earners_row. cbn. now rewrite map_id.
  - cbn [for_loop]. unfold bind at 1. unfold fix_all_earners_body at 1.
    unfold calculate_burn_streak_from_fp_earnings.
    unfold bind, gets, modify, ret.
    rewrite (streak_from_fp_earnings_ledger' s s1 today v He).
    cbn [users set_users set_debug_logs].
    match goal with
    | |- context [for_loop (fix_all_earners_body today) ids ?m ?st] =>
        destruct (IH m st) as (n' & s2 & Hrun & Hu & He2 & Hfix);
        [exact He|]
    end.
    exists n', s2. split; [exact Hrun|].
    cbn [users fp_earnings set_users set_debug_logs] in Hu, Hfix.
    split; [|split; [exact He2|]].
    + rewrite Hu, map_map. apply map_ext. intros u.
      apply earners_row_step.
    + intros Hoff.
      assert (Hnone : existsb (off_by v (streak_from_fp_earnings s today v))
                        (users s1) = false).
      { apply Bool.not_true_iff_false. intros Hex.
        apply existsb_exists in Hex as (u & Hin & Hu').
        rewrite (Hoff u v Hin (or_introl eq_refl)) in Hu'. discriminate. }
      rewrite Hnone in Hfix. apply Hfix.
      intros u id Hin Hid. apply in_map_iff in Hin as (u0 & <- & Hin0).
      rewrite (Hoff u0 v Hin0 (or_introl eq_refl)).
      apply Hoff; [exact Hin0|now right].
Qed.

Lemma others_loop others : forall n s1,
  exists s2,
    for_loop fix_all_others_body others n s1
    = Done (n + Z.of_nat (List.length others)) s2 /\
    users s2 =
      map (fun u => if existsb (N.eqb (u_id u)) others
                    then with_burn_streak (Some 0) u else u) (users s1) /\
    fp_earnings s2 = fp_earnings s1.
Proof.
  induction others as [|v others IH]; intros n s1.
  - exists s1. cbn. rewrite Z.add_0_r, map_id. repeat split.
  - cbn [for_loop]. unfold bind at 1. unfold fix_all_others_body at 1.
    unfold bind, modify, ret.
    match goal with
    | |- context [for_loop fix_all_others_body others ?m ?st] =>
        destruct (IH m st) as (s2 & -> & Hu & He)
    end.
    exists s2. cbn [users fp_earnings set_users] in Hu, He.
    split; [f_equal; cbn [List.length]; lia|]. split; [|exact He].
    rewrite Hu. unfold update_users_where_id. rewrite map_map.
    apply map_ext. intros u. cbn [existsb].
    destruct (N.eqb_spec (u_id u) v) as [Heq|Hne]; cbn [orb].
    + unfold with_burn_streak at 2; cbn [u_id].
      now destruct (existsb _ _).
    + reflexivity.
Qed.

Lemma earns_boosts_listed (s : db) uid :
  earns_boosts s uid = true <-> In uid (users_with_boost_earnings s).
Proof.
  unfold earns_boosts, users_with_boost_earnings, is_boost_earning.
  rewrite nodup_In, in_map_iff, existsb_exists. split.
  - intros (e & Hin & He). apply andb_true_iff in He as [Hid Hty].
    apply N.eqb_eq in Hid. exists e. split; [exact Hid|].
    apply filter_In. now split.
  - intros (e & Hid & Hin). apply filter_In in Hin as [Hin Hty].
    exists e. split; [exact Hin|]. rewrite Hid, N.eqb_refl. exact Hty.
Qed.

Lemma earners_row_id s today ids u :
  u_id (fix_all_earners_row s today ids u) = u_id u.
Proof. unfold fix_all_earners_row. now destruct (_ && _). Qed.

(** What the routine leaves in the rows of the users. *)
Lemma fix_all_rows today (s : db) :
  exists n s',
    fix_all_burn_streaks_from_fp_earnings today s = Done n s' /\
    fp_earnings s' = fp_earnings s /\
    map u_id (users s') = map u_id (users s) /\
    map longest_burn_streak (users s') = map longest_burn_streak (users s) /\
    ((forall u, In u (users s) ->
        (if earns_boosts s (u_id u)
         then COALESCE (burn_streak u) 0
              = streak_from_fp_earnings s today (u_id u)
         else sql_gt (burn_streak u) 0 = false)) ->
     n = 0 /\ users s' = users s) /\
    forall u', In u' (users s') ->
      if earns_boosts s (u_id u')
      then COALESCE (burn_streak u') 0
           = streak_from_fp_earnings s today (u_id u')
      else sql_gt (burn_streak u') 0 = false.
Proof.
  unfold fix_all_burn_streaks_from_fp_earnings, bind at 1, gets.
  destruct (earners_loop s today (users_with_boost_earnings s) 0 s eq_refl)
    as (n1 & s1 & Hrun1 & Hu1 & He1 & Hfix1).
  unfold bind at 1. rewrite Hrun1. unfold bind at 1.
  set (others := map u_id (filter (streak_without_earnings s1) (users s1))).
  destruct (others_loop others n1 s1) as (s2 & Hrun2 & Hu2 & He2).
  rewrite Hrun2. eexists _, s2. split; [reflexivity|].
  assert (Hrow1 : forall u,
             In u (users s) ->
             if earns_boosts s (u_id u)
             then COALESCE (burn_streak
                              (fix_all_earners_row s today
                                 (users_with_boost_earnings s) u)) 0
                  = streak_from_fp_earnings s today (u_id u)
             else fix_all_earners_row s today
                    (users_with_boost_earnings s) u = u).
  { intros u Hin. unfold fix_all_earners_row.
    destruct (earns_boosts s (u_id u)) eqn:Ee.
    - apply earns_boosts_listed in Ee.
      replace (existsb (N.eqb (u_id u)) (users_with_boost_earnings s))
        with true
        by (symmetry; apply existsb_exists; exists (u_id u);
            split; [exact Ee|apply N.eqb_refl]).
      cbn [andb].
      destruct (COALESCE (burn_streak u) 0
                =? streak_from_fp_earnings s today (u_id u)) eqn:E;
        cbn [negb].
      + now apply Z.eqb_eq.
      + reflexivity.
    - replace (existsb (N.eqb (u_id u)) (users_with_boost_earnings s))
        with false; [reflexivity|].
      symmetry. apply Bool.not_true_iff_false. intros Hex.
      apply existsb_exists in Hex as (x & Hx & Hxe).
      apply N.eqb_eq in Hxe. subst x.
      apply earns_boosts_listed in Hx. congruence. }
  assert (Hothers : forall u1,
             In u1 (users s1) -> existsb (N.eqb (u_id u1)) others = true ->
             earns_boosts s (u_id u1) = false).
  { intros u1 Hin Hex. apply existsb_exists in Hex as (x & Hx & Hxe).
    apply N.eqb_eq in Hxe. subst x. unfold others in Hx.
    apply in_map_iff in Hx as (u2 & Hid & Hx).
    apply filter_In in Hx as [_ Hx]. unfold streak_without_earnings in Hx.
    apply andb_true_iff in Hx as [_ Hx]. apply negb_true_iff in Hx.
    unfold earns_boosts. now rewrite <- Hid, <- He1. }
  split; [now rewrite He2|]. split.
  { rewrite Hu2, Hu1, !map_map. apply map_ext. intros u.
    match goal with
    | |- context [if ?b then _ else _] => destruct b
    end; cbn [with_burn_streak u_id]; apply earners_row_id. }
  split.
  { rewrite Hu2, Hu1, !map_map. apply map_ext. intros u.
    assert (Hl : longest_burn_streak
                   (fix_all_earners_row s today
                      (users_with_boost_earnings s) u)
                 = longest_burn_streak u)
      by (unfold fix_all_earners_row; now destruct (_ && _)).
    match goal with
    | |- context [if ?b then _ else _] => destruct b
    end; cbn [with_burn_streak longest_burn_streak]; exact Hl. }
  split.
  - intros Hgood.
    assert (Hn1 : n1 = 0).
    { apply Hfix1. intros u id Hin Hid. unfold off_by.
      destruct (N.eqb_spec (u_id u) id) as [Heq|Hne]; [|reflexivity].
      subst id. cbn [andb]. specialize (Hgood u Hin).
      apply earns_boosts_listed in Hid. rewrite Hid in Hgood.
      rewrite Hgood, Z.eqb_refl. reflexivity. }
    assert (Hs1 : users s1 = users s).
    { rewrite Hu1. rewrite <- (map_id (users s)) at 2.
      apply map_ext_in. intros u Hin.
      specialize (Hrow1 u Hin). specialize (Hgood u Hin).
      unfold fix_all_earners_row in *.
      destruct (earns_boosts s (u_id u)); [|exact Hrow1].
      rewrite Hgood, Z.eqb_refl. cbn [negb]. now rewrite andb_false_r. }
    assert (Hnone : others = []).
    { unfold others. replace (filter _ _) with (@nil user); [reflexivity|].
      symmetry. apply filter_none. intros u Hin. rewrite Hs1 in Hin.
      specialize (Hgood u Hin). unfold streak_without_earnings.
      unfold earns_boosts in Hgood. rewrite He1.
      destruct (existsb (is_boost_earning (u_id u)) (fp_earnings s));
        cbn [negb]; [apply andb_false_r|].
      now rewrite Hgood. }
    rewrite Hnone in *. cbn [List.length] in *. split; [lia|].
    rewrite Hu2, Hs1. rewrite <- (map_id (users s)) at 2.
    apply map_ext. reflexivity.
  - intros u' Hin. rewrite Hu2 in Hin.
    apply in_map_iff in Hin as (u1 & <- & Hin1).
    pose proof Hin1 as Hin1'. rewrite Hu1 in Hin1.
    apply in_map_iff in Hin1 as (u & Hrow & Hin).
    specialize (Hrow1 u Hin).
    assert (Hid1 : u_id u1 = u_id u)
      by (rewrite <- Hrow; apply earners_row_id).
    destruct (existsb (N.eqb (u_id u1)) others) eqn:Eo.
    + cbn [with_burn_streak u_id].
      rewrite (Hothers u1 Hin1' Eo). reflexivity.
    + rewrite Hid1. destruct (earns_boosts s (u_id u)) eqn:Ee.
      * rewrite <- Hrow. exact Hrow1.
      * destruct (sql_gt (burn_streak u1) 0) eqn:Eg; [|reflexivity].
        exfalso. apply Bool.not_true_iff_false in Eo. apply Eo.
        apply existsb_exists. exists (u_id u1). split; [|apply N.eqb_refl].
        unfold others. apply in_map. apply filter_In. split; [exact Hin1'|].
        unfold streak_without_earnings. rewrite Eg, He1, Hid1.
        unfold earns_boosts in Ee. now rewrite Ee.
Qed.

(** X12: [fix_all_burn_streaks_from_fp_earnings] always completes and keeps
    the users' ids and longest streaks.  Afterwards every user with a boost
    entry in the ledger holds the streak computed from the ledger (a NULL
    streak counting as 0), no user without a boost entry holds a positive
    streak, and a second run reports 0 users updated and leaves [users] as
    it is. *)
Theorem fix_all_burn_streaks_from_fp_earnings_result today (s : db) :
  exists n s',
    fix_all_burn_streaks_from_fp_earnings today s = Done n s' /\
    map u_id (users s') = map u_id (users s) /\
    map longest_burn_streak (users s') = map longest_burn_streak (users s) /\
    (forall u', In u' (users s') ->
       if earns_boosts s (u_id u')
       then COALESCE (burn_streak u') 0
            = streak_from_fp_earnings s today (u_id u')
       else sql_gt (burn_streak u') 0 = false) /\
    exists s'',
      fix_all_burn_streaks_from_fp_earnings today s' = Done 0 s'' /\
      users s'' = users s'.
Proof.
  destruct (fix_all_rows today s)
    as (n & s' & Hrun & He & Hid & Hlong & _ & Hrows).
  exists n, s'. split; [exact Hrun|]. split; [exact Hid|].
  split; [exact Hlong|]. split; [exact Hrows|].
  destruct (fix_all_rows today s')
    as (n2 & s'' & Hrun2 & _ & _ & _ & Hfix & _).
  destruct Hfix as [-> Hsame].
  - intros u Hin. specialize (Hrows u Hin).
    unfold earns_boosts in *. rewrite He.
    now rewrite (streak_from_fp_earnings_ledger' s s' today _ He).
  - exists s''. split; [exact Hrun2|exact Hsame].
Qed.

End LedgerStreakFacts.

(** * Further properties of the Morning Basics routines *)

Section MorningBasicsMore.
Import MorningBasics.

Lemma find_app_none {A} (p : A -> bool) l x :
  find p l = None -> p x = true -> find p (l ++ [x]) = Some x.
Proof.
  induction l as [|y l IH]; cbn; intros Hnone Hx.
  - now rewrite Hx.
  - destruct (p y); [discriminate|auto].
Qed.

Lemma find_map_same {A} (p : A -> bool) (f : A -> A) l :
  (forall r, p (f r) = p r) ->
  find p (map f l) = option_map f (find p l).
Proof.
  intros Hp. induction l as [|y l IH]; [reflexivity|]. cbn.
  rewrite Hp. now destruct (p y).
Qed.

(** The later statements leave the challenge tables alone. *)
Lemma record_completed_action_challenges faults uid today s a s' :
  record_completed_action faults uid today s = Done a s' ->
  challenges s' = challenges s /\
  completed_challenges s' = completed_challenges s.
Proof.
  unfold record_completed_action. intros H.
  repeat step_done. unfold gen_random_uuid in Hc. inversion Hc; subst.
  now cbn.
Qed.

Lemma record_fp_earning_challenges faults uid name s a s' :
  record_fp_earning faults uid name s = Done a s' ->
  challenges s' = challenges s /\
  completed_challenges s' = completed_challenges s.
Proof.
  unfold record_fp_earning. intros H.
  apply swallow_done in H as [H|[_ ->]]; [|now split].
  repeat step_done. unfold gen_random_uuid in Hc. inversion Hc; subst.
  now cbn.
Qed.

Lemma update_daily_fp_challenges faults uid name today done s a s' :
  update_daily_fp faults uid name today done s = Done a s' ->
  challenges s' = challenges s /\
  completed_challenges s' = completed_challenges s.
Proof.
  unfold update_daily_fp. intros H.
  apply swallow_done in H as [H|[_ ->]]; [|now split].
  repeat step_done.
  destruct (existsb _ _).
  - apply update_table_daily_fp_frame in Hk. tauto.
  - step_done. now cbn.
Qed.

Lemma update_fuel_points_challenges faults now uid done s a s' :
  update_fuel_points faults now uid done s = Done a s' ->
  challenges s' = challenges s /\
  completed_challenges s' = completed_challenges s.
Proof.
  unfold update_fuel_points. intros H.
  apply swallow_done in H as [H|[_ ->]]; [|now split].
  step_done. apply update_table_users_frame in H. tauto.
Qed.

Lemma find_none_existsb' {A} (p : A -> bool) l :
  existsb p l = true -> find p l <> None.
Proof.
  intros H Hnone. apply find_none_existsb in Hnone. congruence.
Qed.

Lemma is_mb0_true uid c :
  is_mb0 uid c = true -> ch_user_id c = uid /\ challenge_id c = "mb0".
Proof.
  unfold is_mb0. intros H. apply andb_true_iff in H as [Hu Hc].
  split; [now apply N.eqb_eq | now apply String.eqb_eq].
Qed.

(** What "get or create challenge record" leaves: the user's challenge row
    carries the count the routine reports, and the status "completed" when
    it reports the challenge completed. *)
Lemma advance_challenge_done faults now uid name has s n done s' :
  advance_challenge faults now uid name has s = Done (n, done) s' ->
  done = (21 <=? n) /\
  (exists c, find (is_mb0 uid) (challenges s') = Some c /\
             verification_count c = n /\
             (done = true -> status c = "completed")) /\
  match find (is_mb0 uid) (challenges s) with
  | None => n = 1
  | Some c0 => n = verification_count c0 + 1
  end.
Proof.
  unfold advance_challenge. intros H.
  apply bind_done in H as (existing & s0 & Hget & H).
  apply gets_done in Hget as [-> ->].
  destruct (find (is_mb0 uid) (challenges s)) as [c0|] eqn:Hfind.
  - apply bind_done in H as (cnt & s1 & Hint & H).
    apply int4_done in Hint as (-> & -> & Hrange).
    assert (Hsame : forall f : challenge -> challenge,
              (forall r, ch_user_id (f r) = ch_user_id r /\
                         challenge_id (f r) = challenge_id r) ->
              find (is_mb0 uid)
                (map (fun r => if (ch_id r =? ch_id c0)%N then f r else r)
                     (challenges s)) = Some (f c0)).
    { intros f Hf. rewrite find_map_same.
      - rewrite Hfind. cbn [option_map]. now rewrite N.eqb_refl.
      - intros r. unfold is_mb0. destruct (ch_id r =? ch_id c0)%N; [|reflexivity].
        destruct (Hf r) as [-> ->]. reflexivity. }
    destruct (21 <=? verification_count c0 + 1) eqn:Hfull.
    + apply bind_done in H as ([] & s2 & Hupd & H).
      apply write_stmt_done in Hupd as [_ Hupd]. apply modify_done in Hupd.
      apply bind_done in H as ([] & s3 & Hbonus & H).
      apply ret_done in H as [Heq ->]. inversion Heq; subst n done; clear Heq.
      assert (Hch : challenges s3 = challenges s2).
      { destruct has; [now step_done|].
        apply bind_done in Hbonus as ([] & s4 & Hins & Hcc).
        apply write_stmt_done in Hins as [_ Hins].
        apply bind_done in Hins as (id & s5 & Hgen & Hins).
        unfold gen_random_uuid in Hgen. inversion Hgen; subst id s5; clear Hgen.
        apply modify_done in Hins. subst s4.
        apply swallow_done in Hcc as [Hcc|[_ ->]]; [|reflexivity].
        apply write_stmt_done in Hcc as [_ Hcc].
        apply bind_done in Hcc as (id & s5 & Hgen & Hcc).
        unfold gen_random_uuid in Hgen. inversion Hgen; subst id s5; clear Hgen.
        apply modify_done in Hcc. now subst s3. }
      split; [now rewrite Hfull|]. split; [|reflexivity].
      rewrite Hch, Hupd. cbn [challenges set_challenges].
      rewrite (Hsame (fun r =>
        {| ch_id := ch_id r; ch_user_id := ch_user_id r;
           challenge_id := challenge_id r; status := "completed";
           verification_count := verification_count c0 + 1;
           verifications_required := verifications_required r;
           started_at := started_at r; completed_at := Some now;
           progress := 100 |})) by (intros r; now split).
      eexists. split; [reflexivity|]. now split.
    + apply bind_done in H as ([] & s2 & Hupd & H).
      apply write_stmt_done in Hupd as [_ Hupd]. apply modify_done in Hupd.
      apply ret_done in H as [Heq ->]. inversion Heq; subst n done; clear Heq.
      split; [now rewrite Hfull|]. split; [|reflexivity].
      rewrite Hupd. cbn [challenges set_challenges].
      rewrite (Hsame (fun r =>
        {| ch_id := ch_id r; ch_user_id := ch_user_id r;
           challenge_id := challenge_id r; status := status r;
           verification_count := verification_count c0 + 1;
           verifications_required := verifications_required r;
           started_at := started_at r; completed_at := completed_at r;
           progress := percent_of_21 (verification_count c0 + 1) |}))
        by (intros r; now split).
      eexists. split; [reflexivity|]. split; [reflexivity|discriminate].
  - apply bind_done in H as ([] & s2 & Hins & H).
    apply write_stmt_done in Hins as [_ Hins].
    apply bind_done in Hins as (id & s5 & Hgen & Hins).
    unfold gen_random_uuid in Hgen. inversion Hgen; subst id s5; clear Hgen.
    apply modify_done in Hins.
    apply ret_done in H as [Heq ->]. inversion Heq; subst n done; clear Heq.
    split; [reflexivity|]. split; [|reflexivity].
    rewrite Hins. cbn [challenges set_challenges].
    eexists. split.
    + apply find_app_none; [exact Hfind|].
      unfold is_mb0; cbn. now rewrite N.eqb_refl.
    + cbn. split; [reflexivity|discriminate].
Qed.

(** What a successful call leaves and reports. *)
Lemma handle_success faults uid today now s fp n done s1 :
  handle_morning_basics_completion faults (Some uid) today now s
  = Done (success fp n done) s1 ->
  fp = total_award done /\ done = (21 <=? n) /\
  (exists c, find (is_mb0 uid) (challenges s1) = Some c /\
             verification_count c = n /\
             (done = true -> status c = "completed")) /\
  match find (is_mb0 uid) (challenges s) with
  | None => n = 1
  | Some c0 => n = verification_count c0 + 1
  end /\
  existsb (is_todays_action uid today) (completed_actions s) = false /\
  existsb (is_todays_action uid today) (completed_actions s1) = true.
Proof.
  intros Hrun.
  destruct (handle_cases _ _ _ _ _ _ _ Hrun)
    as [(Hr & _)|[(Hr & _)|[((e & Hr) & _)|
        (uid' & fp' & n' & done' & Hauth & Hr & Hbefore & Hafter)]]];
    try discriminate.
  inversion Hauth; subst uid'. inversion Hr; subst fp' n' done'. clear Hauth Hr.
  unfold handle_morning_basics_completion, block in Hrun.
  match type of Hrun with
  | match ?b s with _ => _ end = _ =>
      destruct (b s) as [r' s'|e] eqn:Hbody; [|discriminate]
  end.
  inversion Hrun; subst r' s'; clear Hrun.
  apply bind_done in Hbody as (existing & s0 & Hget & H).
  apply gets_done in Hget as [-> ->]. rewrite Hbefore in H.
  apply bind_done in H as (name & s0 & Hget & H).
  apply gets_done in Hget as [-> ->].
  apply bind_done in H as (has & s0 & Hget & H).
  apply gets_done in Hget as [-> ->].
  apply bind_done in H as ([n0 done0] & s2 & Hadv & H).
  apply bind_done in H as ([] & s3 & Hact & H).
  apply bind_done in H as ([] & s4 & Hearn & H).
  apply bind_done in H as ([] & s5 & Hdaily & H).
  apply bind_done in H as ([] & s6 & Hpoints & H).
  apply ret_done in H as [Heq <-]. cbn [fst snd] in *.
  inversion Heq; subst fp n0 done0; clear Heq.
  apply advance_challenge_done in Hadv as (Hdone & Hrow & Hcount).
  apply record_completed_action_challenges in Hact as [Hact _].
  apply record_fp_earning_challenges in Hearn as [Hearn _].
  apply update_daily_fp_challenges in Hdaily as [Hdaily _].
  apply update_fuel_points_challenges in Hpoints as [Hpoints _].
  split; [reflexivity|]. split; [exact Hdone|].
  split; [now rewrite Hpoints, Hdaily, Hearn, Hact|].
  split; [exact Hcount|].
  split; [now apply find_none_existsb|].
  destruct (existsb (is_todays_action uid today) (completed_actions s1)) eqn:E;
    [reflexivity|].
  apply find_none_existsb in E. contradiction.
Qed.

(** X13: after a successful Morning Basics completion that reports [n]
    days, [get_morning_basics_details] reports [n] days completed and that
    today can no longer be completed, and it reports the challenge completed
    when the completion said so.  The Fuel Points awarded are 5, plus 50
    when [n >= 21]; the completion flag is [n >= 21]; and [n] is one more
    than the days the details reported before. *)
Theorem details_after_completion
    all_columns_set faults uid today now s fp n done s1 :
  handle_morning_basics_completion faults (Some uid) today now s
  = Done (success fp n done) s1 ->
  let d := get_morning_basics_details all_columns_set today uid s1 in
  days_completed d = n /\
  can_complete_today d = false /\
  (done = true -> is_completed d = true) /\
  fp = fp_to_award + (if 21 <=? n then bonus_fp else 0) /\
  done = (21 <=? n) /\
  n = days_completed (get_morning_basics_details all_columns_set today uid s)
      + 1.
Proof.
  intros Hrun. cbn zeta.
  apply handle_success in Hrun
    as (Hfp & Hdone & (c & Hfind & Hn & Hst) & Hcount & _ & Hafter).
  unfold get_morning_basics_details. rewrite Hfind, Hafter.
  cbn [days_completed can_complete_today is_completed negb].
  split; [exact Hn|]. split; [reflexivity|]. split.
  - intros Hd. now rewrite (Hst Hd).
  - split; [|split; [exact Hdone|]].
    + subst fp done. reflexivity.
    + destruct (find (is_mb0 uid) (challenges s)); cbn [days_completed]; lia.
Qed.

Lemma details_after_completion_witness :
  let d := get_morning_basics_details (fun _ => true) (make_date 2025 6 3)
             7%N day21_db in
  days_completed d = 21 /\
  can_complete_today d = false /\
  (true = true -> is_completed d = true) /\
  55 = fp_to_award + (if 21 <=? 21 then bonus_fp else 0) /\
  true = (21 <=? 21) /\
  21 = days_completed
         (get_morning_basics_details (fun _ => true) (make_date 2025 6 3)
            7%N day20_db) + 1.
Proof.
  apply (details_after_completion (fun _ => true) no_faults 7%N
           (make_date 2025 6 3) 1000 day20_db 55 21 true day21_db).
  vm_compute. reflexivity.
Defined.

(** X14: [get_morning_basics_details] and
    [handle_morning_basics_completion] agree on the day: when the details
    say today cannot be completed, the completion is refused as already
    completed today and changes nothing; when they say it can and the user
    has the challenge row, the completion is not refused for that reason. *)
Theorem can_complete_today_agrees
    all_columns_set faults uid today now s :
  let d := get_morning_basics_details all_columns_set today uid s in
  (can_complete_today d = false ->
   handle_morning_basics_completion faults (Some uid) today now s
   = Done (failure already_completed_today) s) /\
  (can_complete_today d = true ->
   find (is_mb0 uid) (challenges s) <> None ->
   handle_morning_basics_completion faults (Some uid) today now s
   <> Done (failure already_completed_today) s).
Proof.
  cbn zeta. unfold get_morning_basics_details. split.
  - intros Hcan. apply handle_again. apply find_none_existsb'.
    destruct (find (is_mb0 uid) (challenges s)); cbn in Hcan; [|discriminate].
    now apply negb_false_iff in Hcan.
  - intros Hcan Hsome Hrun.
    destruct (find (is_mb0 uid) (challenges s)); [|contradiction].
    cbn in Hcan. apply negb_true_iff in Hcan.
    apply handle_cases in Hrun
      as [(Hr & _)|[(_ & _ & uid' & Hauth & Hfind)|[((e & Hr) & _)|
          (uid' & fp & n & done & _ & Hr & _)]]]; try discriminate.
    inversion Hauth; subst uid'. apply find_none_existsb in Hcan. contradiction.
Qed.


Lemma can_complete_today_agrees_witness :
  handle_morning_basics_completion no_faults (Some 7%N) (make_date 2025 6 3)
    2000 day21_db = Done (failure already_completed_today) day21_db /\
  handle_morning_basics_completion no_faults (Some 7%N) (make_date 2025 6 4)
    2000 day21_db <> Done (failure already_completed_today) day21_db.
Proof.
  split.
  - apply (proj1 (can_complete_today_agrees (fun _ => true) no_faults 7%N
                    (make_date 2025 6 3) 2000 day21_db)).
    vm_compute. reflexivity.
  - apply (proj2 (can_complete_today_agrees (fun _ => true) no_faults 7%N
                    (make_date 2025 6 4) 2000 day21_db)).
    + vm_compute. reflexivity.
    + vm_compute. discriminate.
Defined.

Lemma existsb_impl {A} (p q : A -> bool) l :
  (forall x, p x = true -> q x = true) ->
  existsb p l = true -> existsb q l = true.
Proof.
  intros Hpq H. apply existsb_exists in H as (x & Hin & Hp).
  apply existsb_exists. exists x. auto.
Qed.

(** X15: a user for whom [has_completed_morning_basics] holds also
    satisfies [has_completed_any_challenge]; and after a completion that
    reports the challenge completed, [has_completed_morning_basics] holds. *)
Theorem completed_morning_basics_is_seen uid :
  (forall s, has_completed_morning_basics uid s = true ->
             has_completed_any_challenge uid s = true) /\
  (forall faults today now s fp n s1,
     handle_morning_basics_completion faults (Some uid) today now s
     = Done (success fp n true) s1 ->
     has_completed_morning_basics uid s1 = true).
Proof.
  split.
  - intros s H. unfold has_completed_morning_basics in H.
    unfold has_completed_any_challenge.
    apply orb_true_iff in H as [H|H].
    + erewrite existsb_impl; [reflexivity| |exact H].
      intros c Hc. unfold is_mb0_completion in Hc.
      now apply andb_true_iff in Hc as [Hc _].
    + destruct (existsb _ (completed_challenges s)); [reflexivity|].
      erewrite existsb_impl; [reflexivity| |exact H].
      intros c Hc. apply andb_true_iff in Hc as [Hm Hst].
      unfold is_mb0 in Hm. apply andb_true_iff in Hm as [Hu _].
      now rewrite Hu, Hst.
  - intros faults today now s fp n s1 Hrun.
    apply handle_success in Hrun as (_ & _ & (c & Hfind & _ & Hst) & _).
    unfold has_completed_morning_basics. apply orb_true_iff. right.
    apply existsb_exists. exists c.
    pose proof (find_some _ _ Hfind) as [Hin Hm].
    split; [exact Hin|]. rewrite Hm, (Hst eq_refl). reflexivity.
Qed.

Lemma completed_morning_basics_is_seen_witness :
  has_completed_any_challenge 7%N day21_db = true /\
  has_completed_morning_basics 7%N day21_db = true.
Proof.
  assert (Hseen : has_completed_morning_basics 7%N day21_db = true).
  { apply (proj2 (completed_morning_basics_is_seen 7%N) no_faults
             (make_date 2025 6 3) 1000 day20_db 55 21 day21_db).
    vm_compute. reflexivity. }
  split; [|exact Hseen].
  apply (proj1 (completed_morning_basics_is_seen 7%N) day21_db). exact Hseen.
Defined.


(** *** [fix_morning_basics_challenges] *)

Lemma to_fix_recorded s s' id id' row :
  id' <> id -> challenges s' = challenges s ->
  completed_challenges s' = completed_challenges s ++ [row] ->
  cc_user_id row = id ->
  to_fix s' id' = to_fix s id' /\
  already_recorded s' id' = already_recorded s id'.
Proof.
  intros Hne Hch Hcc Hrow. unfold to_fix, already_recorded.
  assert (Hrow' : is_mb0_completion id' row = false).
  { unfold is_mb0_completion. rewrite Hrow.
    destruct (N.eqb_spec id id') as [Heq|_]; [congruence|reflexivity]. }
  rewrite Hch, Hcc, existsb_app. cbn [existsb].
  now rewrite Hrow', !orb_false_r.
Qed.

Lemma fix_loop now ids : NoDup ids -> forall acc s,
  exists acc' s',
    Streak.for_loop (fix_body now) ids acc s = Done acc' s' /\
    users s' = users s /\ challenges s' = challenges s /\
    completed_actions s' = completed_actions s /\
    daily_fp s' = daily_fp s /\
    fixed_count acc' =
      fixed_count acc + Z.of_nat (List.length (filter (to_fix s) ids)) /\
    completed_count acc' =
      completed_count acc + Z.of_nat (List.length (filter (to_fix s) ids)) /\
    already_completed_count acc' =
      already_completed_count acc +
      Z.of_nat (List.length (filter (already_recorded s) ids)) /\
    (exists rows,
       completed_challenges s' = completed_challenges s ++ rows /\
       map cc_user_id rows = filter (to_fix s) ids /\
       Forall (fun r => cc_challenge_id r = "mb0") rows) /\
    (exists entries,
       fp_earnings s' = fp_earnings s ++ entries /\
       map (fun e => (fe_user_id e, fp_amount e)) entries =
         map (fun uid => (uid, 50)) (filter (to_fix s) ids) /\
       Forall (fun e => item_id e = "mb0") entries).
Proof.
  induction 1 as [|id ids Hnot Hnodup IH]; intros acc s.
  - exists acc, s. cbn. repeat split; try lia.
    + exists []. now rewrite app_nil_r.
    + exists []. now rewrite app_nil_r.
  - cbn [Streak.for_loop]. unfold bind at 1. unfold fix_body at 1.
    unfold bind at 1, gets at 1.
    assert (Hskip :
      to_fix s id = false -> forall acc1,
      already_completed_count acc1 =
        already_completed_count acc +
        (if already_recorded s id then 1 else 0) ->
      fixed_count acc1 = fixed_count acc ->
      completed_count acc1 = completed_count acc ->
      exists acc' s',
        Streak.for_loop (fix_body now) ids acc1 s = Done acc' s' /\
        users s' = users s /\ challenges s' = challenges s /\
        completed_actions s' = completed_actions s /\
        daily_fp s' = daily_fp s /\
        fixed_count acc' =
          fixed_count acc +
          Z.of_nat (List.length (filter (to_fix s) (id :: ids))) /\
        completed_count acc' =
          completed_count acc +
          Z.of_nat (List.length (filter (to_fix s) (id :: ids))) /\
        already_completed_count acc' =
          already_completed_count acc +
          Z.of_nat (List.length (filter (already_recorded s) (id :: ids))) /\
        (exists rows,
           completed_challenges s' = completed_challenges s ++ rows /\
           map cc_user_id rows = filter (to_fix s) (id :: ids) /\
           Forall (fun r => cc_challenge_id r = "mb0") rows) /\
        (exists entries,
           fp_earnings s' = fp_earnings s ++ entries /\
           map (fun e => (fe_user_id e, fp_amount e)) entries =
             map (fun uid => (uid, 50)) (filter (to_fix s) (id :: ids)) /\
           Forall (fun e => item_id e = "mb0") entries)).
    { intros Hno acc1 Ha Hf Hc.
      destruct (IH acc1 s)
        as (acc' & s' & Hrun & Hu & Hch & Hca & Hd & Hfc & Hcc & Hac & Hrows
            & Hent).
      exists acc', s'. cbn [filter]. rewrite Hno.
      repeat (split; [first [assumption|lia]|]).
      split; [|split; assumption].
      destruct (already_recorded s id); cbn [List.length]; lia. }
    destruct (find (is_mb0 id) (challenges s)) as [c|] eqn:Hfind.
    2:{ unfold ret at 1. apply Hskip; unfold to_fix, already_recorded;
          rewrite ?Hfind; try reflexivity; lia. }
    destruct (is_finished c) eqn:Hfin.
    2:{ unfold ret at 1. apply Hskip; unfold to_fix, already_recorded;
          rewrite ?Hfind, ?Hfin; try reflexivity; cbn; lia. }
    unfold bind at 1, gets at 1.
    destruct (existsb (is_mb0_completion id) (completed_challenges s))
      eqn:Hrec.
    { unfold ret at 1. apply Hskip; unfold to_fix, already_recorded;
        rewrite ?Hfind, ?Hfin, ?Hrec; try reflexivity; cbn; lia. }
    unfold bind, gets, gen_random_uuid, modify. unfold ret at 1.
    match goal with
    | |- context [Streak.for_loop (fix_body now) ids ?a ?st] =>
        set (s1 := st);
        destruct (IH a s1)
          as (acc' & s' & Hrun & Hu & Hch & Hca & Hd & Hfc & Hcc & Hac
              & (rows & Hrows & Hrmap & Hrall)
              & (entries & Hent & Hemap & Heall))
    end.
    exists acc', s'. split; [exact Hrun|].
    assert (Hto : to_fix s id = true).
    { unfold to_fix. now rewrite Hfind, Hfin, Hrec. }
    assert (Hal : already_recorded s id = false).
    { unfold already_recorded. now rewrite Hfind, Hfin, Hrec. }
    assert (Hext : filter (to_fix s1) ids = filter (to_fix s) ids /\
                   filter (already_recorded s1) ids
                   = filter (already_recorded s) ids).
    { split; apply filter_ext_in; intros id' Hin;
        assert (Hne : id' <> id) by (intros ->; contradiction);
        eapply (to_fix_recorded s s1 id id'); try eassumption; reflexivity. }
    destruct Hext as [Hext1 Hext2]. rewrite Hext1 in *. rewrite Hext2 in *.
    cbn [filter]. rewrite Hto, Hal. cbn [List.length map].
    cbn [fixed_count completed_count already_completed_count] in Hfc, Hcc, Hac.
    split; [exact Hu|]. split; [exact Hch|]. split; [exact Hca|].
    split; [exact Hd|].
    split; [lia|]. split; [lia|]. split; [lia|]. split.
    + eexists (_ :: rows). split.
      * rewrite Hrows. subst s1.
        cbn [completed_challenges set_completed_challenges set_fp_earnings].
        now rewrite <- app_assoc.
      * cbn [map cc_user_id]. split; [now rewrite Hrmap|].
        constructor; [reflexivity|assumption].
    + eexists (_ :: entries). split.
      * rewrite Hent. subst s1.
        cbn [fp_earnings set_completed_challenges set_fp_earnings].
        now rewrite <- app_assoc.
      * cbn [map fe_user_id fp_amount]. split; [now rewrite Hemap|].
        constructor; [reflexivity|assumption].
Qed.

(** With nothing to fix the loop writes nothing. *)
Lemma fix_loop_nothing now ids : forall acc s,
  (forall id, In id ids -> to_fix s id = false) ->
  exists acc', Streak.for_loop (fix_body now) ids acc s = Done acc' s /\
               fixed_count acc' = fixed_count acc.
Proof.
  induction ids as [|id ids IH]; intros acc s Hno.
  - exists acc. now split.
  - cbn [Streak.for_loop]. unfold bind at 1. unfold fix_body at 1.
    unfold bind at 1, gets at 1.
    pose proof (Hno id (or_introl eq_refl)) as Hid. unfold to_fix in Hid.
    assert (Hrest : forall id', In id' ids -> to_fix s id' = false)
      by (intros id' Hin; apply Hno; now right).
    destruct (find (is_mb0 id) (challenges s)) as [c|].
    2:{ unfold ret at 1. now apply IH. }
    destruct (is_finished c).
    2:{ unfold ret at 1. now apply IH. }
    unfold bind at 1, gets at 1.
    destruct (existsb (is_mb0_completion id) (completed_challenges s));
      [|discriminate].
    unfold ret at 1.
    match goal with
    | |- context [Streak.for_loop (fix_body now) ids ?a s] =>
        destruct (IH a s Hrest) as (acc' & Hrun & Hf)
    end.
    exists acc'. split; [exact Hrun|]. exact Hf.
Qed.

Lemma in_mb0_users s uid c :
  find (is_mb0 uid) (challenges s) = Some c -> In uid (mb0_users s).
Proof.
  intros Hfind. apply find_some in Hfind as [Hin Hm].
  apply is_mb0_true in Hm as [Hu Hc].
  unfold mb0_users. apply nodup_In. apply in_map_iff. exists c.
  split; [assumption|]. apply filter_In. split; [assumption|].
  now apply String.eqb_eq.
Qed.

(** X16: [fix_morning_basics_challenges] always completes.  It records a
    completion, with a bonus entry of 50 Fuel Points in the ledger, for
    exactly the users whose Morning Basics challenge is finished and has no
    row in [completed_challenges], in order; [fixed_count] and
    [completed_count] are their number, and [already_completed_count] counts
    the finished users that had the row.  It changes no user's points, no
    [daily_fp] row and no challenge; afterwards nobody is left to fix, and a
    second run fixes 0 and changes nothing. *)
Theorem fix_morning_basics_challenges_result now s :
  let fixed := filter (to_fix s) (mb0_users s) in
  exists r s',
    fix_morning_basics_challenges now s = Done r s' /\
    fixed_count r = Z.of_nat (List.length fixed) /\
    completed_count r = fixed_count r /\
    already_completed_count r =
      Z.of_nat (List.length (filter (already_recorded s) (mb0_users s))) /\
    bonus_ledger s' = bonus_ledger s ++ map (fun uid => (uid, 50)) fixed /\
    users s' = users s /\ daily_fp s' = daily_fp s /\
    challenges s' = challenges s /\
    (forall uid, to_fix s' uid = false) /\
    exists r2,
      fix_morning_basics_challenges now s' = Done r2 s' /\ fixed_count r2 = 0.
Proof.
  cbn zeta. unfold fix_morning_basics_challenges at 1. unfold bind at 1, gets.
  destruct (fix_loop now (mb0_users s) (NoDup_nodup _ _)
              {| fixed_count := 0; completed_count := 0;
                 already_completed_count := 0 |} s)
    as (r & s' & Hrun & Hu & Hch & _ & Hd & Hfc & Hcc & Hac
        & (rows & Hrows & Hrmap & Hrall) & (entries & Hent & Hemap & Heall)).
  cbn [fixed_count completed_count already_completed_count] in Hfc, Hcc, Hac.
  exists r, s'. split; [exact Hrun|].
  assert (Hnone : forall uid, to_fix s' uid = false).
  { intros uid. unfold to_fix. rewrite Hch.
    destruct (find (is_mb0 uid) (challenges s)) as [c|] eqn:Hfind;
      [|reflexivity].
    destruct (is_finished c) eqn:Hfin; [|reflexivity]. cbn [andb].
    apply negb_false_iff. rewrite Hrows, existsb_app.
    destruct (existsb (is_mb0_completion uid) (completed_challenges s))
      eqn:Hrec; [reflexivity|]. cbn [orb].
    assert (Hin : In uid (map cc_user_id rows)).
    { rewrite Hrmap. apply filter_In. split; [eapply in_mb0_users; eauto|].
      unfold to_fix. now rewrite Hfind, Hfin, Hrec. }
    apply in_map_iff in Hin as (row & Huid & Hin).
    apply existsb_exists. exists row. split; [assumption|].
    rewrite Forall_forall in Hrall. unfold is_mb0_completion.
    now rewrite Huid, N.eqb_refl, (Hrall row Hin). }
  repeat (split; [first [assumption|lia]|]).
  split.
  - unfold bonus_ledger. rewrite Hent, filter_app, map_app. f_equal.
    rewrite <- Hemap. f_equal.
    clear Hemap Hent. induction Heall as [|e entries He _ IH]; [reflexivity|].
    cbn [filter]. rewrite He. cbn. now rewrite IH.
  - split; [assumption|]. split; [assumption|]. split; [assumption|].
    split; [exact Hnone|].
    unfold fix_morning_basics_challenges, bind, gets.
    destruct (fix_loop_nothing now (mb0_users s')
                {| fixed_count := 0; completed_count := 0;
                   already_completed_count := 0 |} s')
      as (r2 & Hrun2 & Hf2); [intros id _; apply Hnone|].
    exists r2. split; [exact Hrun2|exact Hf2].
Qed.


(** *** The award of a daily completion *)

Lemma int4_in_range {S} z (s : S) :
  int4_min <= z <= int4_max -> int4 z s = Done z s.
Proof.
  intros [H1 H2]. unfold int4.
  apply Z.leb_le in H1, H2. now rewrite H1, H2.
Qed.

Lemma update_rows_map {R} (p : R -> bool) (f : R -> plpgsql unit R)
    (g : R -> R) rows :
  (forall r, In r rows -> p r = true -> f r tt = Done (g r) tt) ->
  update_rows p f rows tt
  = Done (map (fun r => if p r then g r else r) rows) tt.
Proof.
  induction rows as [|r rows IH]; intros Hf; [reflexivity|].
  cbn [update_rows map]. unfold bind.
  destruct (p r) eqn:Hp.
  - rewrite (Hf r (or_introl eq_refl) Hp).
    rewrite IH by (intros r' Hin; apply Hf; now right). reflexivity.
  - unfold ret at 1.
    rewrite IH by (intros r' Hin; apply Hf; now right). reflexivity.
Qed.

(** The ledger and the users after "get or create challenge record". *)
Lemma advance_challenge_ledger faults now uid name has s n done s' :
  advance_challenge faults now uid name has s = Done (n, done) s' ->
  users s' = users s /\
  exists entries,
    fp_earnings s' = fp_earnings s ++ entries /\
    map fp_amount entries = if done && negb has then [bonus_fp] else [].
Proof.
  unfold advance_challenge. intros H.
  apply bind_done in H as (existing & s0 & Hget & H).
  apply gets_done in Hget as [-> ->].
  destruct (find (is_mb0 uid) (challenges s)) as [c0|].
  - apply bind_done in H as (cnt & s1 & Hint & H).
    apply int4_done in Hint as (-> & -> & Hrange).
    destruct (21 <=? verification_count c0 + 1).
    + apply bind_done in H as ([] & s2 & Hupd & H).
      apply write_stmt_done in Hupd as [_ Hupd]. apply modify_done in Hupd.
      apply bind_done in H as ([] & s3 & Hbonus & H).
      apply ret_done in H as [Heq <-]. inversion Heq; subst n done; clear Heq.
      destruct has; cbn [andb negb].
      * apply ret_done in Hbonus as [_ ->]. subst s2.
        split; [reflexivity|]. exists []. now rewrite app_nil_r.
      * apply bind_done in Hbonus as ([] & s4 & Hins & Hcc).
        apply write_stmt_done in Hins as [_ Hins].
        apply bind_done in Hins as (id & s5 & Hgen & Hins).
        unfold gen_random_uuid in Hgen. inversion Hgen; subst id s5; clear Hgen.
        apply modify_done in Hins.
        assert (Hs3 : users s' = users s4 /\ fp_earnings s' = fp_earnings s4).
        { apply swallow_done in Hcc as [Hcc|[_ ->]]; [|now split].
          apply write_stmt_done in Hcc as [_ Hcc].
          apply bind_done in Hcc as (id & s5 & Hgen & Hcc).
          unfold gen_random_uuid in Hgen.
          inversion Hgen; subst id s5; clear Hgen.
          apply modify_done in Hcc. subst s'. now split. }
        destruct Hs3 as [Hu3 Hl3]. rewrite Hu3, Hl3. subst s4 s2.
        split; [reflexivity|]. eexists. split; reflexivity.
    + apply bind_done in H as ([] & s2 & Hupd & H).
      apply write_stmt_done in Hupd as [_ Hupd]. apply modify_done in Hupd.
      apply ret_done in H as [Heq <-]. inversion Heq; subst n done; clear Heq.
      subst s'. split; [reflexivity|]. exists []. now rewrite app_nil_r.
  - apply bind_done in H as ([] & s2 & Hins & H).
    apply write_stmt_done in Hins as [_ Hins].
    apply bind_done in Hins as (id & s5 & Hgen & Hins).
    unfold gen_random_uuid in Hgen. inversion Hgen; subst id s5; clear Hgen.
    apply modify_done in Hins.
    apply ret_done in H as [Heq <-]. inversion Heq; subst n done; clear Heq.
    subst s'. split; [reflexivity|]. exists []. now rewrite app_nil_r.
Qed.

Lemma ledger_total_app s s' entries :
  fp_earnings s' = fp_earnings s ++ entries ->
  ledger_total s' = ledger_total s + fold_right Z.add 0 (map fp_amount entries).
Proof.
  unfold ledger_total. intros ->. rewrite map_app.
  induction (map fp_amount (fp_earnings s)) as [|x l IH]; cbn; lia.
Qed.

(** X17: when a Morning Basics completion succeeds with no failing statement
    and every user's points leave room for the award, the user's Fuel Points
    rise by the reported amount ([updated_at] is set) and the other users are
    untouched.  The ledger's total rises by the reported amount too, except
    when the challenge is reported completed and [completed_challenges]
    already had the user's row: then it rises by the daily 5 only. *)
Theorem morning_basics_award_credited uid today now s fp n done s1 :
  handle_morning_basics_completion no_faults (Some uid) today now s
  = Done (success fp n done) s1 ->
  (forall u, In u (users s) ->
     int4_min <= fuel_points u /\ fuel_points u + 55 <= int4_max) ->
  users s1 =
    map (fun u => if (u_id u =? uid)%N
                  then {| u_id := u_id u; u_name := u_name u;
                          fuel_points := fuel_points u + fp;
                          updated_at := now |}
                  else u) (users s) /\
  ledger_total s1 =
    ledger_total s +
    (if done && existsb (is_mb0_completion uid) (completed_challenges s)
     then fp_to_award else fp).
Proof.
  intros Hrun Hrange.
  pose proof (handle_success _ _ _ _ _ _ _ _ _ Hrun) as (Hfp & _).
  unfold handle_morning_basics_completion, block in Hrun.
  match type of Hrun with
  | match ?b s with _ => _ end = _ =>
      destruct (b s) as [r' s'|e] eqn:Hbody; [|discriminate]
  end.
  inversion Hrun; subst r' s'; clear Hrun.
  apply bind_done in Hbody as (existing & s0 & Hget & H).
  apply gets_done in Hget as [-> ->].
  destruct (find (is_todays_action uid today) (completed_actions s));
    [now step_done|].
  apply bind_done in H as (name & s0 & Hget & H).
  apply gets_done in Hget as [-> ->].
  apply bind_done in H as (has & s0 & Hget & H).
  apply gets_done in Hget as [Hhas ->].
  apply bind_done in H as ([n0 done0] & s2 & Hadv & H).
  apply bind_done in H as ([] & s3 & Hact & H).
  apply bind_done in H as ([] & s4 & Hearn & H).
  apply bind_done in H as ([] & s5 & Hdaily & H).
  apply bind_done in H as ([] & s6 & Hpoints & H).
  apply ret_done in H as [Heq <-]. cbn [fst snd] in *.
  inversion Heq; subst n0 done0; clear Heq.
  apply advance_challenge_ledger in Hadv as (Hu2 & entries & Hl2 & Hamt).
  apply record_completed_action_done in Hact as (_ & _ & Hu3 & Hl3 & _).
  assert (Hs4 : users s4 = users s3 /\
                exists e, fp_earnings s4 = fp_earnings s3 ++ [e] /\
                          fp_amount e = fp_to_award).
  { unfold record_fp_earning, block, write_stmt, no_faults, bind,
      gen_random_uuid, modify in Hearn.
    inversion Hearn; subst s4. split; [reflexivity|].
    eexists. split; reflexivity. }
  destruct Hs4 as (Hu4 & e & Hl4 & He).
  assert (Hs5 : users s5 = users s4 /\ fp_earnings s5 = fp_earnings s4).
  { unfold update_daily_fp in Hdaily.
    apply swallow_done in Hdaily as [Hdaily|[_ ->]]; [|now split].
    step_done. repeat step_done.
    match type of Hk with
    | (if ?b then _ else _) _ = _ => destruct b
    end.
    - apply update_table_daily_fp_frame in Hk. tauto.
    - step_done. now split. }
  destruct Hs5 as [Hu5 Hl5].
  assert (Hs6 : fp_earnings s1 = fp_earnings s5 /\
                users s1 =
                  map (fun u => if (u_id u =? uid)%N
                                then {| u_id := u_id u; u_name := u_name u;
                                        fuel_points := fuel_points u + fp;
                                        updated_at := now |}
                                else u) (users s5)).
  { unfold update_fuel_points, block, write_stmt, no_faults, update_table
      in Hpoints.
    rewrite (update_rows_map _ _
               (fun u => {| u_id := u_id u; u_name := u_name u;
                            fuel_points := fuel_points u + fp;
                            updated_at := now |})) in Hpoints.
    - inversion Hpoints; subst s1. now split.
    - intros u Hin _. unfold bind.
      assert (Hu : In u (users s)) by congruence.
      destruct (Hrange u Hu) as [Hlo Hhi].
      unfold fp_to_award, bonus_fp, int4_min, int4_max in *.
      rewrite int4_in_range
        by (unfold int4_min, int4_max; lia).
      rewrite int4_in_range
        by (unfold int4_min, int4_max; destruct done; lia).
      unfold ret. subst fp. unfold total_award, fp_to_award, bonus_fp.
      now rewrite <- Z.add_assoc. }
  destruct Hs6 as [Hl6 Hu6].
  try subst fp.
  split; [now rewrite Hu6, Hu5, Hu4, Hu3, Hu2|].
  rewrite (ledger_total_app s5 s1 []) by (now rewrite app_nil_r).
  rewrite (ledger_total_app s4 s5 []) by (now rewrite app_nil_r).
  rewrite (ledger_total_app s3 s4 [e] Hl4).
  rewrite (ledger_total_app s2 s3 []) by (now rewrite app_nil_r).
  rewrite (ledger_total_app s s2 entries Hl2), Hamt.
  cbn [map fold_right]. rewrite He. subst has.
  unfold total_award, fp_to_award, bonus_fp. unfold is_mb0_completion.
  destruct done; cbn [andb negb]; [|cbn; lia].
  destruct (existsb _ _); cbn; lia.
Qed.

Lemma morning_basics_award_credited_witness :
  users day22_db =
    map (fun u => if (MorningBasics.u_id u =? 7)%N
                  then {| u_id := u_id u; u_name := u_name u;
                          fuel_points := fuel_points u + 55;
                          updated_at := 2000 |}
                  else u) (users day21_db) /\
  ledger_total day22_db =
    ledger_total day21_db +
    (if true && existsb (is_mb0_completion 7%N) (completed_challenges day21_db)
     then fp_to_award else 55).
Proof.
  apply (morning_basics_award_credited 7%N (make_date 2025 6 4) 2000
           day21_db 55 22 true day22_db).
  - vm_compute. reflexivity.
  - intros u Hin. cbn in Hin. destruct Hin as [<-|[]].
    vm_compute. split; discriminate.
Defined.

End MorningBasicsMore.

(** * Further properties of the custom-challenge completion *)

Section CustomChallengeMore.
Import CustomChallenge.

Lemma counted_actions s s' cid items :
  challenge_actions s' = challenge_actions s ->
  counted s' cid items = counted s cid items.
Proof.
  intros H. unfold counted. f_equal. f_equal.
  apply filter_ext. intros item. unfold names_action. now rewrite H.
Qed.

(** The loop over the submitted items counts the items that name an action
    of the challenge and stores one row for each of them. *)
Lemma process_actions_count faults cid dcid items : forall n s n' s',
  process_actions faults cid dcid items n s = Done n' s' ->
  n' = n + counted s cid items /\
  Forall (fun i => i <> malformed_action_id) items /\
  users s' = users s /\ fp_earnings s' = fp_earnings s /\
  daily_fp s' = daily_fp s /\ challenge_actions s' = challenge_actions s /\
  custom_challenges s' = custom_challenges s /\
  daily_completions s' = daily_completions s /\
  debug_logs s' = debug_logs s /\
  Z.of_nat (List.length (action_completions s')) =
    Z.of_nat (List.length (action_completions s)) + counted s cid items.
Proof.
  induction items as [|item items IH]; intros n s n' s' H.
  - cbn in H. apply ret_done in H as [-> ->]. unfold counted; cbn.
    repeat split; try lia. constructor.
  - cbn [process_actions] in H.
    apply bind_done in H as (v_action_id & s1 & Hid & H).
    apply bind_done in H as (found & s2 & Hfound & H).
    apply gets_done in Hfound as [-> ->].
    apply bind_done in H as (count & s3 & Hcount & H).
    apply IH in H
      as (-> & Hall & Hu & Hl & Hd & Ha & Hc & Hdc & Hlog & Hlen).
    assert (Hstep :
      s1 = s /\ item <> malformed_action_id /\
      count = n + (if names_action s cid item then 1 else 0) /\
      users s3 = users s /\ fp_earnings s3 = fp_earnings s /\
      daily_fp s3 = daily_fp s /\ challenge_actions s3 = challenge_actions s /\
      custom_challenges s3 = custom_challenges s /\
      daily_completions s3 = daily_completions s /\
      debug_logs s3 = debug_logs s /\
      Z.of_nat (List.length (action_completions s3)) =
        Z.of_nat (List.length (action_completions s)) +
        (if names_action s cid item then 1 else 0)).
    { destruct item as [| |id]; cbn [names_action].
      - apply ret_done in Hid as [-> ->]. apply ret_done in Hcount as [-> ->].
        repeat split; try lia. discriminate.
      - discriminate.
      - apply ret_done in Hid as [-> ->].
        destruct (existsb _ (challenge_actions s)).
        + apply bind_done in Hcount as ([] & s4 & Hins & Hcount).
          apply write_stmt_done in Hins as [_ Hins].
          apply modify_done in Hins. apply int4_done in Hcount as (-> & -> & _).
          subst s4. cbn. rewrite length_app. cbn.
          repeat split; try lia. discriminate.
        + apply ret_done in Hcount as [-> ->].
          repeat split; try lia. discriminate. }
    destruct Hstep
      as (-> & Hitem & -> & Hu3 & Hl3 & Hd3 & Ha3 & Hc3 & Hdc3 & Hlog3 & Hlen3).
    rewrite (counted_actions s s3 cid items Ha3) in *.
    assert (Hcnt : counted s cid (item :: items) =
                   (if names_action s cid item then 1 else 0)
                   + counted s cid items).
    { unfold counted. cbn [filter].
      destruct (names_action s cid item); cbn [List.length]; lia. }
    rewrite Hcnt.
    split; [lia|]. split; [now constructor|].
    repeat (split; [congruence|]). lia.
Qed.


(** A call that succeeds has passed the checks and run the statements that
    follow them. *)
Lemma complete_success faults today now uid cid actions s c s1 :
  complete_custom_challenge_daily faults today now uid cid actions s
  = Done (success c) s1 ->
  exists ch items,
    actions = json_array items /\
    owned_challenge cid uid s = Some ch /\ is_active ch = true /\
    done_today cid today s = false /\
    complete_day faults now today uid cid (json_array items) ch s
    = Done (success c) s1.
Proof.
  unfold complete_custom_challenge_daily, block.
  match goal with |- context [match ?b s with _ => _ end] =>
    destruct (b s) as [r' s'|e] eqn:Hbody end.
  2:{ intros H. unfold log_failure in H. repeat step_done. discriminate. }
  intros H; inversion H; subst r' s'; clear H.
  assert (Hmain : forall actions',
    (found <- gets (owned_challenge cid uid) ;;
     match found with
     | None => ret (failure challenge_not_found)
     | Some v_challenge =>
       if negb (is_active v_challenge)
       then ret (failure challenge_not_active)
       else
         completed_today <- gets (done_today cid today) ;;
         if completed_today : bool
         then ret (failure already_completed_today)
         else complete_day faults now today uid cid actions' v_challenge
     end)%plpgsql s = Done (success c) s1 ->
    exists ch,
      owned_challenge cid uid s = Some ch /\ is_active ch = true /\
      done_today cid today s = false /\
      complete_day faults now today uid cid actions' ch s
      = Done (success c) s1).
  { intros actions' Hrun.
    apply bind_done in Hrun as (found & s0 & Hget & Hrun).
    apply gets_done in Hget as [-> ->].
    destruct (owned_challenge cid uid s) as [ch|]; [|now step_done].
    destruct (is_active ch) eqn:Hactive; cbn [negb] in Hrun; [|now step_done].
    apply bind_done in Hrun as (today_done & s0 & Hget & Hrun).
    apply gets_done in Hget as [-> ->].
    destruct (done_today cid today s) eqn:Hdone; [now step_done|].
    exists ch. auto. }
  destruct actions as [| |items].
  - now step_done.
  - apply Hmain in Hbody as (ch & _ & _ & _ & Hday).
    unfold complete_day in Hday. repeat step_done. discriminate.
  - apply Hmain in Hbody as (ch & Hown & Hact & Hdone & Hday).
    exists ch, items. auto.
Qed.

(** The statements from "Create daily completion record" to the update of
    that record. *)
Lemma complete_day_steps faults now today uid cid items ch s c s1 :
  complete_day faults now today uid cid (json_array items) ch s
  = Done (success c) s1 ->
  let n := counted s cid items in
  r_actions_completed c = n /\
  r_minimum_met c = (daily_minimum ch <=? n) /\
  Forall (fun i => i <> malformed_action_id) items /\
  exists s5,
    users s5 = users s /\ fp_earnings s5 = fp_earnings s /\
    daily_fp s5 = daily_fp s /\
    custom_challenges s5 = custom_challenges s /\
    if daily_minimum ch <=? n then
      exists awarded,
        award_daily faults now today uid cid ch s5 = Done awarded s1 /\
        r_fp_earned c = fst (fst (fst awarded)) /\
        r_is_completed c = snd (fst (fst awarded)) /\
        r_total_completions c = snd (fst awarded) /\
        r_progress c = snd awarded
    else
      s1 = s5 /\ r_fp_earned c = 0 /\ r_is_completed c = false /\
      r_total_completions c = 0.
Proof.
  unfold complete_day. intros H. cbn zeta.
  apply bind_done in H as (dcid & s2 & Hgen & H).
  unfold gen_random_uuid in Hgen. inversion Hgen; subst dcid s2; clear Hgen.
  apply bind_done in H as ([] & s3 & Hins & H).
  apply write_stmt_done in Hins as [_ Hins]. apply modify_done in Hins.
  apply bind_done in H as (n & s4 & Hcnt & H).
  apply bind_done in H as ([] & s5 & Hupd & H).
  apply write_stmt_done in Hupd as [_ Hupd]. apply modify_done in Hupd.
  apply bind_done in H as (awarded & s6 & Haw & H).
  apply ret_done in H as [Heq <-]. inversion Heq; subst c; clear Heq.
  cbn [r_actions_completed r_minimum_met r_fp_earned r_is_completed
       r_total_completions r_progress].
  apply process_actions_count in Hcnt
    as (Hn & Hall & Hu & Hl & Hd & Ha & Hc & _).
  assert (Hsame : counted s3 cid items = counted s cid items).
  { apply counted_actions. now subst s3. }
  rewrite Hsame in Hn. cbn in Hn. subst n.
  split; [reflexivity|]. split; [reflexivity|]. split; [exact Hall|].
  exists s5. subst s5 s3.
  cbn [users fp_earnings daily_fp custom_challenges set_daily_completions]
    in *.
  split; [exact Hu|]. split; [exact Hl|]. split; [exact Hd|].
  split; [exact Hc|].
  destruct (daily_minimum ch <=? counted s cid items).
  - exists awarded. auto.
  - apply ret_done in Haw as [-> ->]. auto.
Qed.

(** X18: a submission accepted with fewer valid actions than the daily
    minimum earns nothing and completes nothing: users, ledger, [daily_fp]
    and the challenges are unchanged.  But it uses the day: any further
    submission for the challenge on that day is refused as already completed
    today (or as invalid JSON), whatever its actions. *)
Theorem below_minimum_uses_the_day faults today now uid cid actions s c s1 :
  complete_custom_challenge_daily faults today now uid cid actions s
  = Done (success c) s1 ->
  r_minimum_met c = false ->
  r_fp_earned c = 0 /\ r_is_completed c = false /\
  users s1 = users s /\ fp_earnings s1 = fp_earnings s /\
  daily_fp s1 = daily_fp s /\ custom_challenges s1 = custom_challenges s /\
  forall faults2 now2 actions2,
    complete_custom_challenge_daily faults2 today now2 uid cid actions2 s1
    = Done (failure (match actions2 with
                     | not_json => invalid_json
                     | _ => already_completed_today
                     end)) s1.
Proof.
  intros Hrun Hmin.
  pose proof (complete_cases _ _ _ _ _ _ _ _ _ Hrun)
    as [(e & Hr & _)|[(e & Hr & _)|(c' & ch1 & Hr & Hown1 & Hact1 & Hdone1)]];
    try discriminate.
  inversion Hr; subst c'; clear Hr.
  apply complete_success in Hrun
    as (ch & items & -> & Hown & Hactive & Hdone & Hday).
  apply complete_day_steps in Hday as (_ & Hmet & _ & s5 & Hu & Hl & Hd & Hc & Haw).
  cbn zeta in *. rewrite Hmin in Hmet. rewrite <- Hmet in Haw.
  destruct Haw as (<- & Hfp & Hcomp & _).
  repeat (split; [assumption|]).
  intros faults2 now2 actions2.
  rewrite (complete_again faults2 today now2 uid cid actions2 s1 ch1 Hown1 Hdone1).
  rewrite Hact1, Hcomp. cbn [negb]. unfold second_answer.
  now destruct actions2.
Qed.

Lemma below_minimum_uses_the_day_witness :
  let s1 := state_after
              (complete_custom_challenge_daily no_faults (make_date 2025 6 3)
                 1000 7%N 3%N three_actions) strict_db in
  users s1 = users strict_db /\ fp_earnings s1 = fp_earnings strict_db /\
  complete_custom_challenge_daily no_faults (make_date 2025 6 3) 2000 7%N 3%N
    one_action s1 = Done (failure already_completed_today) s1.
Proof.
  cbn zeta.
  destruct (below_minimum_uses_the_day no_faults (make_date 2025 6 3) 1000
              7%N 3%N three_actions strict_db
              {| r_daily_completion_id := 100%N; r_minimum_met := false;
                 r_actions_completed := 2; r_fp_earned := 0;
                 r_is_completed := false; r_total_completions := 0;
                 r_progress := 0 |}
              (state_after
                 (complete_custom_challenge_daily no_faults
                    (make_date 2025 6 3) 1000 7%N 3%N three_actions) strict_db))
    as (_ & _ & Hu & Hl & _ & _ & Hagain).
  - vm_compute. reflexivity.
  - reflexivity.
  - split; [exact Hu|]. split; [exact Hl|].
    exact (Hagain no_faults 2000 one_action).
Defined.

(** X19: in a successful submission the text was a JSON array with no
    malformed action id; [actions_completed] is the number of its items that
    name an action of the challenge, an action named twice counting twice;
    and the minimum is met exactly when that number reaches the challenge's
    daily minimum. *)
Theorem actions_completed_counts_items
    faults today now uid cid actions s c s1 :
  complete_custom_challenge_daily faults today now uid cid actions s
  = Done (success c) s1 ->
  exists items ch,
    actions = json_array items /\
    owned_challenge cid uid s = Some ch /\
    Forall (fun i => i <> malformed_action_id) items /\
    r_actions_completed c = counted s cid items /\
    r_minimum_met c = (daily_minimum ch <=? counted s cid items).
Proof.
  intros Hrun.
  apply complete_success in Hrun
    as (ch & items & -> & Hown & _ & _ & Hday).
  apply complete_day_steps in Hday as (Hn & Hmet & Hall & _).
  exists items, ch. auto.
Qed.

Lemma actions_completed_counts_items_witness :
  exists items ch,
    three_actions = json_array items /\
    owned_challenge 3%N 7%N custom_db = Some ch /\
    Forall (fun i => i <> malformed_action_id) items /\
    2 = counted custom_db 3%N items /\
    true = (daily_minimum ch <=? counted custom_db 3%N items).
Proof.
  apply (actions_completed_counts_items no_faults (make_date 2025 6 3) 1000
           7%N 3%N three_actions custom_db
           {| r_daily_completion_id := 100%N; r_minimum_met := true;
              r_actions_completed := 2; r_fp_earned := 10;
              r_is_completed := false; r_total_completions := 1;
              r_progress := inject_Z 50 |}
           (state_after
              (complete_custom_challenge_daily no_faults (make_date 2025 6 3)
                 1000 7%N 3%N three_actions) custom_db)).
  vm_compute. reflexivity.
Defined.


(** *** The award of a day that meets the minimum *)

Lemma update_rows_done_map {R} (p : R -> bool) (f : R -> plpgsql unit R)
    (g : R -> R) rows :
  (forall r r' u, f r tt = Done r' u -> r' = g r) ->
  forall rows' u, update_rows p f rows tt = Done rows' u ->
                  rows' = map (fun r => if p r then g r else r) rows.
Proof.
  intros Hf. induction rows as [|r rows IH]; intros rows' u H; cbn in H.
  - step_done. reflexivity.
  - apply bind_done in H as (r' & [] & Hr & H).
    apply bind_done in H as (rest' & [] & Hrest & H).
    apply ret_done in H as [-> _]. cbn [map]. f_equal.
    + destruct (p r); [eapply Hf; eauto|]. now step_done.
    + eapply IH; eauto.
Qed.

Lemma update_rows_find {R} (p q : R -> bool) (f : R -> plpgsql unit R) rows :
  (forall r r' u, f r tt = Done r' u -> q r' = q r) ->
  forall rows' u r0,
    update_rows p f rows tt = Done rows' u ->
    find q rows = Some r0 ->
    exists r0', find q rows' = Some r0' /\
                (if p r0 then f r0 tt = Done r0' tt else r0' = r0).
Proof.
  intros Hq. induction rows as [|r rows IH]; intros rows' u r0 H Hfind;
    [discriminate|].
  cbn in H.
  apply bind_done in H as (r' & [] & Hr & H).
  apply bind_done in H as (rest' & [] & Hrest & H).
  apply ret_done in H as [-> _]. cbn [find] in *.
  assert (Hq' : q r' = q r).
  { destruct (p r); [eapply Hq; eauto|]. now step_done. }
  rewrite Hq'. destruct (q r).
  - inversion Hfind; subst r0. exists r'. split; [reflexivity|].
    destruct (p r); [assumption|]. now step_done.
  - eapply IH; eauto.
Qed.

Lemma earned_total_app s s' entries :
  fp_earnings s' = fp_earnings s ++ entries ->
  earned_total s' = earned_total s + fold_right Z.add 0 (map fp_amount entries).
Proof.
  unfold earned_total. intros ->. rewrite map_app.
  induction (map fp_amount (fp_earnings s)) as [|x l IH]; cbn; lia.
Qed.

Lemma progress_percent_le {S} total target (s : S) q s' :
  progress_percent total target s = Done q s' -> (q <= inject_Z 100)%Q.
Proof.
  unfold progress_percent. destruct (target =? 0); [discriminate|].
  intros H. apply ret_done in H as [-> _]. rewrite Qred_correct.
  destruct (Qle_bool _ _) eqn:E.
  - now apply Qle_bool_iff.
  - apply Qle_refl.
Qed.

Lemma owned_is_found cid uid s ch :
  owned_challenge cid uid s = Some ch ->
  find (fun c => (cc_id c =? cid)%N) (custom_challenges s) <> None /\
  cc_id ch = cid.
Proof.
  unfold owned_challenge. intros Hown.
  pose proof (find_some _ _ Hown) as [Hin Hp].
  apply andb_true_iff in Hp as [Hid _]. split; [|now apply N.eqb_eq].
  intros Hnone. eapply find_none in Hnone; [|exact Hin].
  cbn in Hnone. congruence.
Qed.

(** What the award branch does. *)
Lemma award_daily_done faults now today uid cid ch s fp completed total
    percent s' :
  award_daily faults now today uid cid ch s
  = Done (fp, completed, total, percent) s' ->
  forall c0, find (fun c => (cc_id c =? cid)%N) (custom_challenges s) = Some c0 ->
  total = total_completions c0 + 1 /\
  (percent <= inject_Z 100)%Q /\
  completed = (target_completions ch <=? total) /\
  fp = fp_daily_reward ch + (if completed then fp_completion_reward ch else 0) /\
  users s' = map (credited uid fp) (users s) /\
  earned_total s' = earned_total s + fp.
Proof.
  unfold award_daily. intros H c0 Hfind.
  apply bind_done in H as ([] & s1 & Hearn & H).
  apply bind_done in H as ([] & s2 & Hdaily & H).
  apply bind_done in H as ([total' percent'] & s3 & Hprog & H).
  cbn [fst snd] in H.
  (* the ledger entry of the day *)
  unfold record_daily_earning in Hearn.
  apply write_stmt_done in Hearn as [_ Hearn]. apply modify_done in Hearn.
  (* the daily total *)
  assert (Hs2 : users s2 = users s1 /\ fp_earnings s2 = fp_earnings s1 /\
                custom_challenges s2 = custom_challenges s1).
  { unfold record_daily_fp in Hdaily.
    apply bind_done in Hdaily as (v & s0 & Hget & Hdaily).
    apply gets_done in Hget as [-> ->].
    destruct (find _ (daily_fp s1)).
    - apply write_stmt_done in Hdaily as [_ Hdaily].
      apply update_table_done in Hdaily as (rows' & _ & ->). now cbn.
    - apply write_stmt_done in Hdaily as [_ Hdaily].
      apply bind_done in Hdaily as (id & s0 & Hgen & Hdaily).
      unfold gen_random_uuid in Hgen. inversion Hgen; subst id s0; clear Hgen.
      apply modify_done in Hdaily. subst s2. now cbn. }
  destruct Hs2 as (Hu2 & Hl2 & Hc2).
  (* the progress of the challenge *)
  assert (Hs3 : users s3 = users s2 /\ fp_earnings s3 = fp_earnings s2 /\
                total' = total_completions c0 + 1 /\
                (percent' <= inject_Z 100)%Q).
  { unfold update_progress in Hprog.
    apply bind_done in Hprog as ([] & s4 & Hupd & Hprog).
    apply write_stmt_done in Hupd as [_ Hupd].
    apply update_table_done in Hupd as (rows' & Hrows & ->).
    apply bind_done in Hprog as (updated & s0 & Hget & Hprog).
    apply gets_done in Hget as [-> ->].
    apply ret_done in Hprog as [Heq ->]. inversion Heq; clear Heq.
    cbn [users fp_earnings custom_challenges set_custom_challenges].
    split; [reflexivity|]. split; [reflexivity|].
    assert (Hc0 : find (fun c => (cc_id c =? cid)%N) (custom_challenges s2)
                  = Some c0).
    { rewrite Hc2. subst s1. exact Hfind. }
    pose proof (fun Hq => update_rows_find _ (fun c => (cc_id c =? cid)%N)
                            _ _ Hq _ _ _ Hrows Hc0) as Hfound.
    destruct Hfound as (c0' & -> & Hf).
    { intros r r' u Hr. cbn beta in Hr. repeat step_done.
      unfold progress_percent in *.
      destruct (target_completions r =? 0); [discriminate|].
      repeat step_done. reflexivity. }
    pose proof (find_some _ _ Hc0) as [_ Hid]. cbn beta in Hid.
    rewrite Hid in Hf.
    apply bind_done in Hf as (t & [] & Hint & Hf).
    apply int4_done in Hint as (-> & _ & _).
    apply bind_done in Hf as (q & [] & Hq & Hf).
    apply ret_done in Hf as [-> _]. cbn [total_completions progress].
    split; [reflexivity|]. eapply progress_percent_le; eauto. }
  destruct Hs3 as (Hu3 & Hl3 & -> & Hle).
  assert (Hcredit : forall v s4 s5,
            credit_user faults uid v s4 = Done tt s5 ->
            users s5 = map (credited uid v) (users s4) /\
            fp_earnings s5 = fp_earnings s4).
  { intros v s4 s5 Hcr. unfold credit_user in Hcr.
    apply write_stmt_done in Hcr as [_ Hcr].
    apply update_table_done in Hcr as (rows' & Hrows & ->).
    cbn [users fp_earnings set_users]. split; [|reflexivity].
    apply (update_rows_done_map _ _
             (fun u => {| u_id := u_id u; u_name := u_name u;
                          fuel_points := fuel_points u + v;
                          days_since_fp := 0 |})) in Hrows.
    - exact Hrows.
    - intros r r' u Hr. cbn beta in Hr. repeat step_done. reflexivity. }
  destruct (target_completions ch <=? total_completions c0 + 1) eqn:Hfull.
  - apply bind_done in H as (v & s4 & Hcomp & H).
    apply bind_done in H as ([] & s5 & Hcr & H).
    apply ret_done in H as [Heq <-].
    inversion Heq; subst fp completed total percent; clear Heq.
    apply Hcredit in Hcr as [Hu5 Hl5].
    unfold complete_challenge in Hcomp.
    apply bind_done in Hcomp as ([] & s6 & Hst & Hcomp).
    apply write_stmt_done in Hst as [_ Hst]. apply modify_done in Hst.
    apply bind_done in Hcomp as ([] & s7 & Hbonus & Hcomp).
    apply write_stmt_done in Hbonus as [_ Hbonus]. apply modify_done in Hbonus.
    apply bind_done in Hcomp as ([] & s8 & Hdf & Hcomp).
    apply write_stmt_done in Hdf as [_ Hdf].
    apply update_table_done in Hdf as (rows' & _ & ->).
    apply int4_done in Hcomp as (-> & -> & _).
    split; [reflexivity|]. split; [exact Hle|]. split; [now rewrite Hfull|].
    split; [reflexivity|]. split.
    + rewrite Hu5. cbn [users set_daily_fp]. subst s7 s6.
      cbn [users set_fp_earnings set_custom_challenges].
      rewrite Hu3, Hu2. subst s1. reflexivity.
    + unfold earned_total. rewrite Hl5. cbn [fp_earnings set_daily_fp].
      subst s7 s6. cbn [fp_earnings set_fp_earnings set_custom_challenges].
      rewrite Hl3, Hl2. subst s1. cbn [fp_earnings set_fp_earnings].
      rewrite !map_app. cbn [map fp_amount].
      induction (map fp_amount (fp_earnings s)) as [|x l IH]; cbn; lia.
  - apply bind_done in H as ([] & s5 & Hcr & H).
    apply ret_done in H as [Heq <-].
    inversion Heq; subst fp completed total percent; clear Heq.
    apply Hcredit in Hcr as [Hu5 Hl5].
    split; [reflexivity|]. split; [exact Hle|]. split; [now rewrite Hfull|].
    split; [lia|]. split.
    + rewrite Hu5, Hu3, Hu2. subst s1. reflexivity.
    + unfold earned_total. rewrite Hl5, Hl3, Hl2. subst s1.
      cbn [fp_earnings set_fp_earnings]. rewrite map_app. cbn [map fp_amount].
      induction (map fp_amount (fp_earnings s)) as [|x l IH]; cbn; lia.
Qed.

(** X20: in a successful submission that meets the minimum, the reported
    total is the stored total plus one, the challenge is reported completed
    exactly when that total reaches the target, and the Fuel Points earned
    are the daily reward plus, on completion, the completion reward.  The
    user's points rise by that amount and [days_since_fp] is reset, the
    ledger's total rises by the same amount, and the reported progress is at
    most 100. *)
Theorem custom_award_credited faults today now uid cid actions s c s1 :
  complete_custom_challenge_daily faults today now uid cid actions s
  = Done (success c) s1 ->
  r_minimum_met c = true ->
  exists ch c0,
    owned_challenge cid uid s = Some ch /\
    find (fun x => (cc_id x =? cid)%N) (custom_challenges s) = Some c0 /\
    r_total_completions c = total_completions c0 + 1 /\
    r_is_completed c = (target_completions ch <=? r_total_completions c) /\
    r_fp_earned c =
      fp_daily_reward ch +
      (if r_is_completed c then fp_completion_reward ch else 0) /\
    users s1 = map (credited uid (r_fp_earned c)) (users s) /\
    earned_total s1 = earned_total s + r_fp_earned c /\
    (r_progress c <= inject_Z 100)%Q.
Proof.
  intros Hrun Hmin.
  apply complete_success in Hrun
    as (ch & items & -> & Hown & _ & _ & Hday).
  apply complete_day_steps in Hday
    as (_ & Hmet & _ & s5 & Hu & Hl & _ & Hc & Haw).
  cbn zeta in *. rewrite Hmin in Hmet. rewrite <- Hmet in Haw.
  destruct Haw as ([[[fp completed] total] percent] & Haw & Hfp & Hcomp
                   & Htot & Hper).
  cbn [fst snd] in *.
  destruct (owned_is_found _ _ _ _ Hown) as [Hsome _].
  destruct (find (fun x => (cc_id x =? cid)%N) (custom_challenges s))
    as [c0|] eqn:Hfind; [|contradiction].
  assert (Hfind5 : find (fun x => (cc_id x =? cid)%N) (custom_challenges s5)
                   = Some c0) by (now rewrite Hc).
  destruct (award_daily_done _ _ _ _ _ _ _ _ _ _ _ _ Haw c0 Hfind5)
    as (Htotal & Hle & Hcompleted & Hfp' & Husers & Hledger).
  exists ch, c0. rewrite Hfp, Hcomp, Htot, Hper.
  split; [exact Hown|]. split; [reflexivity|].
  split; [exact Htotal|]. split; [exact Hcompleted|].
  split; [exact Hfp'|]. split; [now rewrite Husers, Hu|].
  split; [|exact Hle].
  rewrite Hledger. unfold earned_total. now rewrite Hl.
Qed.


Lemma custom_award_credited_witness :
  let c := {| r_daily_completion_id := 100%N; r_minimum_met := true;
              r_actions_completed := 1; r_fp_earned := 10;
              r_is_completed := false; r_total_completions := 1;
              r_progress := inject_Z 50 |} in
  exists ch c0,
    owned_challenge 3%N 7%N custom_db = Some ch /\
    find (fun x => (cc_id x =? 3)%N) (custom_challenges custom_db) = Some c0 /\
    r_total_completions c = total_completions c0 + 1 /\
    r_is_completed c = (target_completions ch <=? r_total_completions c) /\
    r_fp_earned c =
      fp_daily_reward ch +
      (if r_is_completed c then fp_completion_reward ch else 0) /\
    users custom_day1_db = map (credited 7%N (r_fp_earned c)) (users custom_db) /\
    earned_total custom_day1_db = earned_total custom_db + r_fp_earned c /\
    (r_progress c <= inject_Z 100)%Q.
Proof.
  cbn zeta.
  apply (custom_award_credited no_faults (make_date 2025 6 3) 1000 7%N 3%N
           one_action custom_db).
  - vm_compute. reflexivity.
  - reflexivity.
Defined.

(** *** A challenge with a target of zero days *)

Lemma update_rows_raises {R} (p : R -> bool) (f : R -> plpgsql unit R) rows r :
  In r rows -> p r = true -> (forall r' u, f r tt <> Done r' u) ->
  forall rows' u, update_rows p f rows tt <> Done rows' u.
Proof.
  intros Hin Hp Hf. induction rows as [|x rows IH]; [destruct Hin|].
  intros rows' u H. cbn in H.
  apply bind_done in H as (x' & [] & Hx & H).
  apply bind_done in H as (rest' & [] & Hrest & H).
  destruct Hin as [->|Hin].
  - rewrite Hp in Hx. now apply Hf in Hx.
  - now apply IH in Hrest.
Qed.

(** X21: for an active challenge whose target is 0, a submission that meets
    the minimum on a day not yet completed fails with an SQL error (the
    progress update divides by the target): the routine answers with the
    error, keeps nothing of the submission and adds one row to
    [debug_logs]. *)
Theorem zero_target_fails faults today now uid cid items s ch :
  owned_challenge cid uid s = Some ch -> is_active ch = true ->
  done_today cid today s = false ->
  target_completions ch = 0 ->
  daily_minimum ch <= counted s cid items ->
  faults insert_debug_log = false ->
  exists e,
    complete_custom_challenge_daily faults today now uid cid
      (json_array items) s
    = Done (failure (sql_error e))
        (set_debug_logs (fun l => l ++ [failure_log cid e]) s).
Proof.
  intros Hown Hactive Hdone Htarget Hmin Hlog.
  unfold complete_custom_challenge_daily, block, bind at 1, gets at 1.
  rewrite Hown, Hactive. cbn [negb]. unfold bind at 1, gets at 1.
  rewrite Hdone.
  destruct (complete_day faults now today uid cid (json_array items) ch s)
    as [r s1|e] eqn:Hday.
  2:{ exists e. unfold log_failure, write_stmt, bind, modify, ret.
      now rewrite Hlog. }
  exfalso.
  destruct (complete_day_done _ _ _ _ _ _ _ _ _ _ Hday ch Hown)
    as (c & _ & -> & _).
  apply complete_day_steps in Hday as (_ & _ & _ & s5 & _ & _ & _ & Hc & Haw).
  cbn zeta in Haw. apply Z.leb_le in Hmin. rewrite Hmin in Haw.
  destruct Haw as (awarded & Haw & _).
  unfold award_daily in Haw.
  apply bind_done in Haw as ([] & s2 & Hearn & Haw).
  apply bind_done in Haw as ([] & s3 & Hdaily & Haw).
  apply bind_done in Haw as (updated & s4 & Hprog & _).
  assert (Hcc : custom_challenges s3 = custom_challenges s).
  { rewrite <- Hc.
    unfold record_daily_earning in Hearn.
    apply write_stmt_done in Hearn as [_ Hearn]. apply modify_done in Hearn.
    unfold record_daily_fp in Hdaily.
    apply bind_done in Hdaily as (v & s0 & Hget & Hdaily).
    apply gets_done in Hget as [-> ->].
    destruct (find _ (daily_fp s2)).
    - apply write_stmt_done in Hdaily as [_ Hdaily].
      apply update_table_done in Hdaily as (rows0 & _ & ->).
      now subst s2.
    - apply write_stmt_done in Hdaily as [_ Hdaily].
      apply bind_done in Hdaily as (id & s0 & Hgen & Hdaily).
      unfold gen_random_uuid in Hgen. inversion Hgen; subst id s0; clear Hgen.
      apply modify_done in Hdaily. now subst s3 s2. }
  unfold update_progress in Hprog.
  apply bind_done in Hprog as ([] & s6 & Hupd & _).
  apply write_stmt_done in Hupd as [_ Hupd].
  apply update_table_done in Hupd as (rows' & Hrows & _).
  assert (Hin : exists ch', In ch' (custom_challenges s3) /\
                            cc_id ch' = cid /\ target_completions ch' = 0).
  { rewrite Hcc. exists ch.
    unfold owned_challenge in Hown. apply find_some in Hown as [Hin Hp].
    apply andb_true_iff in Hp as [Hid _]. apply N.eqb_eq in Hid. auto. }
  destruct Hin as (ch' & Hin & Hid & Hzero).
  eapply update_rows_raises in Hrows; [exact Hrows|exact Hin| |].
  - cbn beta. now apply N.eqb_eq.
  - intros r' u Hr. cbn beta in Hr.
    apply bind_done in Hr as (t & [] & _ & Hr).
    apply bind_done in Hr as (q & [] & Hq & _).
    unfold progress_percent in Hq. rewrite Hzero in Hq. discriminate.
Qed.

Lemma zero_target_fails_witness :
  exists e,
    complete_custom_challenge_daily no_faults (make_date 2025 6 3) 1000 7%N
      3%N (json_array [action 11%N]) zero_target_db
    = Done (failure (sql_error e))
        (set_debug_logs (fun l => l ++ [failure_log 3%N e]) zero_target_db).
Proof.
  eapply (zero_target_fails no_faults (make_date 2025 6 3) 1000 7%N 3%N
            [action 11%N] zero_target_db);
    [vm_compute; reflexivity | reflexivity | reflexivity | reflexivity
    | vm_compute; discriminate | reflexivity].
Defined.

End CustomChallengeMore.

(** * Further properties of the daily insight snapshot *)

Section InsightsMore.
Import Insights.

Lemma count_into_done {A} (rows : list A) (s : unit) n s' :
  count_into rows s = Done n s' -> n = Z.of_nat (List.length rows).
Proof. unfold count_into. intros H. now apply int4_done in H as (-> & _). Qed.

(** The counters of a snapshot. *)
Lemma compute_metrics_counts p_date t m u :
  compute_metrics p_date t tt = Done m u ->
  total_boosts_completed m =
    Z.of_nat (List.length (filter (Z.eqb p_date) (completed_boosts t))) /\
  total_lifetime_boosts m = Z.of_nat (List.length (completed_boosts t)) /\
  total_challenges_completed m =
    Z.of_nat (List.length (filter (on_date p_date) (completed_challenges t))) /\
  total_lifetime_challenges m =
    Z.of_nat (List.length (completed_challenges t)) /\
  total_quests_completed m =
    Z.of_nat (List.length (filter (on_date p_date) (completed_quests t))) /\
  total_lifetime_quests m = Z.of_nat (List.length (completed_quests t)) /\
  total_chat_messages m =
    Z.of_nat (List.length
      (filter (fun x => on_date p_date (cm_created_at x)) (chat_messages t))) /\
  total_lifetime_chat_messages m = Z.of_nat (List.length (chat_messages t)) /\
  total_verification_posts m =
    Z.of_nat (List.length
      (filter (fun x => on_date p_date (cm_created_at x) && is_verification x)
              (chat_messages t))) /\
  total_lifetime_verification_posts m =
    Z.of_nat (List.length (filter is_verification (chat_messages t))) /\
  challenge_actions m =
    Z.of_nat (List.length
      (filter (fun a => (ca_completed_date a =? p_date) &&
                        String.eqb (action_id a) "morning_basics_daily")
              (completed_actions t))) +
    Z.of_nat (List.length
      (filter (fun a => (ca_completed_date a =? p_date) &&
                        negb (String.eqb (action_id a) "morning_basics_daily"))
              (completed_actions t))) /\
  total_users m = Z.of_nat (List.length (users t)) /\
  new_users m =
    Z.of_nat (List.length
      (filter (fun x => on_date p_date (u_created_at x)) (users t))).
Proof.
  unfold compute_metrics. intros H.
  repeat (cbv zeta beta in H;
          match type of H with
          | bind (count_into _) _ _ = _ =>
              let n := fresh "n" in let Hn := fresh "Hn" in
              apply bind_done in H as (n & ? & Hn & H);
              apply count_into_done in Hn
          | bind (int4 _) _ _ = _ =>
              let n := fresh "n" in let Hn := fresh "Hn" in
              apply bind_done in H as (n & ? & Hn & H);
              apply int4_done in Hn as (Hn & _ & _)
          | bind _ _ _ = _ => apply bind_done in H as (? & ? & _ & H)
          end).
  cbv zeta beta in H. apply ret_done in H as [-> _].
  cbn [total_boosts_completed total_lifetime_boosts total_challenges_completed
       total_lifetime_challenges total_quests_completed total_lifetime_quests
       total_chat_messages total_lifetime_chat_messages
       total_verification_posts total_lifetime_verification_posts
       challenge_actions total_users new_users].
  subst. repeat split; reflexivity.
Qed.


Lemma filter_length_le {A} (p : A -> bool) l :
  Z.of_nat (List.length (filter p l)) <= Z.of_nat (List.length l).
Proof.
  induction l as [|x l IH]; cbn [filter List.length]; [lia|].
  destruct (p x); cbn [List.length]; lia.
Qed.

Lemma filter_and_length_le {A} (p q : A -> bool) l :
  Z.of_nat (List.length (filter (fun x => p x && q x) l))
  <= Z.of_nat (List.length (filter q l)) /\
  Z.of_nat (List.length (filter (fun x => p x && q x) l))
  <= Z.of_nat (List.length (filter p l)).
Proof.
  induction l as [|x l IH]; cbn [filter List.length]; [lia|].
  destruct (p x), (q x); cbn [andb List.length]; lia.
Qed.

Lemma filter_split_length {A} (p q : A -> bool) l :
  Z.of_nat (List.length (filter (fun x => p x && q x) l)) +
  Z.of_nat (List.length (filter (fun x => p x && negb (q x)) l))
  = Z.of_nat (List.length (filter p l)).
Proof.
  induction l as [|x l IH]; cbn [filter List.length]; [lia|].
  destruct (p x), (q x); cbn [andb negb List.length]; lia.
Qed.

(** What a run of the routine stores. *)
Lemma calculate_stores p_date s s1 :
  calculate_daily_user_insights p_date s = Done true s1 ->
  exists m,
    compute_metrics p_date (src s) tt = Done m tt /\
    stored p_date s1 = Some m /\
    src s1 = src s /\
    other_rows p_date s1 = other_rows p_date s.
Proof.
  unfold calculate_daily_user_insights, stored, other_rows. intros H.
  destruct (compute_metrics p_date (src s) tt) as [m []|e] eqn:Hm;
    [|discriminate].
  exists m. split; [reflexivity|].
  destruct (find (fun r => in_date r =? p_date) (all_user_insights s))
    as [r|] eqn:Hfind; inversion H; subst s1; clear H;
    cbn [src all_user_insights].
  - rewrite (find_update_existing _ m _ _ Hfind). cbn [option_map in_metrics].
    split; [reflexivity|]. split; [reflexivity|].
    clear Hfind. induction (all_user_insights s) as [|x rows IH];
      [reflexivity|].
    cbn [update_existing]. destruct (in_date x =? p_date) eqn:E.
    + cbn [filter in_date]. now rewrite E.
    + cbn [filter]. now rewrite E, IH.
  - destruct (find_appended p_date m _ Hfind) as [-> _].
    cbn [option_map in_metrics].
    split; [reflexivity|]. split; [reflexivity|].
    rewrite filter_app. cbn [filter in_date]. rewrite Z.eqb_refl.
    cbn [negb]. apply app_nil_r.
Qed.

(** X22: in a stored snapshot the counts of the day never exceed the
    lifetime counts (boosts, challenges, quests, chat messages, verification
    posts), verification posts never exceed chat messages, new users never
    exceed total users, and none of them is negative. *)
Theorem snapshot_daily_within_lifetime p_date s s1 :
  calculate_daily_user_insights p_date s = Done true s1 ->
  exists m,
    stored p_date s1 = Some m /\
    0 <= total_boosts_completed m <= total_lifetime_boosts m /\
    0 <= total_challenges_completed m <= total_lifetime_challenges m /\
    0 <= total_quests_completed m <= total_lifetime_quests m /\
    0 <= total_verification_posts m <= total_chat_messages m /\
    total_chat_messages m <= total_lifetime_chat_messages m /\
    total_verification_posts m <= total_lifetime_verification_posts m /\
    total_lifetime_verification_posts m <= total_lifetime_chat_messages m /\
    0 <= new_users m <= total_users m.
Proof.
  intros H. apply calculate_stores in H as (m & Hm & Hst & _).
  exists m. split; [exact Hst|].
  apply compute_metrics_counts in Hm
    as (-> & -> & -> & -> & -> & -> & -> & -> & -> & -> & _ & -> & ->).
  pose proof (filter_length_le (Z.eqb p_date) (completed_boosts (src s))).
  pose proof (filter_length_le (on_date p_date) (completed_challenges (src s))).
  pose proof (filter_length_le (on_date p_date) (completed_quests (src s))).
  pose proof (filter_length_le (fun x => on_date p_date (cm_created_at x))
                (chat_messages (src s))).
  pose proof (filter_length_le is_verification (chat_messages (src s))).
  pose proof (filter_length_le (fun x => on_date p_date (u_created_at x))
                (users (src s))).
  pose proof (filter_and_length_le
                (fun x => on_date p_date (cm_created_at x)) is_verification
                (chat_messages (src s))) as [? ?].
  cbv beta in *. repeat split; first [lia | assumption].
Qed.

Lemma snapshot_daily_within_lifetime_witness :
  exists m,
    stored 5 sample_db_day5 = Some m /\
    0 <= total_boosts_completed m <= total_lifetime_boosts m /\
    0 <= total_challenges_completed m <= total_lifetime_challenges m /\
    0 <= total_quests_completed m <= total_lifetime_quests m /\
    0 <= total_verification_posts m <= total_chat_messages m /\
    total_chat_messages m <= total_lifetime_chat_messages m /\
    total_verification_posts m <= total_lifetime_verification_posts m /\
    total_lifetime_verification_posts m <= total_lifetime_chat_messages m /\
    0 <= new_users m <= total_users m.
Proof.
  apply (snapshot_daily_within_lifetime 5 sample_db sample_db_day5).
  vm_compute. reflexivity.
Defined.

(** X23: a snapshot run leaves the source tables and the rows of the other
    dates as they were, and the metrics stored for its date are the ones
    computed from the source tables. *)
Theorem snapshot_leaves_other_dates p_date s s1 :
  calculate_daily_user_insights p_date s = Done true s1 ->
  src s1 = src s /\
  other_rows p_date s1 = other_rows p_date s /\
  (forall d, d <> p_date -> stored d s1 = stored d s) /\
  exists m, compute_metrics p_date (src s) tt = Done m tt /\
            stored p_date s1 = Some m.
Proof.
  intros H. apply calculate_stores in H as (m & Hm & Hst & Hsrc & Hother).
  split; [exact Hsrc|]. split; [exact Hother|]. split; [|now exists m].
  intros d Hd. unfold stored. f_equal.
  assert (Hfind : forall rows,
    find (fun r => in_date r =? d) rows =
    find (fun r => in_date r =? d)
         (filter (fun r => negb (in_date r =? p_date)) rows)).
  { induction rows as [|x rows IH]; [reflexivity|]. cbn [find filter].
    destruct (Z.eqb_spec (in_date x) p_date) as [Hx|Hx]; cbn [negb find].
    - destruct (Z.eqb_spec (in_date x) d); [congruence|exact IH].
    - destruct (in_date x =? d); [reflexivity|exact IH]. }
  rewrite (Hfind (all_user_insights s1)), (Hfind (all_user_insights s)).
  unfold other_rows in Hother. now rewrite Hother.
Qed.

Lemma snapshot_leaves_other_dates_witness :
  let s1 := state_after (calculate_daily_user_insights 4) sample_db_day5 in
  src s1 = src sample_db_day5 /\
  other_rows 4 s1 = other_rows 4 sample_db_day5 /\
  (forall d, d <> 4 -> stored d s1 = stored d sample_db_day5) /\
  exists m, compute_metrics 4 (src sample_db_day5) tt = Done m tt /\
            stored 4 s1 = Some m.
Proof.
  apply (snapshot_leaves_other_dates 4 sample_db_day5).
  vm_compute. reflexivity.
Defined.

(** X24: the [challenge_actions] a snapshot stores, the sum of the Morning
    Basics count and the count of the other actions, is the number of all
    [completed_actions] rows of the date. *)
Theorem challenge_actions_counts_all_actions p_date s s1 :
  calculate_daily_user_insights p_date s = Done true s1 ->
  exists m,
    stored p_date s1 = Some m /\
    challenge_actions m =
      Z.of_nat (List.length
        (filter (fun a => ca_completed_date a =? p_date)
                (completed_actions (src s)))).
Proof.
  intros H. apply calculate_stores in H as (m & Hm & Hst & _).
  exists m. split; [exact Hst|].
  apply compute_metrics_counts in Hm
    as (_ & _ & _ & _ & _ & _ & _ & _ & _ & _ & -> & _).
  apply (filter_split_length (fun a => ca_completed_date a =? p_date)
           (fun a => String.eqb (action_id a) "morning_basics_daily")).
Qed.

Lemma challenge_actions_counts_all_actions_witness :
  exists m,
    stored 5 sample_db_day5 = Some m /\
    challenge_actions m =
      Z.of_nat (List.length
        (filter (fun a => ca_completed_date a =? 5)
                (completed_actions (src sample_db)))).
Proof.
  apply (challenge_actions_counts_all_actions 5 sample_db sample_db_day5).
  vm_compute. reflexivity.
Defined.


(** *** The average level and its NUMERIC(4,2) variable *)

Lemma round_half_away_ge k q :
  1 <= k -> (inject_Z k <= q)%Q -> k <= round_half_away q.
Proof.
  intros Hk Hle. unfold round_half_away. destruct q as [n d].
  unfold Qle in Hle. cbn [Qnum Qden inject_Z] in Hle |- *.
  rewrite Z.mul_1_r in Hle. cbv zeta.
  pose proof (Pos2Z.is_pos d) as Hd.
  assert (Hn : 0 < n) by nia.
  rewrite Z.sgn_pos, Z.abs_eq, Z.mul_1_l by lia.
  apply Z.div_le_lower_bound; nia.
Qed.

Lemma non_null_levels (us : list user) :
  non_null (map (fun u => Some (inject_Z (level u))) us)
  = map (fun u => inject_Z (level u)) us.
Proof.
  unfold non_null. induction us as [|u us IH]; [reflexivity|].
  cbn. now rewrite IH.
Qed.

Lemma Qsum_levels (us : list user) :
  (forall u, In u us -> 100 <= level u) ->
  (inject_Z (100 * Z.of_nat (List.length us))
   <= Qsum (map (fun u => inject_Z (level u)) us))%Q.
Proof.
  induction us as [|u us IH]; intros Hall.
  - cbn. apply Qle_refl.
  - cbn [map Qsum fold_right List.length].
    replace (100 * Z.of_nat (S (List.length us)))
      with (100 + 100 * Z.of_nat (List.length us)) by lia.
    rewrite inject_Z_plus. apply Qplus_le_compat.
    + rewrite <- Zle_Qle. apply Hall. now left.
    + apply IH. intros u' Hin. apply Hall. now right.
Qed.

Lemma average_level_overflows {S} (us : list user) (s : S) :
  us <> [] -> (forall u, In u us -> 100 <= level u) ->
  to_numeric 4 2 (sql_avg (map (fun u => Some (inject_Z (level u))) us)) s
  = Raised numeric_field_overflow.
Proof.
  intros Hne Hall. unfold sql_avg. rewrite non_null_levels.
  destruct (map (fun u => inject_Z (level u)) us) as [|v vs] eqn:E.
  { destruct us; [contradiction|discriminate]. }
  rewrite <- E.
  assert (Hlen : 0 < Z.of_nat (List.length (map (fun u => inject_Z (level u)) us))).
  { rewrite E. cbn. lia. }
  unfold to_numeric.
  match goal with
  | |- (if Z.abs ?u <? _ then _ else _) _ = _ => assert (Hu : 10000 <= u)
  end.
  { apply round_half_away_ge; [lia|].
    change (inject_Z 10000) with (inject_Z (100 * 10 ^ 2)).
    rewrite inject_Z_mult. apply Qmult_le_compat_r; [|discriminate].
    rewrite Qred_correct. apply Qle_shift_div_l.
    - change 0%Q with (inject_Z 0). now rewrite <- Zlt_Qlt.
    - rewrite <- inject_Z_mult, length_map. now apply Qsum_levels. }
  match goal with
  | |- (if ?b then _ else _) _ = _ => replace b with false; [reflexivity|]
  end.
  symmetry. apply Z.ltb_ge. change (10 ^ 4) with 10000. lia.
Qed.

(** X25: [v_average_level] is a NUMERIC(4,2): when there are users and
    every user's level is 100 or more, the average does not fit, and the
    snapshot raises instead of storing a row. *)
Theorem snapshot_fails_on_high_levels p_date s :
  users (src s) <> [] ->
  (forall u, In u (users (src s)) -> 100 <= level u) ->
  exists e, calculate_daily_user_insights p_date s = Raised e.
Proof.
  intros Hne Hall. unfold calculate_daily_user_insights.
  destruct (compute_metrics p_date (src s) tt) as [m u|e] eqn:Hm;
    [|now exists e].
  exfalso. unfold compute_metrics in Hm.
  repeat (cbv zeta beta in Hm;
          match type of Hm with
          | bind (to_numeric 4 2 (sql_avg (map (fun u => Some (inject_Z (level u))) _)))
              _ _ = _ =>
              let Hn := fresh "Hlevel" in
              apply bind_done in Hm as (? & ? & Hn & Hm);
              rewrite average_level_overflows in Hn by assumption;
              discriminate
          | bind _ _ _ = _ => apply bind_done in Hm as (? & ? & _ & Hm)
          end).
Qed.

Lemma snapshot_fails_on_high_levels_witness :
  exists e, calculate_daily_user_insights 5 high_level_db = Raised e.
Proof.
  apply (snapshot_fails_on_high_levels 5 high_level_db).
  - discriminate.
  - intros u Hin. cbn in Hin.
    destruct Hin as [<-|[<-|[]]]; vm_compute; discriminate.
Defined.

End InsightsMore.

(** * Properties of the running count of challenge actions *)

Section ChallengeActionsFacts.
Import ChallengeActions.

Lemma verified_on_le (s : db) day :
  0 <= verified_on s day <= Z.of_nat (List.length (chat_messages s)).
Proof.
  unfold verified_on. split; [lia|].
  apply Nat2Z.inj_le.
  induction (chat_messages s) as [|m l IH]; [apply Nat.le_refl|].
  cbn. destruct (is_verification_of day m); cbn; lia.
Qed.

Lemma update_insights_map p f (g : insight -> insight) (s : db) :
  (forall r, In r (all_user_insights s) -> p r = true ->
             f r tt = Done (g r) tt) ->
  update_insights p f s
  = Done tt (set_all_user_insights
               (map (fun r => if p r then g r else r)) s).
Proof.
  intros Hf. unfold update_insights.
  induction (all_user_insights s) as [|r rows IH] eqn:E in s, Hf |- *.
  - cbn. unfold ret, set_all_user_insights. now rewrite E.
  - assert (Hrows : update_rows p f (r :: rows) tt
                    = Done (map (fun r => if p r then g r else r) (r :: rows)) tt).
    { clear IH E. revert Hf. generalize (r :: rows) as l.
      induction l as [|x l IHl]; intros Hf; [reflexivity|].
      cbn [update_rows map]. unfold bind.
      destruct (p x) eqn:Hp.
      - rewrite (Hf x (or_introl eq_refl) Hp).
        rewrite IHl by (intros r' Hin; apply Hf; now right). reflexivity.
      - unfold ret at 1.
        rewrite IHl by (intros r' Hin; apply Hf; now right). reflexivity. }
    rewrite Hrows. unfold set_all_user_insights. now rewrite E.
Qed.

(** One round of the loop of [recalculate_challenge_actions]. *)
Lemma recalculate_body_round day (s : db) :
  Z.of_nat (List.length (chat_messages s)) <= int4_max ->
  recalculate_body day tt s
  = Done tt (set_all_user_insights
               (map (fun r => if in_date r =? day then recounted s r else r))
               s).
Proof.
  intros Hlen. unfold recalculate_body, bind, gets, Insights.count_into.
  pose proof (verified_on_le s day) as Hv. unfold verified_on in Hv.
  unfold int4.
  replace (int4_min <=? _) with true
    by (symmetry; apply Z.leb_le; unfold int4_min; lia).
  replace (_ <=? int4_max) with true by (symmetry; apply Z.leb_le; lia).
  cbn [andb]. unfold ret at 1.
  rewrite (update_insights_map _ _
             (fun r => {| in_date := in_date r;
                          challenge_actions := Some (verified_on s day) |}))
    by reflexivity.
  f_equal. unfold set_all_user_insights. f_equal.
  apply map_ext. intros r.
  destruct (in_date r =? day) eqn:E; [|reflexivity].
  apply Z.eqb_eq in E. unfold recounted. now rewrite E.
Qed.

(** The loop, from the rows of the days [done] already recounted. *)
Lemma recalculate_loop (s : db) days :
  Z.of_nat (List.length (chat_messages s)) <= int4_max ->
  forall done : list date,
    Streak.for_loop recalculate_body days tt
      (set_all_user_insights
         (map (fun r => if existsb (Z.eqb (in_date r)) done
                        then recounted s r else r)) s)
    = Done tt
        (set_all_user_insights
           (map (fun r => if existsb (Z.eqb (in_date r)) (rev days ++ done)
                          then recounted s r else r)) s).
Proof.
  intros Hlen. induction days as [|day days IH]; intros done.
  - reflexivity.
  - cbn [Streak.for_loop]. unfold bind at 1.
    rewrite recalculate_body_round by exact Hlen.
    specialize (IH (day :: done)).
    cbn [rev]. rewrite <- app_assoc. cbn [app].
    rewrite <- IH. f_equal.
    unfold set_all_user_insights. cbn [chat_messages all_user_insights].
    f_equal. rewrite map_map. apply map_ext. intros r.
    cbn [existsb].
    destruct (existsb (Z.eqb (in_date r)) done) eqn:Ed.
    + cbn [recounted in_date]. rewrite orb_true_r.
      unfold recounted, verified_on. cbn [in_date chat_messages].
      now destruct (in_date r =? day).
    + rewrite orb_false_r.
      destruct (in_date r =? day); [|reflexivity].
      unfold recounted, verified_on. reflexivity.
Qed.

Lemma order_by_dates_in (l : list date) (d : date) :
  In d l -> In d (order_by Z.leb l).
Proof.
  induction l as [|x l IH]; [easy|].
  intros Hin. cbn [order_by fold_right].
  assert (Hins : forall (y : date) (m : list date),
             In d (y :: m) -> In d (insert_sorted Z.leb y m)).
  { intros y m. induction m as [|z m IHm]; intros H; [exact H|].
    cbn [insert_sorted]. destruct (y <=? z); [exact H|].
    destruct H as [<-|[<-|H]].
    - right. apply IHm. now left.
    - now left.
    - right. apply IHm. now right. }
  apply Hins. destruct Hin as [->|Hin]; [now left|right; now apply IH].
Qed.

(** X26: when the number of chat messages fits an INTEGER,
    [recalculate_challenge_actions] completes and sets [challenge_actions],
    in every row of [all_user_insights], to the number of verification
    messages created on the row's date, leaving dates and messages alone; a
    second run changes nothing. *)
Theorem recalculate_challenge_actions_result (s : db) :
  Z.of_nat (List.length (chat_messages s)) <= int4_max ->
  let s' := set_all_user_insights (map (recounted s)) s in
  recalculate_challenge_actions s = Done tt s' /\
  recalculate_challenge_actions s' = Done tt s'.
Proof.
  intros Hlen.
  assert (Hrun : forall t : db,
             Z.of_nat (List.length (chat_messages t)) <= int4_max ->
             recalculate_challenge_actions t
             = Done tt (set_all_user_insights (map (recounted t)) t)).
  { intros t Ht. unfold recalculate_challenge_actions, bind, gets.
    pose proof (recalculate_loop t
                  (order_by Z.leb (map in_date (all_user_insights t))) Ht [])
      as Hloop.
    match type of Hloop with
    | Streak.for_loop _ _ _ ?t0 = _ =>
        assert (Hstart : t0 = t)
          by (unfold set_all_user_insights; cbn [existsb];
              rewrite map_id; now destruct t);
        rewrite Hstart in Hloop
    end.
    rewrite Hloop. f_equal. unfold set_all_user_insights. f_equal.
    apply map_ext_in. intros r Hin.
    replace (existsb _ _) with true; [reflexivity|].
    symmetry. apply existsb_exists. exists (in_date r).
    split; [|apply Z.eqb_refl].
    rewrite app_nil_r. apply -> in_rev.
    apply order_by_dates_in. now apply in_map. }
  cbn zeta. split; [now apply Hrun|].
  rewrite Hrun by exact Hlen.
  f_equal. unfold set_all_user_insights.
  cbn [chat_messages all_user_insights]. f_equal.
  rewrite map_map. apply map_ext. intros r. reflexivity.
Qed.

Lemma recalculate_challenge_actions_result_witness :
  recalculate_challenge_actions posts_db = Done tt recounted_db /\
  recalculate_challenge_actions recounted_db = Done tt recounted_db /\
  map challenge_actions (all_user_insights recounted_db)
  = [Some 3; Some 1; Some 0].
Proof.
  destruct (recalculate_challenge_actions_result posts_db) as [H1 H2].
  - vm_compute. discriminate.
  - split; [exact H1 | split; [exact H2 | reflexivity]].
Defined.

Lemma verified_on_post (s : db) NEW day :
  verified_on (set_chat_messages (fun l => l ++ [NEW]) s) day
  = verified_on s day + (if is_verification_of day NEW then 1 else 0).
Proof.
  unfold verified_on, set_chat_messages. cbn [chat_messages].
  rewrite filter_app, length_app. cbn [filter].
  destruct (is_verification_of day NEW); cbn [List.length]; lia.
Qed.

(** X27: the trigger keeps the counts the recalculation gives: if every row
    of [all_user_insights] holds the number of verification messages of its
    day, the inserted message is created today, and today has a row or no
    verification message yet, then after the INSERT on [chat_messages] and
    its trigger every row still holds the number of verification messages of
    its day. *)
Theorem verification_post_keeps_counts today NEW (s : db) :
  counts_agree s ->
  DATE (Insights.cm_created_at NEW) = today ->
  has_row today s = true \/ verified_on s today = 0 ->
  Z.of_nat (List.length (chat_messages s)) < int4_max ->
  exists s',
    insert_chat_message today NEW s = Done tt s' /\
    chat_messages s' = chat_messages s ++ [NEW] /\
    counts_agree s'.
Proof.
  intros Hagree Hday Hrow Hlen.
  unfold insert_chat_message, update_challenge_action_count.
  cbv zeta. unfold bind at 1. unfold modify at 1.
  set (s1 := set_chat_messages (fun l => l ++ [NEW]) s).
  assert (Hrows1 : all_user_insights s1 = all_user_insights s) by reflexivity.
  assert (Hmsgs1 : chat_messages s1 = chat_messages s ++ [NEW]) by reflexivity.
  assert (Hv : forall day,
             verified_on s1 day
             = verified_on s day +
               (if Insights.is_verification NEW && (today =? day)
                then 1 else 0)).
  { intros day. unfold s1. rewrite verified_on_post.
    unfold is_verification_of. now rewrite Hday. }
  destruct (Insights.is_verification NEW) eqn:Hver.
  - unfold bind, gets.
    change (existsb (fun r => in_date r =? today) (all_user_insights s1))
      with (has_row today s).
    destruct (has_row today s) eqn:Hhas; cbn [negb].
    + rewrite (update_insights_map _ _
                 (fun r => {| in_date := in_date r;
                              challenge_actions :=
                                Some (COALESCE (challenge_actions r) 0 + 1) |})).
      * unfold ret. eexists. split; [reflexivity|]. split; [reflexivity|].
        intros r' Hin. unfold set_all_user_insights in Hin.
        cbn [all_user_insights chat_messages] in Hin.
        apply in_map_iff in Hin as (r & <- & Hin).
        specialize (Hagree r Hin).
        match goal with
        | |- _ = Some (verified_on ?t ?d) =>
            change (verified_on t d) with (verified_on s1 d)
        end.
        rewrite Hv. cbn [andb].
        destruct (in_date r =? today) eqn:E; cbn [in_date challenge_actions].
        -- rewrite Hagree. cbn [COALESCE]. rewrite Z.eqb_sym, E. reflexivity.
        -- rewrite Z.eqb_sym, E, Z.add_0_r. exact Hagree.
      * intros r Hin Hp. rewrite Hrows1 in Hin.
        specialize (Hagree r Hin). rewrite Hagree. cbn [COALESCE].
        pose proof (verified_on_le s (in_date r)) as Hle.
        unfold int4.
        replace (int4_min <=? _) with true
          by (symmetry; apply Z.leb_le; unfold int4_min; lia).
        replace (_ <=? int4_max) with true by (symmetry; apply Z.leb_le; lia).
        reflexivity.
    + destruct Hrow as [Hrow|Hzero]; [discriminate|].
      unfold modify, ret. eexists. split; [reflexivity|].
      split; [reflexivity|].
      intros r Hin. unfold set_all_user_insights in Hin.
      cbn [all_user_insights] in Hin. rewrite Hrows1 in Hin.
      match goal with
      | |- _ = Some (verified_on ?t ?d) =>
          change (verified_on t d) with (verified_on s1 d)
      end.
      rewrite Hv. cbn [andb].
      apply in_app_or in Hin as [Hin|[<-|[]]].
      * assert (E : (today =? in_date r) = false).
        { apply Z.eqb_neq. intros Heq.
          unfold has_row in Hhas.
          assert (Hex : existsb (fun r0 => in_date r0 =? today)
                          (all_user_insights s) = true).
          { apply existsb_exists. exists r. split; [exact Hin|].
            apply Z.eqb_eq. now symmetry. }
          congruence. }
        rewrite E, Z.add_0_r. now apply Hagree.
      * cbn [in_date challenge_actions]. rewrite Z.eqb_refl, Hzero.
        reflexivity.
  - unfold bind, ret. exists s1. split; [reflexivity|].
    split; [reflexivity|].
    intros r Hin. rewrite Hrows1 in Hin.
    rewrite Hv. cbn [andb]. rewrite Z.add_0_r. now apply Hagree.
Qed.

Lemma verification_post_keeps_counts_witness :
  exists s',
    insert_chat_message 5 (post (5 * 86400 + 50) true) recounted_db
    = Done tt s' /\
    chat_messages s'
    = chat_messages recounted_db ++ [post (5 * 86400 + 50) true] /\
    counts_agree s'.
Proof.
  apply (verification_post_keeps_counts 5 (post (5 * 86400 + 50) true)
           recounted_db).
  - intros r Hin. vm_compute in Hin.
    destruct Hin as [<-|[<-|[<-|[]]]]; reflexivity.
  - reflexivity.
  - left. reflexivity.
  - vm_compute. reflexivity.
Defined.

End ChallengeActionsFacts.

(** * Properties of the daily form *)

Section DailyFormFacts.
Import DailyForm.

Lemma includes_In l x : includes l x = true <-> In x l.
Proof.
  unfold includes. rewrite existsb_exists. split.
  - intros (y & Hin & Heq). apply String.eqb_eq in Heq. now subst.
  - intros Hin. exists x. split; [exact Hin|apply String.eqb_refl].
Qed.

Lemma includes_app l m x : includes (l ++ m) x = includes l x || includes m x.
Proof. unfold includes. apply existsb_app. Qed.

Lemma includes_filter_out l a x :
  includes (filter (fun id => negb (String.eqb id a)) l) x
  = negb (String.eqb x a) && includes l x.
Proof.
  unfold includes. induction l as [|y l IH].
  - cbn. now rewrite andb_false_r.
  - cbn [filter existsb]. destruct (String.eqb y a) eqn:Eya; cbn [negb].
    + rewrite IH. apply String.eqb_eq in Eya. subst y.
      destruct (String.eqb x a); reflexivity.
    + cbn [existsb]. rewrite IH.
      destruct (String.eqb x y) eqn:Exy; [|reflexivity].
      apply String.eqb_eq in Exy. subst y. now rewrite Eya.
Qed.

(** A click flips the clicked action and leaves the others as they were. *)
Lemma includes_toggle l a x :
  includes (handleToggleAction l a) x
  = xorb (String.eqb x a) (includes l x).
Proof.
  unfold handleToggleAction. destruct (includes l a) eqn:Ea.
  - rewrite includes_filter_out.
    destruct (String.eqb x a) eqn:Exa; cbn [negb andb xorb].
    + apply String.eqb_eq in Exa. subst x. now rewrite Ea.
    + now destruct (includes l x).
  - rewrite includes_app. cbn [includes existsb]. rewrite orb_false_r.
    destruct (String.eqb x a) eqn:Exa.
    + apply String.eqb_eq in Exa. subst x. now rewrite Ea.
    + now rewrite orb_false_r, xorb_false_l.
Qed.

Lemma toggle_NoDup l a : NoDup l -> NoDup (handleToggleAction l a).
Proof.
  intros Hl. unfold handleToggleAction. destruct (includes l a) eqn:Ea.
  - now apply NoDup_filter.
  - apply NoDup_app; [exact Hl | constructor; [easy|constructor] |].
    intros x Hin [<-|[]]. apply includes_In in Hin. congruence.
Qed.

Lemma clicks_from l clicks :
  NoDup l ->
  NoDup (fold_left handleToggleAction clicks l) /\
  forall a,
    includes (fold_left handleToggleAction clicks l) a
    = xorb (Nat.odd (count_occ string_dec clicks a)) (includes l a).
Proof.
  revert l. induction clicks as [|c clicks IH]; intros l Hl.
  - split; [exact Hl|]. intros a. reflexivity.
  - cbn [fold_left].
    destruct (IH (handleToggleAction l c) (toggle_NoDup l c Hl)) as [Hnd Hin].
    split; [exact Hnd|]. intros a. rewrite Hin, includes_toggle.
    cbn [count_occ]. destruct (string_dec c a) as [->|Hne].
    + rewrite String.eqb_refl, Nat.odd_succ, <- Nat.negb_odd.
      destruct (Nat.odd _), (includes l a); reflexivity.
    + replace (String.eqb a c) with false
        by (symmetry; apply String.eqb_neq; congruence).
      now rewrite xorb_false_l.
Qed.

(** X28: from the empty selection the form opens with, after any series of
    clicks the selection lists no action twice, and an action is selected
    exactly when it has been clicked an odd number of times. *)
Theorem selection_after_clicks clicks :
  NoDup (after_clicks clicks) /\
  forall actionId,
    includes (after_clicks clicks) actionId
    = Nat.odd (count_occ string_dec clicks actionId).
Proof.
  unfold after_clicks.
  destruct (clicks_from [] clicks (NoDup_nil _)) as [Hnd Hin].
  split; [exact Hnd|]. intros a. rewrite Hin. cbn. apply xorb_false_r.
Qed.

End DailyFormFacts.
